(** * Kraken trading bot: indicator engine, signal generator and risk manager

    A shallow embedding of [technical_analysis.py], [signal_generator.py] and
    [risk_manager.py], and the properties of the decision / risk core.

    Numbers.  numpy's [float64] and Python's [float] are IEEE-754 binary64;
    the indicator engine and the signal generator are embedded over Rocq's
    primitive binary64 floats, so that a run of the model on a concrete window
    is the run of the program.  The risk manager is written once over an
    interface [PyFloat] of the arithmetic it uses and is instantiated twice:
    at binary64 (to run it) and at the exact rationals (to state the
    arithmetic laws the sizing rule is meant to obey, rounding aside).
    Bounds on products and quotients are proved at the rationals and say so;
    what the sizing rule guarantees in binary64 (the clamp on the volume) is
    proved from the IEEE-754 order of the doubles; where the program branches
    on a float comparison (such as [get_open_volume() == 0]) the binary64 run
    decides what it does.

    Effects.  Python exceptions are a [result]; the manager's mutable state is
    passed explicitly; [save_state] only writes a file inside a
    [try/except Exception] and logging only prints, so neither changes the
    state and both are left out. *)

From Stdlib Require Import Floats QArith Qabs Qminmax Lqa ZArith List String Bool Lia.
Import ListNotations.

Set Warnings "-inexact-float".

(* ================================================================== *)
(** ** Python results and exceptions *)

Module Py.

Inductive exn : Type :=
| AttributeError (attr : string)
| ZeroDivisionError
| IndexError.

Inductive result (A : Type) : Type :=
| Ok (a : A)
| Raise (e : exn).

Arguments Ok {A} a.
Arguments Raise {A} e.

Definition bind {A B : Type} (r : result A) (k : A -> result B) : result B :=
  match r with
  | Ok a => k a
  | Raise e => Raise e
  end.

Definition returns {A : Type} (r : result A) : Prop :=
  exists a, r = Ok a.

(** A Python [dict] with string keys: insertion ordered, one entry per key.
    Assigning to a key that is present keeps its place. *)
Definition dict (V : Type) : Type := list (string * V).

Fixpoint dict_get {V : Type} (k : string) (d : dict V) : option V :=
  match d with
  | [] => None
  | (k', v) :: d' => if String.eqb k k' then Some v else dict_get k d'
  end.

Fixpoint dict_set {V : Type} (k : string) (v : V) (d : dict V) : dict V :=
  match d with
  | [] => [(k, v)]
  | (k', v') :: d' =>
      if String.eqb k k' then (k, v) :: d' else (k', v') :: dict_set k v d'
  end.

Fixpoint dict_pop {V : Type} (k : string) (d : dict V) : dict V :=
  match d with
  | [] => []
  | (k', v') :: d' =>
      if String.eqb k k' then d' else (k', v') :: dict_pop k d'
  end.

(** The representation invariant of a Python dict: one entry per key. *)
Fixpoint dict_wf {V : Type} (d : dict V) : bool :=
  match d with
  | [] => true
  | (k, _) :: d' =>
      match dict_get k d' with
      | None => dict_wf d'
      | Some _ => false
      end
  end.

Definition dict_values {V : Type} (d : dict V) : list V := map snd d.

End Py.

Import Py.

Declare Scope py_scope.
Delimit Scope py_scope with py.

Notation "x <- e ;; k" := (Py.bind e (fun x => k))
  (at level 61, e at next level, right associativity) : py_scope.

(* ================================================================== *)
(** ** The arithmetic of a Python float *)

Class PyFloat (F : Type) : Type := {
  dec : Q -> F;              (* a decimal literal such as [0.30] *)
  fadd : F -> F -> F;
  fsub : F -> F -> F;
  fmul : F -> F -> F;
  fdiv : F -> F -> F;        (* the quotient when the divisor is not zero *)
  fabs : F -> F;
  flt : F -> F -> bool;      (* [a < b] *)
  feq : F -> F -> bool       (* [a == b] *)
}.

(** binary64: a literal [n/d] with [n] and [d] below [2^53] is the correctly
    rounded quotient of two exact floats, which is the double the Python
    parser reads. *)
#[export] Instance binary64 : PyFloat float := {|
  dec q := PrimFloat.div (PrimFloat.of_uint63 (Uint63.of_Z (Qnum q)))
                         (PrimFloat.of_uint63 (Uint63.of_Z (Zpos (Qden q))));
  fadd := PrimFloat.add;
  fsub := PrimFloat.sub;
  fmul := PrimFloat.mul;
  fdiv := PrimFloat.div;
  fabs := PrimFloat.abs;
  flt := PrimFloat.ltb;
  feq := PrimFloat.eqb
|}.

(** Exact rational arithmetic: the same program with no rounding. *)
#[export] Instance exactQ : PyFloat Q := {|
  dec q := q;
  fadd := Qplus;
  fsub := Qminus;
  fmul := Qmult;
  fdiv := Qdiv;
  fabs := Qabs;
  flt a b := if Qlt_le_dec a b then true else false;
  feq := Qeq_bool
|}.

(** The comparisons [a <= b] and [a >= b], which the stop and target checks
    use. *)
Class PyFloatOrd (F : Type) `{PyFloat F} : Type := {
  fle : F -> F -> bool       (* [a <= b] *)
}.

#[export] Instance binary64_ord : PyFloatOrd float := {|
  fle := PrimFloat.leb
|}.

#[export] Instance exactQ_ord : PyFloatOrd Q := {|
  fle := Qle_bool
|}.

(** The rational number a finite double stands for (0 for the infinities and
    NaN), to compare what binary64 computed with the exact result. *)
Definition exact_value (x : float) : Q :=
  match Prim2SF x with
  | S754_finite s m e => inject_Z (cond_Zopp s (Zpos m)) * Qpower 2 e
  | _ => 0
  end.

(* ================================================================== *)
(** ** risk_manager.py *)

Module risk_manager.

Inductive PositionStatus : Type :=
| OPEN
| PARTIALLY_CLOSED
| CLOSED
| STOPPED_OUT.

Section WithFloat.

Context {F : Type} `{PyFloat F}.

Local Infix "+" := fadd : py_scope.
Local Infix "-" := fsub : py_scope.
Local Infix "*" := fmul : py_scope.
Local Infix "<" := flt : py_scope.
Local Infix "==" := feq (at level 70, no associativity) : py_scope.
Local Open Scope py_scope.

(** Python's [a / b] on floats raises when [b] is zero. *)
Definition truediv (a b : F) : result F :=
  if b == dec 0 then Raise ZeroDivisionError else Ok (fdiv a b).

(** Python's two-argument [min]: the first argument unless the second is
    smaller. *)
Definition py_min (a b : F) : F := if b < a then b else a.

(** Python's [sum]: starts from the integer 0 and adds left to right. *)
Definition py_sum (xs : list F) : F := fold_left fadd xs (dec 0).

Record Position : Type := {
  position_id : string;
  pair : string;
  side : string;                       (* "buy" or "sell" *)
  entry_price : F;
  volume : F;
  stop_loss : F;
  take_profit_1 : F;
  take_profit_2 : F;
  take_profit_3 : F;
  entry_time : nat;                    (* the clock reading at creation *)
  status : PositionStatus;
  volume_closed_tp1 : F;
  volume_closed_tp2 : F;
  volume_closed_tp3 : F;
  current_price : F;
  unrealized_pnl : F;
  realized_pnl : F
}.

Definition set_status (s : PositionStatus) (p : Position) : Position :=
  {| position_id := position_id p; pair := pair p; side := side p;
     entry_price := entry_price p; volume := volume p; stop_loss := stop_loss p;
     take_profit_1 := take_profit_1 p; take_profit_2 := take_profit_2 p;
     take_profit_3 := take_profit_3 p; entry_time := entry_time p;
     status := s;
     volume_closed_tp1 := volume_closed_tp1 p;
     volume_closed_tp2 := volume_closed_tp2 p;
     volume_closed_tp3 := volume_closed_tp3 p;
     current_price := current_price p; unrealized_pnl := unrealized_pnl p;
     realized_pnl := realized_pnl p |}.

Definition set_volume_closed_tp1 (v : F) (p : Position) : Position :=
  {| position_id := position_id p; pair := pair p; side := side p;
     entry_price := entry_price p; volume := volume p; stop_loss := stop_loss p;
     take_profit_1 := take_profit_1 p; take_profit_2 := take_profit_2 p;
     take_profit_3 := take_profit_3 p; entry_time := entry_time p;
     status := status p;
     volume_closed_tp1 := v;
     volume_closed_tp2 := volume_closed_tp2 p;
     volume_closed_tp3 := volume_closed_tp3 p;
     current_price := current_price p; unrealized_pnl := unrealized_pnl p;
     realized_pnl := realized_pnl p |}.

Definition set_volume_closed_tp2 (v : F) (p : Position) : Position :=
  {| position_id := position_id p; pair := pair p; side := side p;
     entry_price := entry_price p; volume := volume p; stop_loss := stop_loss p;
     take_profit_1 := take_profit_1 p; take_profit_2 := take_profit_2 p;
     take_profit_3 := take_profit_3 p; entry_time := entry_time p;
     status := status p;
     volume_closed_tp1 := volume_closed_tp1 p;
     volume_closed_tp2 := v;
     volume_closed_tp3 := volume_closed_tp3 p;
     current_price := current_price p; unrealized_pnl := unrealized_pnl p;
     realized_pnl := realized_pnl p |}.

Definition set_volume_closed_tp3 (v : F) (p : Position) : Position :=
  {| position_id := position_id p; pair := pair p; side := side p;
     entry_price := entry_price p; volume := volume p; stop_loss := stop_loss p;
     take_profit_1 := take_profit_1 p; take_profit_2 := take_profit_2 p;
     take_profit_3 := take_profit_3 p; entry_time := entry_time p;
     status := status p;
     volume_closed_tp1 := volume_closed_tp1 p;
     volume_closed_tp2 := volume_closed_tp2 p;
     volume_closed_tp3 := v;
     current_price := current_price p; unrealized_pnl := unrealized_pnl p;
     realized_pnl := realized_pnl p |}.

Definition set_realized_pnl (v : F) (p : Position) : Position :=
  {| position_id := position_id p; pair := pair p; side := side p;
     entry_price := entry_price p; volume := volume p; stop_loss := stop_loss p;
     take_profit_1 := take_profit_1 p; take_profit_2 := take_profit_2 p;
     take_profit_3 := take_profit_3 p; entry_time := entry_time p;
     status := status p;
     volume_closed_tp1 := volume_closed_tp1 p;
     volume_closed_tp2 := volume_closed_tp2 p;
     volume_closed_tp3 := volume_closed_tp3 p;
     current_price := current_price p; unrealized_pnl := unrealized_pnl p;
     realized_pnl := v |}.

Definition set_price_and_unrealized (price pnl : F) (p : Position) : Position :=
  {| position_id := position_id p; pair := pair p; side := side p;
     entry_price := entry_price p; volume := volume p; stop_loss := stop_loss p;
     take_profit_1 := take_profit_1 p; take_profit_2 := take_profit_2 p;
     take_profit_3 := take_profit_3 p; entry_time := entry_time p;
     status := status p;
     volume_closed_tp1 := volume_closed_tp1 p;
     volume_closed_tp2 := volume_closed_tp2 p;
     volume_closed_tp3 := volume_closed_tp3 p;
     current_price := price; unrealized_pnl := pnl;
     realized_pnl := realized_pnl p |}.

(** [Position.get_open_volume] *)
Definition get_open_volume (p : Position) : F :=
  volume p - volume_closed_tp1 p - volume_closed_tp2 p - volume_closed_tp3 p.

(** [Position.update_current_price] *)
Definition update_current_price (p : Position) (price : F) : Position :=
  if String.eqb (side p) "buy"
  then set_price_and_unrealized price
         ((price - entry_price p) * get_open_volume p) p
  else set_price_and_unrealized price
         ((entry_price p - price) * get_open_volume p) p.

Record RiskConfig : Type := {
  total_capital : F;
  risk_per_trade : F;
  max_positions : Z;
  max_position_size : F;
  max_drawdown : F;
  max_consecutive_losses : Z;
  trailing_stop_enabled : bool;
  trailing_stop_distance : F;
  pause_after_max_losses : bool;
  pause_duration_minutes : Z
}.

(** [RiskConfig(total_capital=c)] with the dataclass defaults. *)
Definition default_config (c : F) : RiskConfig :=
  {| total_capital := c;
     risk_per_trade := dec 0.02;
     max_positions := 5;
     max_position_size := dec 0.10;
     max_drawdown := dec 0.15;
     max_consecutive_losses := 3;
     trailing_stop_enabled := true;
     trailing_stop_distance := dec 0.05;
     pause_after_max_losses := true;
     pause_duration_minutes := 60 |}.

Record RiskManager : Type := {
  config : RiskConfig;
  positions : dict Position;
  closed_positions : list Position;
  consecutive_losses : Z;
  total_realized_pnl : F;
  peak_capital : F
}.

(** [RiskManager.__init__] when no [bot_state.json] is present. *)
Definition init (cfg : RiskConfig) : RiskManager :=
  {| config := cfg;
     positions := [];
     closed_positions := [];
     consecutive_losses := 0;
     total_realized_pnl := dec 0.0;
     peak_capital := total_capital cfg |}.

Definition with_positions (d : dict Position) (rm : RiskManager) : RiskManager :=
  {| config := config rm; positions := d;
     closed_positions := closed_positions rm;
     consecutive_losses := consecutive_losses rm;
     total_realized_pnl := total_realized_pnl rm;
     peak_capital := peak_capital rm |}.

Definition with_closed_positions (l : list Position) (rm : RiskManager)
  : RiskManager :=
  {| config := config rm; positions := positions rm;
     closed_positions := l;
     consecutive_losses := consecutive_losses rm;
     total_realized_pnl := total_realized_pnl rm;
     peak_capital := peak_capital rm |}.

Definition with_consecutive_losses (n : Z) (rm : RiskManager) : RiskManager :=
  {| config := config rm; positions := positions rm;
     closed_positions := closed_positions rm;
     consecutive_losses := n;
     total_realized_pnl := total_realized_pnl rm;
     peak_capital := peak_capital rm |}.

Definition with_total_realized_pnl (v : F) (rm : RiskManager) : RiskManager :=
  {| config := config rm; positions := positions rm;
     closed_positions := closed_positions rm;
     consecutive_losses := consecutive_losses rm;
     total_realized_pnl := v;
     peak_capital := peak_capital rm |}.

(** [get_current_capital]: initial + realized + unrealized. *)
Definition get_current_capital (rm : RiskManager) : F :=
  let unrealized := py_sum (map unrealized_pnl (dict_values (positions rm))) in
  total_capital (config rm) + total_realized_pnl rm + unrealized.

(** [get_available_capital] *)
Definition get_available_capital (rm : RiskManager) : F :=
  let capital_in_use :=
    py_sum (map (fun p => entry_price p * get_open_volume p)
                (dict_values (positions rm))) in
  get_current_capital rm - capital_in_use.

Inductive Reason : Type :=
| MaxPositionsReached (n : Z)
| MaxDrawdownReached (drawdown : F)
| MaxConsecutiveLosses (n : Z)
| ReasonOK.

(** [can_open_position] *)
Definition can_open_position (rm : RiskManager) : result (bool * Reason) :=
  if (Z.of_nat (List.length (positions rm)) >=? max_positions (config rm))%Z
  then Ok (false, MaxPositionsReached (max_positions (config rm)))
  else
    let current_capital := get_current_capital rm in
    drawdown <- truediv (peak_capital rm - current_capital) (peak_capital rm) ;;
    if max_drawdown (config rm) < drawdown
    then Ok (false, MaxDrawdownReached drawdown)
    else if (consecutive_losses rm >=? max_consecutive_losses (config rm))%Z
              && pause_after_max_losses (config rm)
    then Ok (false, MaxConsecutiveLosses (max_consecutive_losses (config rm)))
    else Ok (true, ReasonOK).

(** [calculate_position_size] *)
Definition calculate_position_size (rm : RiskManager)
    (entry_price stop_loss confidence : F) : result F :=
  let risk_amount :=
    total_capital (config rm) * risk_per_trade (config rm) * confidence in
  let risk_per_unit := fabs (entry_price - stop_loss) in
  if risk_per_unit == dec 0 then Ok (dec 0.0)
  else
    volume <- truediv risk_amount risk_per_unit ;;
    max_volume <- truediv (total_capital (config rm)
                           * max_position_size (config rm)) entry_price ;;
    let volume := py_min volume max_volume in
    let available_capital := get_available_capital rm in
    max_volume_by_capital <- truediv available_capital entry_price ;;
    let volume := py_min volume max_volume_by_capital in
    Ok volume.

(** [open_position] *)
Definition open_position (rm : RiskManager) (position_id pair side : string)
    (entry_price volume stop_loss take_profit_1 take_profit_2 take_profit_3 : F)
    (now : nat) : result (RiskManager * bool) :=
  can <- can_open_position rm ;;
  if negb (fst can) then Ok (rm, false)
  else
    let position :=
      {| position_id := position_id; pair := pair; side := side;
         entry_price := entry_price; volume := volume; stop_loss := stop_loss;
         take_profit_1 := take_profit_1; take_profit_2 := take_profit_2;
         take_profit_3 := take_profit_3; entry_time := now;
         status := OPEN;
         volume_closed_tp1 := dec 0.0;
         volume_closed_tp2 := dec 0.0;
         volume_closed_tp3 := dec 0.0;
         current_price := dec 0.0;
         unrealized_pnl := dec 0.0;
         realized_pnl := dec 0.0 |} in
    Ok (with_positions (dict_set position_id position (positions rm)) rm, true).

(** [update_position_price]; the Python function returns [None]. *)
Definition update_position_price (rm : RiskManager) (position_id : string)
    (current_price : F) : RiskManager * unit :=
  match dict_get position_id (positions rm) with
  | None => (rm, tt)
  | Some position =>
      (with_positions
         (dict_set position_id (update_current_price position current_price)
                   (positions rm)) rm, tt)
  end.

(** [_move_to_closed] *)
Definition _move_to_closed (rm : RiskManager) (position_id : string)
  : RiskManager :=
  match dict_get position_id (positions rm) with
  | None => rm
  | Some position =>
      with_closed_positions (closed_positions rm ++ [position])
        (with_positions (dict_pop position_id (positions rm)) rm)
  end.

(** The realized profit of closing [v] units at [close_price]. *)
Definition close_pnl (p : Position) (close_price v : F) : F :=
  if String.eqb (side p) "buy"
  then (close_price - entry_price p) * v
  else (entry_price p - close_price) * v.

(** [close_position_partial] *)
Definition close_position_partial (rm : RiskManager) (position_id : string)
    (tp_level : Z) (close_price : F) : RiskManager * F :=
  match dict_get position_id (positions rm) with
  | None => (rm, dec 0.0)
  | Some position =>
      let staged :=
        if (tp_level =? 1)%Z then
          let v := volume position * dec 0.30 in
          Some (v, set_volume_closed_tp1 v position)
        else if (tp_level =? 2)%Z then
          let v := volume position * dec 0.40 in
          Some (v, set_volume_closed_tp2 v position)
        else if (tp_level =? 3)%Z then
          let v := volume position * dec 0.30 in
          Some (v, set_volume_closed_tp3 v position)
        else None in
      match staged with
      | None => (rm, dec 0.0)
      | Some (volume_to_close, position) =>
          let pnl := close_pnl position close_price volume_to_close in
          let position := set_realized_pnl (realized_pnl position + pnl) position in
          let rm := with_total_realized_pnl (total_realized_pnl rm + pnl) rm in
          if get_open_volume position == dec 0 then
            let position := set_status CLOSED position in
            let rm := with_positions
                        (dict_set position_id position (positions rm)) rm in
            (_move_to_closed rm position_id, volume_to_close)
          else
            let position := set_status PARTIALLY_CLOSED position in
            (with_positions (dict_set position_id position (positions rm)) rm,
             volume_to_close)
      end
  end.

(** [close_position_stop_loss] *)
Definition close_position_stop_loss (rm : RiskManager) (position_id : string)
    (close_price : F) : RiskManager * F :=
  match dict_get position_id (positions rm) with
  | None => (rm, dec 0.0)
  | Some position =>
      let volume_to_close := get_open_volume position in
      let pnl := close_pnl position close_price volume_to_close in
      let position := set_realized_pnl (realized_pnl position + pnl) position in
      let rm := with_total_realized_pnl (total_realized_pnl rm + pnl) rm in
      let position := set_status STOPPED_OUT position in
      let rm := with_positions
                  (dict_set position_id position (positions rm)) rm in
      let rm := _move_to_closed rm position_id in
      let rm :=
        if pnl < dec 0
        then with_consecutive_losses (consecutive_losses rm + 1)%Z rm
        else with_consecutive_losses 0%Z rm in
      (rm, volume_to_close)
  end.

End WithFloat.

Arguments Position F : clear implicits.
Arguments RiskConfig F : clear implicits.
Arguments RiskManager F : clear implicits.

Section WithOrder.

Context {F : Type} `{PyFloatOrd F}.

Local Infix "+" := fadd : py_scope.
Local Infix "-" := fsub : py_scope.
Local Infix "*" := fmul : py_scope.
Local Infix "<" := flt : py_scope.
Local Infix "<=" := fle : py_scope.
Local Infix "==" := feq (at level 70, no associativity) : py_scope.
Local Open Scope py_scope.

(** [check_stop_loss] *)
Definition check_stop_loss (rm : RiskManager F) (position_id : string)
    (current_price : F) : bool :=
  match dict_get position_id (positions rm) with
  | None => false
  | Some position =>
      if String.eqb (side position) "buy"
      then (if current_price <= stop_loss position then true else false)
      else (if stop_loss position <= current_price then true else false)
  end.

(** [check_take_profit]: (level, reached). *)
Definition check_take_profit (rm : RiskManager F) (position_id : string)
    (current_price : F) : Z * bool :=
  match dict_get position_id (positions rm) with
  | None => (0%Z, false)
  | Some position =>
      if String.eqb (side position) "buy" then
        if (take_profit_3 position <= current_price)
           && (volume_closed_tp3 position == dec 0) then (3%Z, true)
        else if (take_profit_2 position <= current_price)
                && (volume_closed_tp2 position == dec 0) then (2%Z, true)
        else if (take_profit_1 position <= current_price)
                && (volume_closed_tp1 position == dec 0) then (1%Z, true)
        else (0%Z, false)
      else
        if (current_price <= take_profit_3 position)
           && (volume_closed_tp3 position == dec 0) then (3%Z, true)
        else if (current_price <= take_profit_2 position)
                && (volume_closed_tp2 position == dec 0) then (2%Z, true)
        else if (current_price <= take_profit_1 position)
                && (volume_closed_tp1 position == dec 0) then (1%Z, true)
        else (0%Z, false)
  end.

(** [get_drawdown] *)
Definition get_drawdown (rm : RiskManager F) : result F :=
  let current := get_current_capital rm in
  truediv (peak_capital rm - current) (peak_capital rm).

(** The dictionary [get_statistics] returns. *)
Record Statistics : Type := {
  total_trades : nat;
  winning_trades : nat;
  losing_trades : Z;
  win_rate : F;
  total_profit : F;
  total_loss : F;
  profit_factor : F;
  total_pnl : F;
  stat_current_capital : F;
  stat_available_capital : F;
  drawdown : F;
  open_positions : nat;
  stat_consecutive_losses : Z
}.

(** [get_statistics].  [winning / total] divides two integers, which Python
    rounds once, as the literal [winning/total] is. *)
Definition get_statistics (rm : RiskManager F) : result Statistics :=
  let total_trades := List.length (closed_positions rm) in
  let winning_trades :=
    List.length (filter (fun p => dec 0 < realized_pnl p)
                        (closed_positions rm)) in
  let losing_trades := (Z.of_nat total_trades - Z.of_nat winning_trades)%Z in
  let win_rate :=
    if (0 <? total_trades)%nat
    then dec (Z.of_nat winning_trades # Pos.of_nat total_trades)
    else dec 0 in
  let total_profit :=
    py_sum (map realized_pnl
              (filter (fun p => dec 0 < realized_pnl p)
                      (closed_positions rm))) in
  let total_loss :=
    fabs (py_sum (map realized_pnl
                    (filter (fun p => realized_pnl p < dec 0)
                            (closed_positions rm)))) in
  profit_factor <-
    (if dec 0 < total_loss then truediv total_profit total_loss
     else Ok (dec 0)) ;;
  let current_capital := get_current_capital rm in
  let available_capital := get_available_capital rm in
  drawdown <- get_drawdown rm ;;
  Ok {| total_trades := total_trades;
        winning_trades := winning_trades;
        losing_trades := losing_trades;
        win_rate := win_rate;
        total_profit := total_profit;
        total_loss := total_loss;
        profit_factor := profit_factor;
        total_pnl := total_realized_pnl rm;
        stat_current_capital := current_capital;
        stat_available_capital := available_capital;
        drawdown := drawdown;
        open_positions := List.length (positions rm);
        stat_consecutive_losses := consecutive_losses rm |}.

End WithOrder.

Arguments Statistics F : clear implicits.

End risk_manager.

(* ================================================================== *)
(** ** technical_analysis.py

    numpy arrays of [float64] are lists of binary64 floats.  Reductions
    ([np.mean], [ndarray.sum], pandas' rolling mean and standard deviation)
    are written as the left-to-right sum over the window; numpy and pandas
    reorder or stream these sums, which can move the last bits of a result
    when the partial sums are inexact.  The element-wise recurrences (EMA,
    RSI) are the program's operations in the program's order.  Periods are
    at least 1, as at every call site. *)

Module technical_analysis.

Local Open Scope float_scope.

Definition of_nat (n : nat) : float :=
  PrimFloat.of_uint63 (Uint63.of_Z (Z.of_nat n)).

(** [np.full_like(data, np.nan)] *)
Definition full_nan (data : list float) : list float :=
  map (fun _ => PrimFloat.nan) data.

Definition np_sum (xs : list float) : float := fold_left PrimFloat.add xs 0.

Definition np_mean (xs : list float) : float :=
  np_sum xs / of_nat (List.length xs).

(** [np.diff] *)
Fixpoint np_diff (data : list float) : list float :=
  match data with
  | x :: (y :: _) as rest => (y - x) :: np_diff rest
  | _ => []
  end.

(** [np.roll(a, 1)]: the last element comes first. *)
Definition np_roll1 (a : list float) : list float :=
  match a with
  | [] => []
  | _ => last a 0 :: removelast a
  end.

(** [np.maximum]: a NaN on either side gives NaN. *)
Definition np_maximum (a b : float) : float :=
  if PrimFloat.is_nan a then a
  else if PrimFloat.is_nan b then b
  else if a <? b then b else a.

(** Element-wise binary operation on arrays of one length. *)
Fixpoint map2 {A B C : Type} (f : A -> B -> C) (xs : list A) (ys : list B)
  : list C :=
  match xs, ys with
  | x :: xs', y :: ys' => f x y :: map2 f xs' ys'
  | _, _ => []
  end.

(** [pd.Series(data).rolling(window).agg()]: undefined until the window is
    full, then the aggregate of the last [window] values. *)
Definition rolling (agg : list float -> float) (window : nat)
    (data : list float) : list float :=
  map (fun i =>
         if (i + 1 <? window)%nat then PrimFloat.nan
         else agg (firstn window (skipn (i + 1 - window) data)))
      (seq 0 (List.length data)).

(** The sample standard deviation (pandas' default, [ddof=1]). *)
Definition std_sample (xs : list float) : float :=
  let m := np_mean xs in
  PrimFloat.sqrt
    (np_sum (map (fun x => (x - m) * (x - m)) xs)
     / of_nat (List.length xs - 1)).

Fixpoint ema_loop (multiplier prev : float) (data : list float) : list float :=
  match data with
  | [] => []
  | x :: rest =>
      let e := x * multiplier + prev * (1 - multiplier) in
      e :: ema_loop multiplier e rest
  end.

(** [calculate_ema] *)
Definition calculate_ema (data : list float) (period : nat) : list float :=
  if (List.length data <? period)%nat then full_nan data
  else
    let multiplier := 2.0 / of_nat (period + 1) in
    let sma0 := np_mean (firstn period data) in
    repeat sma0 period ++ ema_loop multiplier sma0 (skipn period data).

(** [calculate_sma] *)
Definition calculate_sma (data : list float) (period : nat) : list float :=
  if (List.length data <? period)%nat then full_nan data
  else rolling np_mean period data.

(** The relative strength, with the program's guard on a zero loss. *)
Definition rs_of (up down : float) : float :=
  if negb (down =? 0) then up / down else 0.

Definition rsi_of (rs : float) : float := 100.0 - 100.0 / (1.0 + rs).

Fixpoint rsi_loop (period : nat) (up down : float) (deltas : list float)
  : list float :=
  match deltas with
  | [] => []
  | delta :: rest =>
      let upval := if 0 <? delta then delta else 0.0 in
      let downval := if 0 <? delta then 0.0 else - delta in
      let up := (up * of_nat (period - 1) + upval) / of_nat period in
      let down := (down * of_nat (period - 1) + downval) / of_nat period in
      rsi_of (rs_of up down) :: rsi_loop period up down rest
  end.

(** [calculate_rsi] *)
Definition calculate_rsi (data : list float) (period : nat) : list float :=
  if (List.length data <? period + 1)%nat then full_nan data
  else
    let deltas := np_diff data in
    let seed := firstn (period + 1) deltas in
    let up := np_sum (filter (fun d => 0 <=? d) seed) / of_nat period in
    let down := - np_sum (filter (fun d => d <? 0) seed) / of_nat period in
    repeat (rsi_of (rs_of up down)) period
      ++ rsi_loop period up down (skipn (period - 1) deltas).

(** [calculate_macd]: (MACD, signal line, histogram). *)
Definition calculate_macd (data : list float) (fast slow signal : nat)
  : list float * list float * list float :=
  let ema_fast := calculate_ema data fast in
  let ema_slow := calculate_ema data slow in
  let macd := map2 PrimFloat.sub ema_fast ema_slow in
  let signal_line := calculate_ema macd signal in
  let histogram := map2 PrimFloat.sub macd signal_line in
  (macd, signal_line, histogram).

(** [calculate_bollinger_bands]: (upper, middle, lower). *)
Definition calculate_bollinger_bands (data : list float) (period : nat)
    (std_dev : float) : list float * list float * list float :=
  let middle := calculate_sma data period in
  let std := rolling std_sample period data in
  let upper := map2 (fun m s => m + s * std_dev) middle std in
  let lower := map2 (fun m s => m - s * std_dev) middle std in
  (upper, middle, lower).

(** The true range of each bar against the given previous closes. *)
Definition true_range (high low prev_close : list float) : list float :=
  let tr1 := map2 PrimFloat.sub high low in
  let tr2 := map2 (fun h c => PrimFloat.abs (h - c)) high prev_close in
  let tr3 := map2 (fun l c => PrimFloat.abs (l - c)) low prev_close in
  map2 np_maximum tr1 (map2 np_maximum tr2 tr3).

(** [calculate_atr] *)
Definition calculate_atr (high low close : list float) (period : nat)
  : list float :=
  if (List.length high <? period)%nat then full_nan high
  else
    let tr := true_range high low (np_roll1 close) in
    let tr := match tr, map2 PrimFloat.sub high low with
              | _ :: rest, tr1_0 :: _ => tr1_0 :: rest
              | _, _ => tr
              end in
    calculate_sma tr period.

(** [calculate_adx] *)
Definition calculate_adx (high low close : list float) (period : nat)
  : list float :=
  if (List.length high <? period * 2)%nat then full_nan high
  else
    let up_move := map2 PrimFloat.sub (tl high) (removelast high) in
    let down_move := map2 PrimFloat.sub (removelast low) (tl low) in
    let pos_dm := map2 (fun u d => if (d <? u) && (0 <? u) then u else 0)
                       up_move down_move in
    let neg_dm := map2 (fun u d => if (u <? d) && (0 <? d) then d else 0)
                       up_move down_move in
    let tr := true_range (tl high) (tl low) (removelast close) in
    let di_plus := map2 (fun a b => 100 * a / b)
                        (calculate_sma pos_dm period) (calculate_sma tr period) in
    let di_minus := map2 (fun a b => 100 * a / b)
                         (calculate_sma neg_dm period) (calculate_sma tr period) in
    let dx := map2 (fun p m => 100 * PrimFloat.abs (p - m) / (p + m + 1e-10))
                   di_plus di_minus in
    calculate_sma dx period.

(** One row of the OHLCV table, [[time, open, high, low, close, volume]]. *)
Record Bar : Type := {
  time : float;
  open : float;
  high : float;
  low : float;
  close : float;
  volume : float
}.

(** [data[:, i]] *)
Definition column (i : nat) (data : list Bar) : list float :=
  map (fun b =>
         match i with
         | 0%nat => time b
         | 1%nat => open b
         | 2%nat => high b
         | 3%nat => low b
         | 4%nat => close b
         | _ => volume b
         end) data.

Record TechnicalIndicators : Type := {
  ema_12 : float;
  ema_50 : float;
  ema_200 : float;
  rsi_14 : float;
  macd : float;
  macd_signal : float;
  macd_histogram : float;
  bb_upper : float;
  bb_middle : float;
  bb_lower : float;
  atr_14 : float;
  adx_14 : float;
  volume_ma : float;
  current_volume : float
}.

(** Attribute access on the dataclass: the fourteen declared fields exist,
    any other name raises [AttributeError]. *)
Definition getattr (ind : TechnicalIndicators) (name : string) : result float :=
  if String.eqb name "ema_12" then Ok (ema_12 ind)
  else if String.eqb name "ema_50" then Ok (ema_50 ind)
  else if String.eqb name "ema_200" then Ok (ema_200 ind)
  else if String.eqb name "rsi_14" then Ok (rsi_14 ind)
  else if String.eqb name "macd" then Ok (macd ind)
  else if String.eqb name "macd_signal" then Ok (macd_signal ind)
  else if String.eqb name "macd_histogram" then Ok (macd_histogram ind)
  else if String.eqb name "bb_upper" then Ok (bb_upper ind)
  else if String.eqb name "bb_middle" then Ok (bb_middle ind)
  else if String.eqb name "bb_lower" then Ok (bb_lower ind)
  else if String.eqb name "atr_14" then Ok (atr_14 ind)
  else if String.eqb name "adx_14" then Ok (adx_14 ind)
  else if String.eqb name "volume_ma" then Ok (volume_ma ind)
  else if String.eqb name "current_volume" then Ok (current_volume ind)
  else Raise (AttributeError name).

Record MarketDataProcessor : Type := {
  min_candles : Z
}.

(** [MarketDataProcessor()] *)
Definition default_processor : MarketDataProcessor := {| min_candles := 200 |}.

(** [a[-1]] on a non-empty array. *)
Definition last_of (a : list float) : float := last a PrimFloat.nan.

(** [process_ohlcv].  An empty table has no column to slice. *)
Definition process_ohlcv (self : MarketDataProcessor) (ohlcv_data : list Bar)
  : result (option TechnicalIndicators) :=
  if (Z.of_nat (List.length ohlcv_data) <? min_candles self)%Z then Ok None
  else
    match ohlcv_data with
    | [] => Raise IndexError
    | _ =>
        let close := column 4 ohlcv_data in
        let high := column 3 ohlcv_data in
        let low := column 2 ohlcv_data in
        let volume := column 5 ohlcv_data in
        let ema_12 := last_of (calculate_ema close 12) in
        let ema_50 := last_of (calculate_ema close 50) in
        let ema_200 := last_of (calculate_ema close 200) in
        let rsi_14 := last_of (calculate_rsi close 14) in
        let '(macd, macd_signal, macd_histogram) :=
          calculate_macd close 12 26 9 in
        let '(bb_upper, bb_middle, bb_lower) :=
          calculate_bollinger_bands close 20 2.0 in
        let atr_14 := last_of (calculate_atr high low close 14) in
        let adx_14 := last_of (calculate_adx high low close 14) in
        let volume_ma := last_of (calculate_sma volume 50) in
        let current_volume := last_of volume in
        Ok (Some {| ema_12 := ema_12; ema_50 := ema_50; ema_200 := ema_200;
                    rsi_14 := rsi_14;
                    macd := last_of macd;
                    macd_signal := last_of macd_signal;
                    macd_histogram := last_of macd_histogram;
                    bb_upper := last_of bb_upper;
                    bb_middle := last_of bb_middle;
                    bb_lower := last_of bb_lower;
                    atr_14 := atr_14; adx_14 := adx_14;
                    volume_ma := volume_ma;
                    current_volume := current_volume |})
    end.

(** [get_trend] *)
Definition get_trend (indicators : TechnicalIndicators) : string :=
  if (ema_50 indicators <? ema_12 indicators)
     && (ema_200 indicators <? ema_50 indicators) then "UPTREND"
  else if (ema_12 indicators <? ema_50 indicators)
          && (ema_50 indicators <? ema_200 indicators) then "DOWNTREND"
  else "SIDEWAYS".

(** [get_trend_strength] *)
Definition get_trend_strength (indicators : TechnicalIndicators) : string :=
  if 25 <? adx_14 indicators then "STRONG"
  else if 20 <? adx_14 indicators then "MODERATE"
  else "WEAK".

Section Candle.

Context {F : Type} `{PyFloat F}.

Local Infix "-" := fsub : py_scope.
Local Infix "*" := fmul : py_scope.
Local Infix "<" := flt : py_scope.
Local Infix "==" := feq (at level 70, no associativity) : py_scope.
Local Open Scope py_scope.

(** Python's two-argument [max]: the first argument unless the second is
    larger. *)
Definition py_max (a b : F) : F := if a < b then b else a.

(** The dictionary [analyze_candle] returns. *)
Record CandleAnalysis : Type := {
  is_bullish : bool;
  is_bearish : bool;
  is_doji : bool;
  body : F;
  upper_wick : F;
  lower_wick : F;
  range : F;
  close_position : F
}.

(** [analyze_candle] *)
Definition analyze_candle (open_price high low close volume : F)
  : result CandleAnalysis :=
  let body := fabs (close - open_price) in
  let upper_wick := high - py_max open_price close in
  let lower_wick := risk_manager.py_min open_price close - low in
  let is_bullish := open_price < close in
  let is_bearish := close < open_price in
  let is_doji := body < (high - low) * dec 0.1 in
  close_position <-
    (if negb (high == low)
     then risk_manager.truediv (close - low) (high - low)
     else Ok (dec 0.5)) ;;
  Ok {| is_bullish := is_bullish;
        is_bearish := is_bearish;
        is_doji := is_doji;
        body := body;
        upper_wick := upper_wick;
        lower_wick := lower_wick;
        range := high - low;
        close_position := close_position |}.

End Candle.

Arguments CandleAnalysis F : clear implicits.

End technical_analysis.

(* ================================================================== *)
(** ** signal_generator.py *)

Module signal_generator.

Import technical_analysis.

Local Open Scope float_scope.
Local Open Scope py_scope.

Inductive SignalType : Type :=
| BUY
| SELL
| NEUTRAL.

Record TradingSignal : Type := {
  signal_type : SignalType;
  confidence : float;
  entry_price : float;
  stop_loss : float;
  take_profit_1 : float;
  take_profit_2 : float;
  take_profit_3 : float;
  position_size_percent : float;
  reasoning : string;
  indicators_snapshot : dict float
}.

Record SignalGenerator : Type := {
  rsi_oversold : float;
  rsi_overbought : float;
  adx_threshold : float;
  volume_threshold : float;
  min_confidence : float;
  processor : MarketDataProcessor
}.

(** [SignalGenerator()] with the constructor's defaults. *)
Definition default_generator : SignalGenerator :=
  {| rsi_oversold := 30.0;
     rsi_overbought := 70.0;
     adx_threshold := 25.0;
     volume_threshold := 1.1;
     min_confidence := 0.75;
     processor := default_processor |}.

(** Python's [a or b] and [a and b] on booleans: [b] is evaluated only when
    [a] does not decide. *)
Definition py_or (a : result bool) (b : result bool) : result bool :=
  x <- a ;; if x then Ok true else b.

Definition py_and (a : result bool) (b : result bool) : result bool :=
  x <- a ;; if x then b else Ok false.

(** [x.a > y.b] and [x.a < y.b]: both attributes are read, then compared. *)
Definition gt (a b : result float) : result bool :=
  x <- a ;; y <- b ;; Ok (y <? x).

Definition lt (a b : result float) : result bool :=
  x <- a ;; y <- b ;; Ok (x <? y).

(** [_check_trend_confirmation] *)
Definition _check_trend_confirmation (self : SignalGenerator)
    (indicators : TechnicalIndicators) (trend : string) : result bool :=
  if String.eqb trend "UPTREND" then
    ema_aligned <- py_or (gt (getattr indicators "ema_12")
                             (getattr indicators "ema_50"))
                         (gt (getattr indicators "close")
                             (getattr indicators "ema_200")) ;;
    trend_strong <- gt (getattr indicators "adx_14")
                       (Ok (adx_threshold self - 5.0)) ;;
    Ok (ema_aligned && trend_strong)
  else if String.eqb trend "DOWNTREND" then
    ema_aligned <- py_or (lt (getattr indicators "ema_12")
                             (getattr indicators "ema_50"))
                         (lt (getattr indicators "close")
                             (getattr indicators "ema_200")) ;;
    trend_strong <- gt (getattr indicators "adx_14")
                       (Ok (adx_threshold self - 5.0)) ;;
    Ok (ema_aligned && trend_strong)
  else Ok false.

(** [_check_momentum_signal] *)
Definition _check_momentum_signal (self : SignalGenerator)
    (indicators : TechnicalIndicators) (signal_type : SignalType)
  : result bool :=
  match signal_type with
  | BUY =>
      rsi_signal <- lt (getattr indicators "rsi_14")
                       (Ok (rsi_oversold self + 10.0)) ;;
      macd_signal <- py_or (gt (getattr indicators "macd_histogram") (Ok 0))
                           (gt (getattr indicators "macd_histogram")
                               (getattr indicators "macd_histogram_prev")) ;;
      Ok (rsi_signal && macd_signal)
  | SELL =>
      rsi_signal <- gt (getattr indicators "rsi_14")
                       (Ok (rsi_overbought self - 10.0)) ;;
      macd_signal <- py_or (lt (getattr indicators "macd_histogram") (Ok 0))
                           (lt (getattr indicators "macd_histogram")
                               (getattr indicators "macd_histogram_prev")) ;;
      Ok (rsi_signal && macd_signal)
  | NEUTRAL => Ok false
  end.

(** [_check_bollinger_bands_signal] *)
Definition _check_bollinger_bands_signal (self : SignalGenerator)
    (indicators : TechnicalIndicators) (current_price : float)
    (signal_type : SignalType) : result bool :=
  match signal_type with
  | BUY =>
      bb_upper <- getattr indicators "bb_upper" ;;
      bb_lower <- getattr indicators "bb_lower" ;;
      let bb_range := (bb_upper - bb_lower)%float in
      bb_lower' <- getattr indicators "bb_lower" ;;
      let distance_to_lower := (current_price - bb_lower')%float in
      Ok (distance_to_lower <? bb_range * 0.2)
  | SELL =>
      bb_upper <- getattr indicators "bb_upper" ;;
      bb_lower <- getattr indicators "bb_lower" ;;
      let bb_range := (bb_upper - bb_lower)%float in
      bb_upper' <- getattr indicators "bb_upper" ;;
      let distance_to_upper := (bb_upper' - current_price)%float in
      Ok (distance_to_upper <? bb_range * 0.2)
  | NEUTRAL => Ok false
  end.

(** [_check_volume_confirmation] *)
Definition _check_volume_confirmation (self : SignalGenerator)
    (indicators : TechnicalIndicators) : result bool :=
  current_volume <- getattr indicators "current_volume" ;;
  volume_ma <- getattr indicators "volume_ma" ;;
  Ok (volume_ma * volume_threshold self <? current_volume).

(** [_calculate_position_size] with its default [max_position_size=0.10]. *)
Definition _calculate_position_size (confidence : float) : float :=
  0.10 * confidence.

(** The [indicators_snapshot] dictionary of a signal. *)
Definition snapshot (indicators : TechnicalIndicators) : dict float :=
  [("ema_12"%string, ema_12 indicators);
   ("ema_50"%string, ema_50 indicators);
   ("ema_200"%string, ema_200 indicators);
   ("rsi_14"%string, rsi_14 indicators);
   ("macd"%string, macd indicators);
   ("atr_14"%string, atr_14 indicators);
   ("adx_14"%string, adx_14 indicators)].

(** ["; ".join(parts)] *)
Fixpoint join (parts : list string) : string :=
  match parts with
  | [] => ""
  | [p] => p
  | p :: rest => p ++ "; " ++ join rest
  end.

(** [_generate_buy_signal] *)
Definition _generate_buy_signal (self : SignalGenerator)
    (indicators : TechnicalIndicators) (current_price atr_multiplier : float)
  : result (option TradingSignal) :=
  let confidence_score := 0.0 in
  let reasoning_parts := [] in
  trend_ok <- _check_trend_confirmation self indicators "UPTREND" ;;
  if negb trend_ok then Ok None
  else
    let confidence_score := (confidence_score + 0.30)%float in
    let reasoning_parts := reasoning_parts ++ ["Tendencia alcista confirmada"%string] in
    momentum_ok <- _check_momentum_signal self indicators BUY ;;
    if negb momentum_ok then Ok None
    else
      let confidence_score := (confidence_score + 0.30)%float in
      let reasoning_parts := reasoning_parts ++ ["Señal de momentum alcista"%string] in
      bb_ok <- _check_bollinger_bands_signal self indicators current_price BUY ;;
      let confidence_score :=
        if bb_ok then (confidence_score + 0.20)%float else confidence_score in
      let reasoning_parts :=
        if bb_ok
        then reasoning_parts ++ ["Precio en banda inferior de Bollinger"%string]
        else reasoning_parts in
      volume_ok <- _check_volume_confirmation self indicators ;;
      let confidence_score :=
        if volume_ok then (confidence_score + 0.20)%float else confidence_score in
      let reasoning_parts :=
        if volume_ok then reasoning_parts ++ ["Volumen confirmado"%string]
        else reasoning_parts in
      if confidence_score <? min_confidence self then Ok None
      else
        atr <- getattr indicators "atr_14" ;;
        let stop_loss := (current_price - atr * atr_multiplier)%float in
        let tp1 := (current_price + atr * 1.5)%float in
        let tp2 := (current_price + atr * 2.5)%float in
        let tp3 := (current_price + atr * 4.0)%float in
        let position_size := _calculate_position_size confidence_score in
        Ok (Some {| signal_type := BUY;
                    confidence := confidence_score;
                    entry_price := current_price;
                    stop_loss := stop_loss;
                    take_profit_1 := tp1;
                    take_profit_2 := tp2;
                    take_profit_3 := tp3;
                    position_size_percent := position_size;
                    reasoning := join reasoning_parts;
                    indicators_snapshot := snapshot indicators |}).

(** [_generate_sell_signal] *)
Definition _generate_sell_signal (self : SignalGenerator)
    (indicators : TechnicalIndicators) (current_price atr_multiplier : float)
  : result (option TradingSignal) :=
  let confidence_score := 0.0 in
  let reasoning_parts := [] in
  trend_ok <- _check_trend_confirmation self indicators "DOWNTREND" ;;
  if negb trend_ok then Ok None
  else
    let confidence_score := (confidence_score + 0.30)%float in
    let reasoning_parts := reasoning_parts ++ ["Tendencia bajista confirmada"%string] in
    momentum_ok <- _check_momentum_signal self indicators SELL ;;
    if negb momentum_ok then Ok None
    else
      let confidence_score := (confidence_score + 0.30)%float in
      let reasoning_parts := reasoning_parts ++ ["Señal de momentum bajista"%string] in
      bb_ok <- _check_bollinger_bands_signal self indicators current_price SELL ;;
      let confidence_score :=
        if bb_ok then (confidence_score + 0.20)%float else confidence_score in
      let reasoning_parts :=
        if bb_ok
        then reasoning_parts ++ ["Precio en banda superior de Bollinger"%string]
        else reasoning_parts in
      volume_ok <- _check_volume_confirmation self indicators ;;
      let confidence_score :=
        if volume_ok then (confidence_score + 0.20)%float else confidence_score in
      let reasoning_parts :=
        if volume_ok then reasoning_parts ++ ["Volumen confirmado"%string]
        else reasoning_parts in
      if confidence_score <? min_confidence self then Ok None
      else
        atr <- getattr indicators "atr_14" ;;
        let stop_loss := (current_price + atr * atr_multiplier)%float in
        let tp1 := (current_price - atr * 1.5)%float in
        let tp2 := (current_price - atr * 2.5)%float in
        let tp3 := (current_price - atr * 4.0)%float in
        let position_size := _calculate_position_size confidence_score in
        Ok (Some {| signal_type := SELL;
                    confidence := confidence_score;
                    entry_price := current_price;
                    stop_loss := stop_loss;
                    take_profit_1 := tp1;
                    take_profit_2 := tp2;
                    take_profit_3 := tp3;
                    position_size_percent := position_size;
                    reasoning := join reasoning_parts;
                    indicators_snapshot := snapshot indicators |}).

(** [signal and signal.confidence >= self.min_confidence]: the signal is
    returned when it exists and is confident enough. *)
Definition accept (self : SignalGenerator) (s : option TradingSignal)
  : option TradingSignal :=
  match s with
  | Some sig => if min_confidence self <=? confidence sig then Some sig else None
  | None => None
  end.

(** [generate_signal], from the indicators on: the part after
    [process_ohlcv] has returned a snapshot. *)
Definition signal_of_indicators (self : SignalGenerator)
    (indicators : TechnicalIndicators) (current_price atr_multiplier : float)
  : result (option TradingSignal) :=
  let trend := get_trend indicators in
  if String.eqb trend "UPTREND" then
    buy_signal <- _generate_buy_signal self indicators current_price
                                       atr_multiplier ;;
    Ok (accept self buy_signal)
  else if String.eqb trend "DOWNTREND" then
    sell_signal <- _generate_sell_signal self indicators current_price
                                         atr_multiplier ;;
    Ok (accept self sell_signal)
  else Ok None.

(** [generate_signal] *)
Definition generate_signal (self : SignalGenerator) (ohlcv_data : list Bar)
    (current_price atr_multiplier : float) : result (option TradingSignal) :=
  indicators <- process_ohlcv (processor self) ohlcv_data ;;
  match indicators with
  | None => Ok None
  | Some indicators =>
      signal_of_indicators self indicators current_price atr_multiplier
  end.

End signal_generator.

(* ================================================================== *)
(** ** backtester.py: the monitoring step *)

Module backtester.

Import risk_manager.

Section WithOrder.

Context {F : Type} `{PyFloatOrd F}.

(** The body of the loop of [_monitor_positions] for one position id:
    update the price, close at the stop if it is hit, then close a target if
    one is reached. *)
Definition monitor_position (rm : RiskManager F) (position_id : string)
    (current_price : F) : RiskManager F :=
  let rm := fst (update_position_price rm position_id current_price) in
  let rm :=
    if check_stop_loss rm position_id current_price
    then fst (close_position_stop_loss rm position_id current_price)
    else rm in
  let '(tp_level, reached) := check_take_profit rm position_id current_price in
  if reached
  then fst (close_position_partial rm position_id tp_level current_price)
  else rm.

(** [_monitor_positions]: the loop runs over a copy of the live map taken on
    entry and skips the positions of other pairs. *)
Definition _monitor_positions (rm : RiskManager F) (pair : string)
    (current_price : F) : RiskManager F :=
  fold_left
    (fun rm item =>
       if negb (String.eqb (risk_manager.pair (snd item)) pair) then rm
       else monitor_position rm (fst item) current_price)
    (positions rm) rm.

End WithOrder.

End backtester.

(* ================================================================== *)
(** ** States the manager can reach, and the runs used below *)

Section Reachable.

Import risk_manager.

Context {F : Type} `{PyFloat F}.

(** The states reached from a fresh manager by opening positions whose
    volume [calculate_position_size] computed, by price updates, by staged
    closes and by stop-loss closes. *)
Inductive reachable (cfg : RiskConfig F) : RiskManager F -> Prop :=
| reach_init : reachable cfg (init cfg)
| reach_open (rm rm' : RiskManager F) (pid pair side : string)
    (entry stop conf tp1 tp2 tp3 vol : F) (now : nat) (ok : bool) :
    reachable cfg rm ->
    calculate_position_size rm entry stop conf = Ok vol ->
    open_position rm pid pair side entry vol stop tp1 tp2 tp3 now
      = Ok (rm', ok) ->
    reachable cfg rm'
| reach_update (rm : RiskManager F) (pid : string) (price : F) :
    reachable cfg rm ->
    reachable cfg (fst (update_position_price rm pid price))
| reach_partial (rm : RiskManager F) (pid : string) (level : Z) (price : F) :
    reachable cfg rm ->
    reachable cfg (fst (close_position_partial rm pid level price))
| reach_stop (rm : RiskManager F) (pid : string) (price : F) :
    reachable cfg rm ->
    reachable cfg (fst (close_position_stop_loss rm pid price)).

(** A fresh manager with capital 10000 and the default limits. *)
Definition fresh : RiskManager F := init (default_config (dec 10000)).

(** A short sale at 100 with its stop at 110, sized by the manager. *)
Definition short_volume : result F :=
  calculate_position_size fresh (dec 100) (dec 110) (dec 1).

Definition short_opened : RiskManager F :=
  match short_volume with
  | Ok vol =>
      match open_position fresh "short-1" "XBTUSD" "sell" (dec 100) vol
              (dec 110) (dec 85) (dec 75) (dec 60) 0 with
      | Ok (rm, _) => rm
      | Raise _ => fresh
      end
  | Raise _ => fresh
  end.

(** The market then trades at 2000. *)
Definition short_squeezed : RiskManager F :=
  fst (update_position_price short_opened "short-1" (dec 2000)).

(** A long position of the given volume bought at 100. *)
Definition long_opened (vol : F) : RiskManager F :=
  match open_position fresh "long-1" "XBTUSD" "buy" (dec 100) vol
          (dec 90) (dec 110) (dec 120) (dec 130) 0 with
  | Ok (rm, _) => rm
  | Raise _ => fresh
  end.

(** Its three targets are then hit in turn. *)
Definition after_tp1 (vol : F) : RiskManager F :=
  fst (close_position_partial (long_opened vol) "long-1" 1 (dec 110)).

Definition after_tp2 (vol : F) : RiskManager F :=
  fst (close_position_partial (after_tp1 vol) "long-1" 2 (dec 120)).

Definition after_tp3 (vol : F) : RiskManager F :=
  fst (close_position_partial (after_tp2 vol) "long-1" 3 (dec 130)).

(** A manager allowed to commit all of its capital to one trade. *)
Definition all_in_config : RiskConfig F :=
  {| total_capital := dec 10000;
     risk_per_trade := dec 1;
     max_positions := 5;
     max_position_size := dec 1;
     max_drawdown := dec 0.15;
     max_consecutive_losses := 3;
     trailing_stop_enabled := true;
     trailing_stop_distance := dec 0.05;
     pause_after_max_losses := true;
     pause_duration_minutes := 60 |}.

(** It buys at 100 with its stop at 90, as much as the manager sizes. *)
Definition all_in_volume : result F :=
  calculate_position_size (init all_in_config) (dec 100) (dec 90) (dec 1).

Definition all_in_opened : RiskManager F :=
  match all_in_volume with
  | Ok vol =>
      match open_position (init all_in_config) "long-all" "XBTUSD" "buy"
              (dec 100) vol (dec 90) (dec 115) (dec 125) (dec 140) 0 with
      | Ok (rm, _) => rm
      | Raise _ => init all_in_config
      end
  | Raise _ => init all_in_config
  end.

(** The market then trades at 99. *)
Definition all_in_marked : RiskManager F :=
  fst (update_position_price all_in_opened "long-all" (dec 99)).

(** The same manager buys at 145 with its stop at 100 instead. *)
Definition all_in_at_145_volume : result F :=
  calculate_position_size (init all_in_config) (dec 145) (dec 100) (dec 1).

Definition all_in_at_145_opened : RiskManager F :=
  match all_in_at_145_volume with
  | Ok vol =>
      match open_position (init all_in_config) "long-145" "XBTUSD" "buy"
              (dec 145) vol (dec 100) (dec 160) (dec 175) (dec 190) 0 with
      | Ok (rm, _) => rm
      | Raise _ => init all_in_config
      end
  | Raise _ => init all_in_config
  end.

(** The fraction of the original volume a target level closes. *)
Definition tp_fraction (tp_level : Z) : option Q :=
  if (tp_level =? 1)%Z then Some 0.30%Q
  else if (tp_level =? 2)%Z then Some 0.40%Q
  else if (tp_level =? 3)%Z then Some 0.30%Q
  else None.

(** The position with the closed volume of a level written down. *)
Definition record_close (tp_level : Z) (v : F) (p : Position F) : Position F :=
  if (tp_level =? 1)%Z then set_volume_closed_tp1 v p
  else if (tp_level =? 2)%Z then set_volume_closed_tp2 v p
  else set_volume_closed_tp3 v p.

End Reachable.

(* ================================================================== *)
(** ** Invariants of the manager's state *)

Section Invariants.

Import risk_manager.

Context {F : Type} `{PyFloat F}.

(** The [Position] that [open_position] creates. *)
Definition new_position (position_id pair side : string)
    (entry_price volume stop_loss take_profit_1 take_profit_2
       take_profit_3 : F) (now : nat) : Position F :=
  {| position_id := position_id; pair := pair; side := side;
     entry_price := entry_price; volume := volume; stop_loss := stop_loss;
     take_profit_1 := take_profit_1; take_profit_2 := take_profit_2;
     take_profit_3 := take_profit_3; entry_time := now;
     status := OPEN;
     volume_closed_tp1 := dec 0.0;
     volume_closed_tp2 := dec 0.0;
     volume_closed_tp3 := dec 0.0;
     current_price := dec 0.0;
     unrealized_pnl := dec 0.0;
     realized_pnl := dec 0.0 |}.

Definition live_status (s : PositionStatus) : bool :=
  match s with
  | OPEN | PARTIALLY_CLOSED => true
  | CLOSED | STOPPED_OUT => false
  end.

Definition terminal_status (s : PositionStatus) : bool :=
  match s with
  | CLOSED | STOPPED_OUT => true
  | OPEN | PARTIALLY_CLOSED => false
  end.

(** The live map holds each position under its own id, in a live state;
    the history holds positions in a terminal state. *)
Definition lifecycle_ok (rm : RiskManager F) : Prop :=
  dict_wf (positions rm) = true /\
  (forall k p, dict_get k (positions rm) = Some p ->
               position_id p = k /\ live_status (status p) = true) /\
  Forall (fun p => terminal_status (status p) = true) (closed_positions rm).

(** The manager keeps its configuration and at most [max_positions] live
    positions. *)
Definition within_capacity (cfg : RiskConfig F) (rm : RiskManager F) : Prop :=
  config rm = cfg /\
  (Z.of_nat (List.length (positions rm)) <= Z.max 0 (max_positions cfg))%Z.

(** A configuration that allows no position at all. *)
Definition no_room_config : RiskConfig F :=
  {| total_capital := dec 10000;
     risk_per_trade := dec 0.02;
     max_positions := 0;
     max_position_size := dec 0.10;
     max_drawdown := dec 0.15;
     max_consecutive_losses := 3;
     trailing_stop_enabled := true;
     trailing_stop_distance := dec 0.05;
     pause_after_max_losses := true;
     pause_duration_minutes := 60 |}.

(** A fresh manager that has just taken three losses in a row. *)
Definition after_three_losses : RiskManager F :=
  with_consecutive_losses 3 (init (default_config (dec 10000))).

End Invariants.

(* ================================================================== *)
(** ** Price windows and snapshots used below *)

Module windows.

Import technical_analysis signal_generator.

Local Open Scope float_scope.

(** 100, 101, ..., 150. *)
Definition rising_prices : list float :=
  map (fun i => of_nat (100 + i)) (seq 0 51).

(** 200 bars, each with high 102, low 98 and close 100. *)
Definition flat_window : list Bar :=
  map (fun i => {| time := of_nat i; open := 100; high := 102; low := 98;
                   close := 100; volume := 1000 |}) (seq 0 200).

(** 200 bars whose close rises by 1 a bar inside a constant range
    [0, 1000]. *)
Definition quiet_uptrend : list Bar :=
  map (fun i => {| time := of_nat i; open := of_nat (100 + i);
                   high := 1000; low := 0;
                   close := of_nat (100 + i); volume := 1000 |}) (seq 0 200).

(** 200 bars whose close is [100 + i^2], with a range of 1 around it and a
    volume that grows as fast. *)
Definition accelerating_uptrend : list Bar :=
  map (fun i => {| time := of_nat i; open := of_nat (100 + i * i);
                   high := of_nat (101 + i * i); low := of_nat (99 + i * i);
                   close := of_nat (100 + i * i);
                   volume := of_nat (1000 + i * i) |}) (seq 0 200).

(** 200 bars rising by 1 a bar, with a range around the close. *)
Definition steady_uptrend : list Bar :=
  map (fun i => {| time := of_nat (1000 + i); open := of_nat (100 + i);
                   high := of_nat (102 + i); low := of_nat (99 + i);
                   close := of_nat (101 + i);
                   volume := of_nat (1000 + 10 * i) |}) (seq 0 200).

(** The snapshot [process_ohlcv] computes on [steady_uptrend]. *)
Definition steady_snapshot : TechnicalIndicators :=
  Eval vm_compute in
    match process_ohlcv default_processor steady_uptrend with
    | Ok (Some ind) => ind
    | _ => {| ema_12 := 0; ema_50 := 0; ema_200 := 0; rsi_14 := 0; macd := 0;
              macd_signal := 0; macd_histogram := 0; bb_upper := 0;
              bb_middle := 0; bb_lower := 0; atr_14 := 0; adx_14 := 0;
              volume_ma := 0; current_volume := 0 |}
    end.

(** An uptrend snapshot with RSI 35 (below oversold + 10 = 40) and a MACD
    histogram of -1. *)
Definition oversold_snapshot : TechnicalIndicators :=
  {| ema_12 := 110; ema_50 := 105; ema_200 := 100; rsi_14 := 35;
     macd := -2; macd_signal := -1; macd_histogram := -1;
     bb_upper := 120; bb_middle := 108; bb_lower := 96;
     atr_14 := 2; adx_14 := 30; volume_ma := 1000; current_volume := 1500 |}.

(** A downtrend snapshot with RSI 20 (not above overbought - 10 = 60) and a
    MACD histogram of 1. *)
Definition weak_sell_snapshot : TechnicalIndicators :=
  {| ema_12 := 100; ema_50 := 105; ema_200 := 110; rsi_14 := 20;
     macd := 2; macd_signal := 1; macd_histogram := 1;
     bb_upper := 120; bb_middle := 108; bb_lower := 96;
     atr_14 := 2; adx_14 := 30; volume_ma := 1000; current_volume := 1500 |}.

(** An uptrend snapshot on which every BUY check but the Bollinger one
    holds. *)
Definition strong_buy_snapshot : TechnicalIndicators :=
  {| ema_12 := 110; ema_50 := 105; ema_200 := 100; rsi_14 := 35;
     macd := 2; macd_signal := 1; macd_histogram := 1;
     bb_upper := 120; bb_middle := 108; bb_lower := 96;
     atr_14 := 2; adx_14 := 30; volume_ma := 1000; current_volume := 1500 |}.

(** A downtrend snapshot on which every SELL check but the Bollinger one
    holds. *)
Definition strong_sell_snapshot : TechnicalIndicators :=
  {| ema_12 := 100; ema_50 := 105; ema_200 := 110; rsi_14 := 65;
     macd := -2; macd_signal := -1; macd_histogram := -1;
     bb_upper := 120; bb_middle := 108; bb_lower := 96;
     atr_14 := 2; adx_14 := 30; volume_ma := 1000; current_volume := 1500 |}.

(** A generator whose processor accepts windows of 100 bars. *)
Definition eager_generator : SignalGenerator :=
  {| rsi_oversold := 30.0;
     rsi_overbought := 70.0;
     adx_threshold := 25.0;
     volume_threshold := 1.1;
     min_confidence := 0.75;
     processor := {| min_candles := 100 |} |}.

End windows.

(* ================================================================== *)
(** * Properties *)

(** ** Dictionaries *)

Section DictFacts.

Context {V : Type}.

Lemma dict_get_set_same (k : string) (v : V) (d : dict V) :
  dict_get k (dict_set k v d) = Some v.
Proof.
  induction d as [|[k' v'] d IH]; simpl.
  - now rewrite String.eqb_refl.
  - destruct (String.eqb k k') eqn:E; simpl; rewrite ?String.eqb_refl, ?E; auto.
Qed.

Lemma dict_get_set_other (k q : string) (v : V) (d : dict V) :
  q <> k -> dict_get q (dict_set k v d) = dict_get q d.
Proof.
  intros Hq. apply String.eqb_neq in Hq.
  induction d as [|[k' v'] d IH]; simpl.
  - now rewrite Hq.
  - destruct (String.eqb k k') eqn:E; simpl.
    + apply String.eqb_eq in E; subst k'. now rewrite Hq.
    + now rewrite IH.
Qed.

Lemma dict_get_pop_other (k q : string) (d : dict V) :
  q <> k -> dict_get q (dict_pop k d) = dict_get q d.
Proof.
  intros Hq. apply String.eqb_neq in Hq.
  induction d as [|[k' v'] d IH]; simpl; auto.
  destruct (String.eqb k k') eqn:E; simpl.
  - apply String.eqb_eq in E; subst k'. now rewrite Hq.
  - now rewrite IH.
Qed.

Lemma dict_get_pop_same (k : string) (d : dict V) :
  dict_wf d = true -> dict_get k (dict_pop k d) = None.
Proof.
  induction d as [|[k' v'] d IH]; simpl; auto.
  destruct (dict_get k' d) eqn:G; [discriminate|]. intros W.
  destruct (String.eqb k k') eqn:E; simpl.
  - apply String.eqb_eq in E; now subst k'.
  - rewrite E. auto.
Qed.

Lemma dict_wf_set (k : string) (v : V) (d : dict V) :
  dict_wf d = true -> dict_wf (dict_set k v d) = true.
Proof.
  induction d as [|[k' v'] d IH]; simpl; auto.
  destruct (dict_get k' d) eqn:G; [discriminate|]. intros W.
  destruct (String.eqb k k') eqn:E; simpl.
  - apply String.eqb_eq in E; subst k'. now rewrite G.
  - rewrite dict_get_set_other, G; auto.
    intros ->. now rewrite String.eqb_refl in E.
Qed.

Lemma dict_set_fresh (k : string) (v : V) (d : dict V) :
  dict_get k d = None -> dict_set k v d = d ++ [(k, v)].
Proof.
  induction d as [|[k' v'] d IH]; simpl; auto.
  destruct (String.eqb k k'); [discriminate|]. intros G. now rewrite IH.
Qed.

End DictFacts.

(* ================================================================== *)
(** ** The risk manager, for any float arithmetic *)

Section RiskManagerFacts.

Import risk_manager.

Context {F : Type} `{PyFloat F}.

(** [_move_to_closed] after writing the position back: the position leaves
    the live map and is appended to the history. *)
Lemma move_to_closed_after_set (rm : RiskManager F) (pid : string)
    (p : Position F) :
  _move_to_closed (with_positions (dict_set pid p (positions rm)) rm) pid
  = with_closed_positions (closed_positions rm ++ [p])
      (with_positions (dict_pop pid (dict_set pid p (positions rm))) rm).
Proof.
  unfold _move_to_closed. simpl. now rewrite dict_get_set_same.
Qed.

(** The state after a stop-loss close of a live position, in one piece. *)
Lemma close_position_stop_loss_live (rm : RiskManager F) (pid : string)
    (price : F) (p : Position F) :
  dict_get pid (positions rm) = Some p ->
  close_position_stop_loss rm pid price
  = let v := get_open_volume p in
    let pnl := close_pnl p price v in
    let p' := set_status STOPPED_OUT
                (set_realized_pnl (fadd (realized_pnl p) pnl) p) in
    ({| config := config rm;
        positions := dict_pop pid (dict_set pid p' (positions rm));
        closed_positions := closed_positions rm ++ [p'];
        consecutive_losses :=
          if flt pnl (dec 0) then (consecutive_losses rm + 1)%Z else 0%Z;
        total_realized_pnl := fadd (total_realized_pnl rm) pnl;
        peak_capital := peak_capital rm |}, v).
Proof.
  intros Hget. unfold close_position_stop_loss. rewrite Hget. cbv zeta.
  rewrite move_to_closed_after_set.
  destruct (flt (close_pnl p price (get_open_volume p)) (dec 0)); reflexivity.
Qed.

(** The state after a staged close of a live position at level 1, 2 or 3:
    the level's fraction of the original volume is closed and returned, its
    PnL is realized on the position and on the manager, and the position is
    CLOSED and filed exactly when no open volume is left, PARTIALLY_CLOSED
    and still live otherwise. *)
Lemma close_position_partial_live (rm : RiskManager F) (pid : string)
    (tp_level : Z) (price : F) (p : Position F) (fraction : Q) :
  dict_get pid (positions rm) = Some p ->
  tp_fraction tp_level = Some fraction ->
  close_position_partial rm pid tp_level price
  = let v := fmul (volume p) (dec fraction) in
    let pnl := close_pnl p price v in
    let p' := set_realized_pnl (fadd (realized_pnl p) pnl)
                (record_close tp_level v p) in
    if feq (get_open_volume p') (dec 0)
    then ({| config := config rm;
             positions :=
               dict_pop pid (dict_set pid (set_status CLOSED p') (positions rm));
             closed_positions := closed_positions rm ++ [set_status CLOSED p'];
             consecutive_losses := consecutive_losses rm;
             total_realized_pnl := fadd (total_realized_pnl rm) pnl;
             peak_capital := peak_capital rm |}, v)
    else ({| config := config rm;
             positions :=
               dict_set pid (set_status PARTIALLY_CLOSED p') (positions rm);
             closed_positions := closed_positions rm;
             consecutive_losses := consecutive_losses rm;
             total_realized_pnl := fadd (total_realized_pnl rm) pnl;
             peak_capital := peak_capital rm |}, v).
Proof.
  intros Hget Hfrac. unfold close_position_partial. rewrite Hget.
  unfold tp_fraction in Hfrac. unfold record_close.
  destruct (tp_level =? 1)%Z; [|destruct (tp_level =? 2)%Z;
                                 [|destruct (tp_level =? 3)%Z]];
    inversion Hfrac; subst fraction; clear Hfrac; cbv zeta;
    match goal with
    | |- (if ?c1 then _ else _) = (if ?c2 then _ else _) =>
        change c1 with c2; destruct c2
    end;
    try rewrite move_to_closed_after_set; reflexivity.
Qed.

(** C9. An operation that names a position id absent from the live map does
    nothing: [update_position_price] returns (None), [close_position_partial]
    and [close_position_stop_loss] return [0.0], and the manager (positions,
    closed history, realized PnL, loss counter) is returned as it was. *)
Theorem unknown_position_is_noop (rm : RiskManager F) (position_id : string)
    (price : F) (tp_level : Z) :
  dict_get position_id (positions rm) = None ->
  update_position_price rm position_id price = (rm, tt) /\
  close_position_partial rm position_id tp_level price = (rm, dec 0.0) /\
  close_position_stop_loss rm position_id price = (rm, dec 0.0).
Proof.
  intros Hnone.
  unfold update_position_price, close_position_partial,
    close_position_stop_loss.
  rewrite Hnone. repeat split.
Qed.

(** C7. [close_position_stop_loss] on a live position closes the residual
    open volume (the original volume minus what the targets closed) and
    returns it, and realizes the PnL of that residual on the manager and on
    the position.  The record it appends to the closed history has status
    STOPPED_OUT, the position's realized PnL plus that PnL, and every other
    field of the position as it was; the position leaves the live map while
    the other positions, the configuration and the peak capital stay.  The
    loss counter is one more when that PnL is negative and zero when it is
    not. *)
Theorem stop_loss_closes_residual (rm : RiskManager F) (position_id : string)
    (close_price : F) (p : Position F) :
  dict_wf (positions rm) = true ->
  dict_get position_id (positions rm) = Some p ->
  let residual :=
    fsub (fsub (fsub (volume p) (volume_closed_tp1 p)) (volume_closed_tp2 p))
         (volume_closed_tp3 p) in
  let pnl :=
    if String.eqb (side p) "buy"
    then fmul (fsub close_price (entry_price p)) residual
    else fmul (fsub (entry_price p) close_price) residual in
  let rm' := fst (close_position_stop_loss rm position_id close_price) in
  snd (close_position_stop_loss rm position_id close_price) = residual /\
  total_realized_pnl rm' = fadd (total_realized_pnl rm) pnl /\
  (exists p' : Position F,
     closed_positions rm' = closed_positions rm ++ [p'] /\
     status p' = STOPPED_OUT /\
     realized_pnl p' = fadd (realized_pnl p) pnl /\
     risk_manager.position_id p' = risk_manager.position_id p /\
     pair p' = pair p /\
     side p' = side p /\
     entry_price p' = entry_price p /\
     volume p' = volume p /\
     stop_loss p' = stop_loss p /\
     take_profit_1 p' = take_profit_1 p /\
     take_profit_2 p' = take_profit_2 p /\
     take_profit_3 p' = take_profit_3 p /\
     entry_time p' = entry_time p /\
     volume_closed_tp1 p' = volume_closed_tp1 p /\
     volume_closed_tp2 p' = volume_closed_tp2 p /\
     volume_closed_tp3 p' = volume_closed_tp3 p /\
     current_price p' = current_price p /\
     unrealized_pnl p' = unrealized_pnl p) /\
  dict_get position_id (positions rm') = None /\
  (forall q, q <> position_id ->
     dict_get q (positions rm') = dict_get q (positions rm)) /\
  config rm' = config rm /\
  peak_capital rm' = peak_capital rm /\
  (flt pnl (dec 0) = true ->
     consecutive_losses rm' = (consecutive_losses rm + 1)%Z) /\
  (flt pnl (dec 0) = false -> consecutive_losses rm' = 0%Z).
Proof.
  intros Hwf Hget residual pnl rm'. subst rm'.
  rewrite (close_position_stop_loss_live rm position_id close_price p Hget).
  change (close_pnl p close_price (get_open_volume p)) with pnl.
  change (get_open_volume p) with residual.
  cbn [fst snd total_realized_pnl closed_positions positions
       consecutive_losses config peak_capital].
  split; [reflexivity|]. split; [reflexivity|].
  split.
  { eexists. split; [reflexivity|].
    cbn [set_status set_realized_pnl status realized_pnl
         risk_manager.position_id pair side entry_price volume stop_loss
         take_profit_1 take_profit_2 take_profit_3 entry_time
         volume_closed_tp1 volume_closed_tp2 volume_closed_tp3
         current_price unrealized_pnl].
    repeat split. }
  split; [apply dict_get_pop_same, dict_wf_set, Hwf|].
  split.
  { intros q Hq. rewrite dict_get_pop_other, dict_get_set_other; auto. }
  split; [reflexivity|]. split; [reflexivity|].
  split; intros E; change (close_pnl p close_price residual) with pnl;
    now rewrite E.
Qed.

End RiskManagerFacts.

(* ================================================================== *)
(** ** The risk manager in exact arithmetic *)

Section ExactArithmetic.

Import risk_manager.

Local Open Scope Q_scope.

Lemma flt_Q (a b : Q) : flt a b = true <-> a < b.
Proof.
  cbn. destruct (Qlt_le_dec a b); split; intros; try easy; lra.
Qed.

Lemma flt_Q_false (a b : Q) : flt a b = false <-> b <= a.
Proof.
  cbn. destruct (Qlt_le_dec a b); split; intros; try easy; lra.
Qed.

Lemma feq_Q (a b : Q) : feq a b = true <-> a == b.
Proof. cbn. apply Qeq_bool_iff. Qed.

Lemma feq_Q_false (a b : Q) : feq a b = false <-> ~ a == b.
Proof.
  rewrite <- feq_Q. destruct (feq a b); split; intros; easy.
Qed.

Lemma Qabs_zero_iff (x : Q) : Qabs x == 0 <-> x == 0.
Proof.
  split.
  - apply Qabs_case; intros; lra.
  - intros ->. reflexivity.
Qed.

Lemma py_min_Qmin (a b : Q) : py_min a b == Qmin a b.
Proof.
  unfold py_min. destruct (flt b a) eqn:E.
  - apply flt_Q in E. symmetry. apply Q.min_r. lra.
  - apply flt_Q_false in E. symmetry. apply Q.min_l. exact E.
Qed.

Lemma truediv_Q (a b : Q) : ~ b == 0 -> truediv a b = Ok (a / b).
Proof.
  intros Hb. unfold truediv. apply feq_Q_false in Hb.
  cbn in *. now rewrite Hb.
Qed.

(** The sized volume when entry and stop differ, before the theorem splits
    it into its three caps. *)
Lemma calculate_position_size_Q (rm : RiskManager Q) (entry stop conf : Q) :
  0 < entry ->
  calculate_position_size rm entry stop conf
  = if feq (Qabs (entry - stop)) 0 then Ok 0.0
    else Ok (py_min
               (py_min (total_capital (config rm) * risk_per_trade (config rm)
                        * conf / Qabs (entry - stop))
                       (total_capital (config rm)
                        * max_position_size (config rm) / entry))
               (get_available_capital rm / entry)).
Proof.
  intros Hentry. unfold calculate_position_size.
  change (@fabs Q exactQ) with Qabs. change (@fsub Q exactQ) with Qminus.
  change (@fmul Q exactQ) with Qmult. change (@dec Q exactQ 0) with 0.
  destruct (feq (Qabs (entry - stop)) 0) eqn:E; [reflexivity|].
  apply feq_Q_false in E.
  rewrite (truediv_Q _ _ E). cbn [Py.bind].
  assert (He : ~ entry == 0) by lra.
  rewrite !(truediv_Q _ _ He). reflexivity.
Qed.

(** In exact arithmetic, for an entry price above zero,
    [calculate_position_size] returns 0 when entry equals stop, and otherwise
    the least of the risk-budget volume (capital x risk_per_trade x
    confidence over the stop distance), the position-size cap (capital x
    max_position_size over entry) and the available-capital cap (available
    over entry); the notional of that volume is then within
    max_position_size x capital and within the available capital.  On a fresh
    manager with capital 10000 and the default limits, entry 45000, stop
    44000 and confidence 1 give 1/45 = 0.0222..., not 0.2. *)
Lemma position_size_exact (rm : RiskManager Q) (entry stop conf : Q) :
  0 < entry ->
  (entry == stop ->
     exists v, calculate_position_size rm entry stop conf = Ok v /\ v == 0) /\
  (~ entry == stop ->
     exists v, calculate_position_size rm entry stop conf = Ok v /\
       v == Qmin (Qmin (total_capital (config rm) * risk_per_trade (config rm)
                        * conf / Qabs (entry - stop))
                       (total_capital (config rm)
                        * max_position_size (config rm) / entry))
                 (get_available_capital rm / entry) /\
       v * entry <= max_position_size (config rm) * total_capital (config rm) /\
       v * entry <= get_available_capital rm) /\
  (exists v,
     calculate_position_size (init (default_config 10000)) 45000 44000 1 = Ok v
     /\ v == 1 # 45 /\ 0.0222 < v < 0.0223 /\ ~ v == 0.2).
Proof.
  intros Hentry. rewrite (calculate_position_size_Q rm entry stop conf Hentry).
  split; [|split].
  - intros Heq. exists 0.0.
    assert (E : feq (Qabs (entry - stop)) 0 = true).
    { apply feq_Q, Qabs_zero_iff. lra. }
    rewrite E. split; reflexivity.
  - intros Hne.
    assert (E : feq (Qabs (entry - stop)) 0 = false).
    { apply feq_Q_false. rewrite Qabs_zero_iff. lra. }
    rewrite E. eexists. split; [reflexivity|].
    set (a := total_capital (config rm) * risk_per_trade (config rm) * conf
              / Qabs (entry - stop)).
    set (b := total_capital (config rm) * max_position_size (config rm)
              / entry).
    set (c := get_available_capital rm / entry).
    assert (Hmin : py_min (py_min a b) c == Qmin (Qmin a b) c).
    { rewrite py_min_Qmin. now rewrite (py_min_Qmin a b). }
    assert (Hpos : ~ entry == 0) by lra.
    repeat split.
    + exact Hmin.
    + rewrite Hmin.
      apply Qle_trans with (b * entry).
      * apply Qmult_le_compat_r; [|lra].
        eapply Qle_trans; [apply Q.le_min_l | apply Q.le_min_r].
      * unfold b. field_simplify; [lra | exact Hpos].
    + rewrite Hmin.
      apply Qle_trans with (c * entry).
      * apply Qmult_le_compat_r; [|lra]. apply Q.le_min_r.
      * unfold c. field_simplify; [lra | exact Hpos].
  - eexists. split; [vm_compute; reflexivity|]. repeat split.
    intros Habs. vm_compute in Habs. discriminate.
Qed.

(** Adding a position under a new key moves the available capital by the
    position's unrealized PnL less the capital it ties up. *)
Lemma available_capital_app (rm : RiskManager Q) (pid : string)
    (p : Position Q) :
  get_available_capital (with_positions (positions rm ++ [(pid, p)]) rm)
  == get_available_capital rm + unrealized_pnl p
     - entry_price p * get_open_volume p.
Proof.
  unfold get_available_capital, get_current_capital, py_sum, dict_values.
  cbn [positions with_positions config total_realized_pnl].
  rewrite !map_app, !fold_left_app. cbn [map fold_left snd].
  change (@fadd Q exactQ) with Qplus. change (@fsub Q exactQ) with Qminus.
  change (@fmul Q exactQ) with Qmult. ring.
Qed.

(** In exact arithmetic, available capital is the whole capital on a fresh
    manager, and opening a position under a new id, at an entry price above
    zero and with the volume [calculate_position_size] computed in that
    state, leaves the available capital non-negative when it was so before
    (whether the manager accepts or declines the position). *)
Lemma open_position_exact (rm rm' : RiskManager Q)
    (pid pair side : string) (entry stop conf tp1 tp2 tp3 vol : Q)
    (now : nat) (ok : bool) :
  0 < entry ->
  0 <= get_available_capital rm ->
  dict_get pid (positions rm) = None ->
  calculate_position_size rm entry stop conf = Ok vol ->
  open_position rm pid pair side entry vol stop tp1 tp2 tp3 now = Ok (rm', ok) ->
  0 <= get_available_capital rm' /\
  get_available_capital (init (config rm)) == total_capital (config rm).
Proof.
  intros Hentry Havail Hfresh Hsize Hopen. split.
  2:{ unfold get_available_capital, get_current_capital, py_sum. cbn. ring. }
  unfold open_position in Hopen.
  destruct (can_open_position rm) as [[can reason]|e]; cbn in Hopen;
    [|discriminate].
  destruct can; cbn in Hopen; inversion Hopen; subst rm' ok; clear Hopen;
    [|exact Havail].
  rewrite (dict_set_fresh _ _ _ Hfresh), available_capital_app.
  unfold get_open_volume.
  cbn [unrealized_pnl entry_price volume volume_closed_tp1 volume_closed_tp2
       volume_closed_tp3].
  change (@fsub Q exactQ) with Qminus. change (@fmul Q exactQ) with Qmult.
  change (@dec Q exactQ 0.0) with 0.0.
  assert (Hbound : entry * vol <= get_available_capital rm).
  { rewrite (calculate_position_size_Q rm entry stop conf Hentry) in Hsize.
    destruct (feq (Qabs (entry - stop)) 0);
      inversion Hsize; subst vol; clear Hsize.
    - setoid_replace (entry * 0.0) with 0 by ring. exact Havail.
    - rewrite py_min_Qmin.
      apply Qle_trans with (entry * (get_available_capital rm / entry)).
      + apply Qmult_le_l; [exact Hentry | apply Q.le_min_r].
      + field_simplify; [lra | lra]. }
  setoid_replace (get_available_capital rm + 0.0
                  - entry * (vol - 0.0 - 0.0 - 0.0))
    with (get_available_capital rm - entry * vol) by ring.
  lra.
Qed.

(** In exact arithmetic the three staged volumes add up to the original
    volume, so a position whose three levels are recorded has no open volume
    left. *)
Lemma staged_volumes_sum_exactly (p : Position Q) :
  volume_closed_tp1 p == volume p * 0.30 ->
  volume_closed_tp2 p == volume p * 0.40 ->
  volume_closed_tp3 p == volume p * 0.30 ->
  volume_closed_tp1 p + volume_closed_tp2 p + volume_closed_tp3 p == volume p
  /\ feq (get_open_volume p) 0 = true.
Proof.
  intros H1 H2 H3. split.
  - rewrite H1, H2, H3. ring.
  - apply feq_Q. unfold get_open_volume.
    change (@fsub Q exactQ) with Qminus. rewrite H1, H2, H3. ring.
Qed.

End ExactArithmetic.

(* ================================================================== *)
(** ** The order of binary64 *)

Section Binary64Order.

Local Open Scope float_scope.

Lemma SFltb_irrefl (s : spec_float) : SFltb s s = false.
Proof.
  unfold SFltb. destruct s as [b | b | | b m e]; cbn; try destruct b;
    try reflexivity;
    rewrite Z.compare_refl;
    change (Pos.compare_cont Eq m m) with (Pos.compare m m);
    rewrite Pos.compare_refl; reflexivity.
Qed.

Lemma SFltb_trans (a b c : spec_float) :
  SFltb a b = true -> SFltb b c = true -> SFltb a c = true.
Proof.
  unfold SFltb.
  destruct a as [sa | sa | | sa ma ea]; destruct b as [sb | sb | | sb mb eb];
    destruct c as [sc | sc | | sc mc ec]; cbn;
    try destruct sa; try destruct sb; try destruct sc; cbn;
    try discriminate; try reflexivity;
    change (Pos.compare_cont Eq) with Pos.compare;
    destruct (Z.compare_spec ea eb); destruct (Z.compare_spec eb ec);
    destruct (Z.compare_spec ea ec); cbn; try discriminate; try reflexivity;
    try lia;
    destruct (Pos.compare_spec ma mb); destruct (Pos.compare_spec mb mc);
    destruct (Pos.compare_spec ma mc); cbn; try discriminate;
    try reflexivity; try lia.
Qed.

(** [<] on doubles is irreflexive and transitive, NaN included. *)
Lemma ltb_irrefl (x : float) : (x <? x) = false.
Proof. rewrite ltb_spec. apply SFltb_irrefl. Qed.

Lemma ltb_trans (x y z : float) :
  (x <? y) = true -> (y <? z) = true -> (x <? z) = true.
Proof. rewrite !ltb_spec. apply SFltb_trans. Qed.

(** A double above zero does not compare equal to zero. *)
Lemma ltb_zero_eqb (x : float) : (0 <? x) = true -> (x =? 0) = false.
Proof.
  rewrite ltb_spec, FloatAxioms.eqb_spec.
  change (Prim2SF 0) with (S754_zero false).
  unfold SFltb, SFeqb.
  destruct (Prim2SF x) as [s | s | | s m e]; cbn; try destruct s;
    try discriminate; reflexivity.
Qed.

Lemma SFsub_self (s : bool) (m : positive) (e : Z) :
  SF64sub (S754_finite s m e) (S754_finite s m e) = S754_zero false.
Proof.
  unfold SF64sub, SFsub. cbv zeta. rewrite Z.sub_diag. reflexivity.
Qed.

(** Two equal finite prices above zero are at distance zero. *)
Lemma equal_prices_zero_distance (x y : float) :
  (0 <? x) = true -> (x <? infinity) = true -> (x =? y) = true ->
  (abs (x - y) =? 0) = true.
Proof.
  rewrite !ltb_spec, !FloatAxioms.eqb_spec, abs_spec, sub_spec.
  change (Prim2SF 0) with (S754_zero false).
  change (Prim2SF infinity) with (S754_infinity false).
  destruct (Prim2SF x) as [sx | sx | | sx mx ex];
    try (destruct sx; discriminate); try discriminate.
  destruct sx; try discriminate. intros _ _.
  destruct (Prim2SF y) as [sy | sy | | sy my ey];
    try (destruct sy; discriminate); try discriminate.
  destruct sy; try discriminate.
  unfold SFeqb at 1, SFcompare.
  change (Pos.compare_cont Eq) with Pos.compare.
  destruct (Z.compare_spec ex ey); try discriminate.
  destruct (Pos.compare_spec mx my); try discriminate.
  subst. intros _. rewrite SFsub_self. reflexivity.
Qed.

(** Adding or subtracting the literal zero leaves a double above zero as it
    is. *)
Lemma add_zero_pos (x : float) : (0 <? x) = true -> x + 0 = x.
Proof.
  intros Hx.
  assert (E : Prim2SF (x + 0) = Prim2SF x).
  { rewrite add_spec. rewrite ltb_spec in Hx.
    change (Prim2SF 0) with (S754_zero false) in *.
    unfold SFltb in Hx.
    destruct (Prim2SF x) as [s | s | | s m e]; cbn in Hx; try destruct s;
      try discriminate; reflexivity. }
  rewrite <- (SF2Prim_Prim2SF (x + 0)), E. apply SF2Prim_Prim2SF.
Qed.

Lemma sub_zero_pos (x : float) : (0 <? x) = true -> x - 0 = x.
Proof.
  intros Hx.
  assert (E : Prim2SF (x - 0) = Prim2SF x).
  { rewrite sub_spec. rewrite ltb_spec in Hx.
    change (Prim2SF 0) with (S754_zero false) in *.
    unfold SFltb in Hx.
    destruct (Prim2SF x) as [s | s | | s m e]; cbn in Hx; try destruct s;
      try discriminate; reflexivity. }
  rewrite <- (SF2Prim_Prim2SF (x - 0)), E. apply SF2Prim_Prim2SF.
Qed.

End Binary64Order.

(* ================================================================== *)
(** ** Position sizing in binary64 *)

Section Binary64Sizing.

Import risk_manager.

Local Open Scope float_scope.

(** Derives a contradiction from comparisons that would close a cycle. *)
Ltac ltb_saturate :=
  repeat match goal with
  | H1 : (?x <? ?y) = true, H2 : (?y <? ?z) = true |- _ =>
      lazymatch goal with
      | _ : (x <? z) = true |- _ => fail
      | _ => pose proof (ltb_trans x y z H1 H2)
      end
  end.

Ltac ltb_absurd :=
  ltb_saturate;
  match goal with
  | H : (?x <? ?x) = true |- _ => rewrite ltb_irrefl in H; discriminate H
  | H : (?x <? ?y) = true, H' : (?x <? ?y) = false |- _ =>
      rewrite H in H'; discriminate H'
  end.

Ltac ltb_not_below :=
  match goal with
  | |- (?x <? ?x) = false => apply ltb_irrefl
  | H : (?x <? ?y) = false |- (?x <? ?y) = false => exact H
  | |- (?x <? ?y) = false =>
      let E := fresh "E" in
      destruct (x <? y) eqn:E; [exfalso; ltb_absurd | reflexivity]
  end.

(** Python's [min] of three doubles, taken two at a time as the code does:
    the result is one of the three, and none of the three is below it. *)
Lemma py_min3_least (a b c : float) :
  let r := py_min (py_min a b) c in
  (r = a \/ r = b \/ r = c) /\
  (a <? r) = false /\ (b <? r) = false /\ (c <? r) = false.
Proof.
  unfold py_min. cbn [flt binary64].
  destruct (b <? a) eqn:Hba;
    [destruct (c <? b) eqn:Hc | destruct (c <? a) eqn:Hc];
    cbv zeta; (split; [tauto|]); (split; [|split]); ltb_not_below.
Qed.

(** The sized volume in binary64, for an entry price above zero. *)
Lemma calculate_position_size_binary64 (rm : RiskManager float)
    (entry stop conf : float) :
  (0 <? entry) = true ->
  calculate_position_size rm entry stop conf
  = if abs (entry - stop) =? 0 then Ok 0
    else Ok (py_min
               (py_min (total_capital (config rm) * risk_per_trade (config rm)
                        * conf / abs (entry - stop))
                       (total_capital (config rm)
                        * max_position_size (config rm) / entry))
               (get_available_capital rm / entry)).
Proof.
  intros Hentry. unfold calculate_position_size, truediv.
  change (@dec float binary64 0%Q) with 0.
  change (@dec float binary64 0.0%Q) with 0.
  cbn [feq fabs fsub fmul fdiv binary64].
  rewrite (ltb_zero_eqb entry Hentry).
  destruct (abs (entry - stop) =? 0); reflexivity.
Qed.

(** On a fresh manager with a capital above zero, the available capital is
    the capital. *)
Lemma fresh_available_binary64 (cfg : RiskConfig float) :
  (0 <? total_capital cfg) = true ->
  get_available_capital (init cfg) = total_capital cfg.
Proof.
  intros Hcap.
  unfold get_available_capital, get_current_capital, py_sum, init.
  cbn [positions config total_realized_pnl dict_values map fold_left].
  change (@dec float binary64 0%Q) with 0.
  change (@dec float binary64 0.0%Q) with 0.
  cbn [fadd fsub binary64].
  rewrite (add_zero_pos _ Hcap), (add_zero_pos _ Hcap).
  apply (sub_zero_pos _ Hcap).
Qed.

(** C5 (as amended).  In binary64, for an entry price above zero,
    [calculate_position_size] returns 0.0 when the stop distance
    [|entry - stop|] compares equal to zero (as it does when entry and stop
    are equal finite prices), and otherwise Python's [min] of the three
    quotients (capital x risk_per_trade x confidence) / |entry - stop|,
    (capital x max_position_size) / entry and available / entry: the volume
    is one of the three and none of the three is below it.  In exact
    arithmetic the notional of that volume is within
    max_position_size x capital and within the available capital.  On a
    fresh manager with capital 10000 and the default limits, entry 45000,
    stop 44000 and confidence 1 give 0.022222222222222223 (1/45 in exact
    arithmetic), not 0.2. *)
Theorem position_size_is_clamped
    (rm : RiskManager float) (entry stop conf : float)
    (rq : RiskManager Q) (entry_q stop_q conf_q : Q) :
  (0 <? entry) = true ->
  (0 < entry_q)%Q ->
  let distance := abs (entry - stop) in
  let by_risk :=
    total_capital (config rm) * risk_per_trade (config rm) * conf / distance in
  let by_size :=
    total_capital (config rm) * max_position_size (config rm) / entry in
  let by_capital := get_available_capital rm / entry in
  (* binary64 *)
  ((distance =? 0) = true ->
     calculate_position_size rm entry stop conf = Ok 0) /\
  ((entry <? infinity) = true -> (entry =? stop) = true ->
     calculate_position_size rm entry stop conf = Ok 0) /\
  ((distance =? 0) = false ->
     exists v : float,
       calculate_position_size rm entry stop conf = Ok v /\
       v = py_min (py_min by_risk by_size) by_capital /\
       (v = by_risk \/ v = by_size \/ v = by_capital) /\
       (by_risk <? v) = false /\
       (by_size <? v) = false /\
       (by_capital <? v) = false) /\
  (calculate_position_size (fresh (F := float)) 45000 44000 1
     = Ok 0.022222222222222223 /\
   (0.0222 <? 0.022222222222222223) = true /\
   (0.022222222222222223 <? 0.0223) = true) /\
  (* exact arithmetic *)
  ((entry_q == stop_q ->
      exists v : Q,
        calculate_position_size rq entry_q stop_q conf_q = Ok v /\ v == 0) /\
   (~ entry_q == stop_q ->
      exists v : Q,
        calculate_position_size rq entry_q stop_q conf_q = Ok v /\
        v == Qmin (Qmin (total_capital (config rq) * risk_per_trade (config rq)
                         * conf_q / Qabs (entry_q - stop_q))
                        (total_capital (config rq)
                         * max_position_size (config rq) / entry_q))
                  (get_available_capital rq / entry_q) /\
        v * entry_q
          <= max_position_size (config rq) * total_capital (config rq) /\
        v * entry_q <= get_available_capital rq) /\
   (exists v : Q,
      calculate_position_size (fresh (F := Q)) 45000 44000 1 = Ok v /\
      v == 1 # 45 /\ 0.0222 < v < 0.0223 /\ ~ v == 0.2))%Q.
Proof.
  intros Hentry Hentry_q distance by_risk by_size by_capital.
  rewrite (calculate_position_size_binary64 rm entry stop conf Hentry).
  fold distance. fold by_risk. fold by_size. fold by_capital.
  split; [|split; [|split; [|split]]].
  - intros E. rewrite E. reflexivity.
  - intros Hfin Heq.
    assert (E : (distance =? 0) = true)
      by (apply equal_prices_zero_distance; assumption).
    rewrite E. reflexivity.
  - intros E. rewrite E. eexists. split; [reflexivity|].
    split; [reflexivity|].
    exact (py_min3_least by_risk by_size by_capital).
  - split; [|split]; vm_compute; reflexivity.
  - exact (position_size_exact rq entry_q stop_q conf_q Hentry_q).
Qed.

(** C8 (as amended).  What the code keeps is the clamp at sizing time.  In
    binary64, for an entry price above zero and a stop distance that is not
    zero, the volume [calculate_position_size] returns is never above the
    quotient available / entry; and on a fresh manager with a capital above
    zero the available capital is the capital.  In exact arithmetic this
    clamp makes [open_position] under a new id, with the volume sized in that
    state, leave a non-negative available capital non-negative.  In binary64
    the product entry x volume is rounded, and the open can leave the
    available capital below zero by a rounding error: with limits that let
    one trade use all of a capital of 10000, entry 145 and stop 100 size
    68.965517241379317 units and the opened state has an available capital
    of -1.8189894035458565e-12. *)
Theorem open_position_keeps_available_capital
    (rm : RiskManager float) (cfg : RiskConfig float)
    (entry stop conf : float)
    (rq rq' : RiskManager Q) (pid pair side : string)
    (entry_q stop_q conf_q tp1 tp2 tp3 vol : Q) (now : nat) (ok : bool) :
  (* binary64 *)
  ((0 <? entry) = true ->
   (abs (entry - stop) =? 0) = false ->
   exists v : float,
     calculate_position_size rm entry stop conf = Ok v /\
     (get_available_capital rm / entry <? v) = false) /\
  ((0 <? total_capital cfg) = true ->
   get_available_capital (init cfg) = total_capital cfg) /\
  (* exact arithmetic *)
  ((0 < entry_q)%Q ->
   (0 <= get_available_capital rq)%Q ->
   dict_get pid (positions rq) = None ->
   calculate_position_size rq entry_q stop_q conf_q = Ok vol ->
   open_position rq pid pair side entry_q vol stop_q tp1 tp2 tp3 now
     = Ok (rq', ok) ->
   (0 <= get_available_capital rq')%Q /\
   (get_available_capital (init (config rq)) == total_capital (config rq))%Q) /\
  (* the open that rounds below zero *)
  (calculate_position_size (init all_in_config) 145 100 1
     = Ok 68.965517241379317 /\
   open_position (init all_in_config) "long-145" "XBTUSD" "buy" 145
     68.965517241379317 100 160 175 190 0
     = Ok (all_in_at_145_opened, true) /\
   reachable all_in_config (all_in_at_145_opened (F := float)) /\
   (0 <? get_available_capital (init (all_in_config (F := float)))) = true /\
   get_available_capital (all_in_at_145_opened (F := float))
     = -1.8189894035458565e-12 /\
   (get_available_capital (all_in_at_145_opened (F := float)) <? 0) = true /\
   (exact_value (get_available_capital (all_in_at_145_opened (F := float)))
      < 0)%Q).
Proof.
  split; [|split; [|split]].
  - intros Hentry Hdist.
    rewrite (calculate_position_size_binary64 rm entry stop conf Hentry), Hdist.
    eexists. split; [reflexivity|].
    apply (py_min3_least _ _ (get_available_capital rm / entry)).
  - apply fresh_available_binary64.
  - apply open_position_exact.
  - split; [vm_compute; reflexivity|].
    split; [vm_compute; reflexivity|].
    split.
    { eapply (reach_open _ (init all_in_config) all_in_at_145_opened
                "long-145" "XBTUSD" "buy" (dec 145) (dec 100) (dec 1)
                (dec 160) (dec 175) (dec 190) _ 0 true).
      - apply reach_init.
      - unfold all_in_at_145_volume. vm_compute. reflexivity.
      - vm_compute. reflexivity. }
    split; [vm_compute; reflexivity|].
    split; [vm_compute; reflexivity|].
    split; vm_compute; reflexivity.
Qed.

End Binary64Sizing.

(* ================================================================== *)
(** ** Runs of the risk manager *)

Section Runs.

Import risk_manager.

(** C8 (counterexample). A fresh manager (capital 10000) sizes a short sale
    at 100 with stop 110 to 10 units and opens it; the price is then updated
    to 2000.  The state is reachable and its available capital is -10000,
    in binary64 and in exact arithmetic alike.  A manager whose limits allow
    one trade to use all the capital buys 100 units at 100; a price update to
    99 leaves it with an available capital of -100. *)
Lemma available_capital_goes_negative :
  ((reachable (default_config (dec 10000)) (short_squeezed (F := float)) /\
    get_available_capital (short_squeezed (F := float)) = (-10000)%float /\
    flt (get_available_capital (short_squeezed (F := float))) (dec 0) = true)
   /\
   (reachable (default_config (dec 10000)) (short_squeezed (F := Q)) /\
    (get_available_capital (short_squeezed (F := Q)) < 0)%Q))
  /\
  ((reachable all_in_config (all_in_marked (F := float)) /\
    get_available_capital (all_in_marked (F := float)) = (-100)%float)
   /\
   (reachable all_in_config (all_in_marked (F := Q)) /\
    (get_available_capital (all_in_marked (F := Q)) < 0)%Q)).
Proof.
  split; [|split; split].
  2,4: apply reach_update;
       eapply (reach_open _ (init all_in_config) all_in_opened "long-all"
                 "XBTUSD" "buy" (dec 100) (dec 90) (dec 1) (dec 115)
                 (dec 125) (dec 140) _ 0 true);
       [ apply reach_init
       | unfold all_in_volume; vm_compute; reflexivity
       | vm_compute; reflexivity ].
  2,3: vm_compute; reflexivity.
  split; split.
  - apply reach_update.
    eapply (reach_open _ fresh short_opened "short-1" "XBTUSD" "sell"
              (dec 100) (dec 110) (dec 1) (dec 85) (dec 75) (dec 60)
              10%float 0 true).
    + apply reach_init.
    + vm_compute. reflexivity.
    + vm_compute. reflexivity.
  - split; vm_compute; reflexivity.
  - apply reach_update.
    eapply (reach_open _ fresh short_opened "short-1" "XBTUSD" "sell"
              (dec 100) (dec 110) (dec 1) (dec 85) (dec 75) (dec 60)
              _ 0 true).
    + apply reach_init.
    + unfold short_volume. vm_compute. reflexivity.
    + vm_compute. reflexivity.
  - vm_compute. reflexivity.
Qed.

(** C6 (the run that fails). A long position of volume 1.0 is opened and its
    three targets are closed in turn.  Each close returns 30%, 40%, 30% of the
    original volume, but in binary64 [1.0 - 0.3 - 0.4 - 0.3] is [-2^-54], not
    zero: after the third close the position is still in the live map with
    status PARTIALLY_CLOSED and the closed history is empty.  The volume
    0.0222... that the manager sizes for entry 45000 and stop 44000 ends the
    same way. *)
Theorem staged_closes_leave_position_open :
  snd (close_position_partial (long_opened 1%float) "long-1" 1 110%float)
    = 0.3%float /\
  snd (close_position_partial (after_tp1 1%float) "long-1" 2 120%float)
    = 0.4%float /\
  snd (close_position_partial (after_tp2 1%float) "long-1" 3 130%float)
    = 0.3%float /\
  closed_positions (after_tp3 1%float) = [] /\
  exists p : Position float,
    dict_get "long-1" (positions (after_tp3 1%float)) = Some p /\
    status p = PARTIALLY_CLOSED /\
    volume_closed_tp1 p = 0.3%float /\
    volume_closed_tp2 p = 0.4%float /\
    volume_closed_tp3 p = 0.3%float /\
    get_open_volume p = (-0x1p-54)%float /\
    feq (get_open_volume p) (dec 0) = false /\
    closed_positions (after_tp3 0.022222222222222223%float) = [] /\
    List.length (positions (after_tp3 0.022222222222222223%float)) = 1%nat.
Proof.
  repeat split; try (vm_compute; reflexivity).
  eexists. split; [vm_compute; reflexivity|].
  repeat split; vm_compute; reflexivity.
Qed.

(** In exact arithmetic the same run closes the position at the third
    target, and not before. *)
Lemma staged_closes_exact :
  (exists p : Position Q,
     dict_get "long-1" (positions (after_tp2 (F := Q) 1)) = Some p /\
     status p = PARTIALLY_CLOSED) /\
  positions (after_tp3 (F := Q) 1) = [] /\
  map status (closed_positions (after_tp3 (F := Q) 1)) = [CLOSED].
Proof.
  split; [eexists; split; vm_compute; reflexivity|].
  split; vm_compute; reflexivity.
Qed.

(** C9 at work: a fresh manager and an id it has never seen. *)
Lemma unknown_position_is_noop_witness :
  dict_get "ghost" (positions (fresh (F := float))) = None /\
  update_position_price fresh "ghost" 45000%float = (fresh, tt) /\
  close_position_partial fresh "ghost" 2 45000%float = (fresh, dec 0.0) /\
  close_position_stop_loss fresh "ghost" 45000%float = (fresh, dec 0.0).
Proof.
  split; [reflexivity|].
  apply (unknown_position_is_noop fresh "ghost" 45000%float 2). reflexivity.
Defined.

(** C7 at work: the long position of volume 1.0, after its first target
    closed 0.3, is stopped out at 95: the residual 0.7 is closed at a loss,
    the record filed in the history is STOPPED_OUT with a realized PnL of
    -0.5, and the loss counter goes from 0 to 1. *)
Lemma stop_loss_closes_residual_witness :
  dict_wf (positions (after_tp1 1%float)) = true /\
  snd (close_position_stop_loss (after_tp1 1%float) "long-1" 95%float)
    = (1 - 0.3 - 0 - 0)%float /\
  (exists p' : Position float,
     closed_positions
       (fst (close_position_stop_loss (after_tp1 1%float) "long-1" 95%float))
     = [p'] /\
     status p' = STOPPED_OUT /\
     realized_pnl p' = (-0.5)%float /\
     volume p' = 1%float) /\
  dict_get "long-1"
    (positions
       (fst (close_position_stop_loss (after_tp1 1%float) "long-1" 95%float)))
    = None /\
  consecutive_losses
    (fst (close_position_stop_loss (after_tp1 1%float) "long-1" 95%float))
    = 1%Z.
Proof.
  split; [reflexivity|].
  pose proof (fun p => stop_loss_closes_residual (F := float)
                         (after_tp1 1%float) "long-1" 95%float p eq_refl)
    as Hstop.
  specialize (Hstop _ eq_refl). cbv zeta in Hstop.
  destruct Hstop
    as (Hvol & _ & (p' & Hhist & Hstatus & Hpnl & _ & _ & _ & _ & Hv & _)
        & Hgone & _ & _ & _ & Hloss & _).
  split; [|split; [|split]].
  - rewrite Hvol. vm_compute. reflexivity.
  - exists p'. split; [exact Hhist|]. split; [exact Hstatus|].
    split; [rewrite Hpnl | rewrite Hv]; vm_compute; reflexivity.
  - exact Hgone.
  - rewrite Hloss; vm_compute; reflexivity.
Defined.

(** C5 (counterexample).  On a fresh manager (capital 10000, default limits)
    entry 15, stop 14 and confidence 1 size 66.666666666666671 units, the
    position-size cap 1000 / 15 rounded to the nearest double.  The notional
    of that volume, 66.666666666666671 x 15, is 1000.0000000000001 in
    binary64, above max_position_size x capital = 1000.  The exact product of
    the two doubles is above 1000 as well, and above the exact product of the
    doubles 0.1 and 10000. *)
Lemma position_size_notional_exceeds_cap :
  (0 <? 15)%float = true /\
  calculate_position_size (fresh (F := float)) 15%float 14%float 1%float
    = Ok 66.666666666666671%float /\
  fmul 66.666666666666671%float 15%float = 1000.0000000000001%float /\
  fmul (max_position_size (config (fresh (F := float))))
       (total_capital (config (fresh (F := float)))) = 1000%float /\
  flt (fmul (max_position_size (config (fresh (F := float))))
            (total_capital (config (fresh (F := float)))))
      (fmul 66.666666666666671%float 15%float) = true /\
  (1000 < exact_value 66.666666666666671%float * 15)%Q /\
  (exact_value (max_position_size (config (fresh (F := float))))
   * exact_value (total_capital (config (fresh (F := float))))
   < exact_value 66.666666666666671%float * exact_value 15%float)%Q.
Proof.
  split; [reflexivity|].
  split; [vm_compute; reflexivity|].
  split; [vm_compute; reflexivity|].
  split; [vm_compute; reflexivity|].
  split; [vm_compute; reflexivity|].
  split; vm_compute; reflexivity.
Qed.

(** C5 at work: a fresh manager, entry 45000 and stop 44000, in binary64 and
    in exact arithmetic. *)
Lemma position_size_is_clamped_witness :
  (0 <? 45000)%float = true /\
  (0 < 45000)%Q /\
  (exists v : float,
     calculate_position_size (fresh (F := float)) 45000%float 44000%float
       1%float = Ok v /\
     flt (fdiv (fmul (total_capital (config (fresh (F := float))))
                     (max_position_size (config (fresh (F := float)))))
               45000%float) v = false) /\
  (exists v : Q,
     calculate_position_size (fresh (F := Q)) 45000 44000 1 = Ok v /\
     (v * 45000
      <= max_position_size (config fresh) * total_capital (config fresh))%Q).
Proof.
  split; [reflexivity|]. split; [reflexivity|].
  pose proof (position_size_is_clamped fresh 45000%float 44000%float 1%float
                fresh 45000%Q 44000%Q 1%Q eq_refl eq_refl) as Hsize.
  cbv zeta in Hsize.
  destruct Hsize as (_ & _ & Hfloat & _ & _ & Hexact & _).
  split.
  - destruct Hfloat as (v & Hv & _ & _ & _ & Hcap & _);
      [vm_compute; reflexivity|].
    exists v. split; [exact Hv | exact Hcap].
  - destruct Hexact as (v & Hv & _ & Hcap & _).
    + intros Habs. vm_compute in Habs. discriminate.
    + exists v. split; [exact Hv | exact Hcap].
Defined.

(** C8 at work: the short sale above, sized and opened on the fresh
    manager. *)
Lemma open_position_keeps_available_capital_witness :
  (0 <? 100)%float = true /\
  (abs (100 - 110) =? 0)%float = false /\
  (exists v : float,
     calculate_position_size (fresh (F := float)) 100%float 110%float 1%float
       = Ok v /\
     flt (fdiv (get_available_capital (fresh (F := float))) 100%float) v
       = false) /\
  (0 <? 10000)%float = true /\
  get_available_capital (fresh (F := float)) = 10000%float /\
  (0 < 100)%Q /\
  (0 <= get_available_capital (fresh (F := Q)))%Q /\
  dict_get "short-1" (positions (fresh (F := Q))) = None /\
  (0 <= get_available_capital (short_opened (F := Q)))%Q.
Proof.
  assert (Hrun : exists vol : Q,
             calculate_position_size (fresh (F := Q)) 100 110 1 = Ok vol /\
             open_position fresh "short-1" "XBTUSD" "sell" 100 vol 110 85 75
               60 0 = Ok (short_opened, true)).
  { eexists. split; vm_compute; reflexivity. }
  destruct Hrun as (vol & Hsize & Hopen).
  destruct (open_position_keeps_available_capital
              fresh (default_config 10000%float) 100%float 110%float 1%float
              fresh short_opened "short-1" "XBTUSD" "sell"
              100 110 1 85 75 60 vol 0 true)
    as (Hclamp & Hfresh & Hexact & _).
  split; [reflexivity|]. split; [reflexivity|].
  split; [exact (Hclamp eq_refl eq_refl)|].
  split; [reflexivity|].
  split; [exact (Hfresh eq_refl)|].
  split; [reflexivity|].
  assert (Havail : (0 <= get_available_capital (fresh (F := Q)))%Q)
    by (vm_compute; discriminate).
  split; [exact Havail|].
  split; [reflexivity|].
  exact (proj1 (Hexact eq_refl Havail eq_refl Hsize Hopen)).
Defined.

End Runs.

(* ================================================================== *)
(** ** The indicator engine and the snapshot builder *)

Section IndicatorFacts.

Import technical_analysis windows.

Local Open Scope float_scope.

(** With a zero smoothed loss the program takes the relative strength to be
    0, so the index is [100 - 100/1 = 0]. *)
Lemma rsi_zero_loss (up down : float) :
  (down =? 0) = true -> rsi_of (rs_of up down) = 0.
Proof.
  intros Hdown. unfold rs_of. rewrite Hdown. vm_compute. reflexivity.
Qed.

(** C3 (the run that fails). On the strictly increasing series
    100, 101, ..., 150 with period 14 the smoothed loss is zero throughout,
    and [calculate_rsi] returns 0 at every index, not 100. *)
Theorem rsi_of_rising_prices_is_zero :
  List.length rising_prices = 51%nat /\
  calculate_rsi rising_prices 14 = repeat 0 51.
Proof.
  split; vm_compute; reflexivity.
Qed.

(** The snapshot's ATR is computed with the low column (index 3) passed as
    [high] and the high column (index 2) passed as [low]. *)
Lemma process_ohlcv_atr_columns (self : MarketDataProcessor)
    (ohlcv_data : list Bar) (ind : TechnicalIndicators) :
  process_ohlcv self ohlcv_data = Ok (Some ind) ->
  atr_14 ind
  = last_of (calculate_atr (map low ohlcv_data) (map high ohlcv_data)
                           (map close ohlcv_data) 14) /\
  adx_14 ind
  = last_of (calculate_adx (map low ohlcv_data) (map high ohlcv_data)
                           (map close ohlcv_data) 14).
Proof.
  unfold process_ohlcv.
  destruct (Z.of_nat (List.length ohlcv_data) <? min_candles self)%Z;
    [discriminate|].
  destruct ohlcv_data as [|b rest]; [discriminate|].
  intros Hind. inversion Hind. split; reflexivity.
Qed.

(** C4 (the run that fails). On 200 bars with high 102, low 98 and close
    100 the true range of every bar is 4, and [calculate_atr] on the high
    (index 2), low (index 3) and close (index 4) columns ends at 4; the
    snapshot of [process_ohlcv] has an ATR of 2. *)
Theorem snapshot_atr_differs_from_true_atr :
  (Z.of_nat (List.length flat_window) >= min_candles default_processor)%Z /\
  column 2 flat_window = map high flat_window /\
  column 3 flat_window = map low flat_window /\
  last_of (calculate_atr (column 2 flat_window) (column 3 flat_window)
                         (column 4 flat_window) 14) = 4 /\
  exists ind : TechnicalIndicators,
    process_ohlcv default_processor flat_window = Ok (Some ind) /\
    atr_14 ind = 2.
Proof.
  split; [vm_compute; discriminate|].
  split; [reflexivity|]. split; [reflexivity|].
  split; [vm_compute; reflexivity|].
  eexists. split; vm_compute; reflexivity.
Qed.

End IndicatorFacts.

(* ================================================================== *)
(** ** The signal generator *)

Section SignalFacts.

Import technical_analysis signal_generator windows.

Local Open Scope float_scope.

Variable self : SignalGenerator.
Variable indicators : TechnicalIndicators.

(** Case analysis on every test a result still depends on. *)
Ltac case_ifs :=
  repeat match goal with
         | |- context [if ?b then _ else _] => destruct b; cbn
         end.

Lemma get_trend_cases :
  get_trend indicators = "UPTREND"%string \/
  get_trend indicators = "DOWNTREND"%string \/
  get_trend indicators = "SIDEWAYS"%string.
Proof.
  unfold get_trend.
  destruct (_ && _); [now left|]. destruct (_ && _); auto.
Qed.

Lemma uptrend_emas :
  get_trend indicators = "UPTREND"%string ->
  (ema_50 indicators <? ema_12 indicators) = true.
Proof.
  unfold get_trend.
  destruct (ema_50 indicators <? ema_12 indicators); [reflexivity|].
  cbn. destruct (_ && _); discriminate.
Qed.

Lemma downtrend_emas :
  get_trend indicators = "DOWNTREND"%string ->
  (ema_12 indicators <? ema_50 indicators) = true.
Proof.
  unfold get_trend. destruct (_ && _); [discriminate|].
  destruct (ema_12 indicators <? ema_50 indicators); [reflexivity|].
  cbn. discriminate.
Qed.

(** In an uptrend the EMA alignment is decided by [ema_12 > ema_50], so the
    second disjunct, which reads [close], is not evaluated. *)
Lemma trend_confirmation_uptrend :
  get_trend indicators = "UPTREND"%string ->
  _check_trend_confirmation self indicators "UPTREND"
  = Ok (adx_threshold self - 5.0 <? adx_14 indicators).
Proof.
  intros Hup. unfold _check_trend_confirmation. cbn.
  now rewrite (uptrend_emas Hup).
Qed.

Lemma trend_confirmation_downtrend :
  get_trend indicators = "DOWNTREND"%string ->
  _check_trend_confirmation self indicators "DOWNTREND"
  = Ok (adx_threshold self - 5.0 <? adx_14 indicators).
Proof.
  intros Hdown. unfold _check_trend_confirmation. cbn.
  now rewrite (downtrend_emas Hdown).
Qed.

(** The momentum check returns only when the histogram is strictly on the
    signal's side; otherwise it reads [macd_histogram_prev]. *)
Lemma momentum_buy :
  _check_momentum_signal self indicators BUY
  = if 0 <? macd_histogram indicators
    then Ok (rsi_14 indicators <? rsi_oversold self + 10.0)
    else Raise (AttributeError "macd_histogram_prev").
Proof.
  unfold _check_momentum_signal. cbn.
  destruct (0 <? macd_histogram indicators); cbn; [|reflexivity].
  now rewrite andb_true_r.
Qed.

Lemma momentum_sell :
  _check_momentum_signal self indicators SELL
  = if macd_histogram indicators <? 0
    then Ok (rsi_overbought self - 10.0 <? rsi_14 indicators)
    else Raise (AttributeError "macd_histogram_prev").
Proof.
  unfold _check_momentum_signal. cbn.
  destruct (macd_histogram indicators <? 0); cbn; [|reflexivity].
  now rewrite andb_true_r.
Qed.

(** The three ways [_generate_buy_signal] ends on an uptrend snapshot. *)
Lemma buy_signal_cases (current_price atr_multiplier : float) :
  get_trend indicators = "UPTREND"%string ->
  let r := _generate_buy_signal self indicators current_price atr_multiplier in
  ((adx_threshold self - 5.0 <? adx_14 indicators) = false /\ r = Ok None) \/
  ((adx_threshold self - 5.0 <? adx_14 indicators) = true /\
   (0 <? macd_histogram indicators) = false /\
   r = Raise (AttributeError "macd_histogram_prev")) \/
  ((adx_threshold self - 5.0 <? adx_14 indicators) = true /\
   (0 <? macd_histogram indicators) = true /\ exists s, r = Ok s).
Proof.
  intros Hup r. subst r. unfold _generate_buy_signal.
  rewrite (trend_confirmation_uptrend Hup), momentum_buy.
  destruct (adx_threshold self - 5.0 <? adx_14 indicators); cbn;
    [|left; auto].
  right. destruct (0 <? macd_histogram indicators); cbn; [right|left; auto].
  repeat split.
  case_ifs; eexists; reflexivity.
Qed.

Lemma sell_signal_cases (current_price atr_multiplier : float) :
  get_trend indicators = "DOWNTREND"%string ->
  let r := _generate_sell_signal self indicators current_price atr_multiplier in
  ((adx_threshold self - 5.0 <? adx_14 indicators) = false /\ r = Ok None) \/
  ((adx_threshold self - 5.0 <? adx_14 indicators) = true /\
   (macd_histogram indicators <? 0) = false /\
   r = Raise (AttributeError "macd_histogram_prev")) \/
  ((adx_threshold self - 5.0 <? adx_14 indicators) = true /\
   (macd_histogram indicators <? 0) = true /\ exists s, r = Ok s).
Proof.
  intros Hdown r. subst r. unfold _generate_sell_signal.
  rewrite (trend_confirmation_downtrend Hdown), momentum_sell.
  destruct (adx_threshold self - 5.0 <? adx_14 indicators); cbn;
    [|left; auto].
  right. destruct (macd_histogram indicators <? 0); cbn; [right|left; auto].
  repeat split.
  case_ifs; eexists; reflexivity.
Qed.

(** When [signal_of_indicators] raises, and what. *)
Lemma signal_of_indicators_raises_iff (current_price atr_multiplier : float)
    (e : exn) :
  signal_of_indicators self indicators current_price atr_multiplier = Raise e
  <->
  e = AttributeError "macd_histogram_prev" /\
  (adx_threshold self - 5.0 <? adx_14 indicators) = true /\
  ((get_trend indicators = "UPTREND"%string /\
    (0 <? macd_histogram indicators) = false) \/
   (get_trend indicators = "DOWNTREND"%string /\
    (macd_histogram indicators <? 0) = false)).
Proof.
  unfold signal_of_indicators.
  destruct get_trend_cases as [Hup | [Hdown | Hside]].
  - rewrite Hup. cbn.
    destruct (buy_signal_cases current_price atr_multiplier Hup)
      as [[Ha Hr] | [(Ha & Hh & Hr) | (Ha & Hh & s & Hr)]];
      rewrite Hr; cbn; split;
        try discriminate;
        try (intros (_ & Ha' & _); congruence);
        try (intros (_ & _ & [[_ Hh'] | [Hd _]]); congruence).
    + intros Heq. inversion Heq. repeat split; auto.
    + intros (-> & _). reflexivity.
  - rewrite Hdown. cbn.
    destruct (sell_signal_cases current_price atr_multiplier Hdown)
      as [[Ha Hr] | [(Ha & Hh & Hr) | (Ha & Hh & s & Hr)]];
      rewrite Hr; cbn; split;
        try discriminate;
        try (intros (_ & Ha' & _); congruence);
        try (intros (_ & _ & [[Hu _] | [_ Hh']]); congruence).
    + intros Heq. inversion Heq. repeat split; auto.
    + intros (-> & _). reflexivity.
  - rewrite Hside. cbn. split; [discriminate|].
    intros (_ & _ & [[Hu _] | [Hd _]]); discriminate.
Qed.

End SignalFacts.

Section GenerateSignal.

Import technical_analysis signal_generator windows.

Local Open Scope float_scope.

(** C10. A window shorter than the processor's minimum number of candles
    makes [process_ohlcv] return the insufficient-data result (None) without
    building a snapshot, and [generate_signal] then returns no signal (None)
    and raises nothing. *)
Theorem insufficient_data_gives_no_signal (self : SignalGenerator)
    (ohlcv_data : list Bar) (current_price atr_multiplier : float) :
  (Z.of_nat (List.length ohlcv_data) < min_candles (processor self))%Z ->
  process_ohlcv (processor self) ohlcv_data = Ok None /\
  generate_signal self ohlcv_data current_price atr_multiplier = Ok None.
Proof.
  intros Hshort. apply Z.ltb_lt in Hshort.
  unfold generate_signal, process_ohlcv. rewrite Hshort. split; reflexivity.
Qed.

(** C1 (as amended). Once [process_ohlcv] has produced a snapshot,
    [generate_signal] raises exactly when the trend is UPTREND (DOWNTREND),
    the ADX is above the threshold less 5, and the MACD histogram is not
    above (below) zero; the exception is then the AttributeError on
    [macd_histogram_prev].  In every other case (a SIDEWAYS trend, an
    unconfirmed trend, a histogram strictly on the signal's side) it returns
    a signal or None, and the field [close] is never read. *)
Theorem generate_signal_raises_iff (self : SignalGenerator)
    (ohlcv_data : list Bar) (current_price atr_multiplier : float)
    (ind : TechnicalIndicators) :
  process_ohlcv (processor self) ohlcv_data = Ok (Some ind) ->
  forall e : exn,
    generate_signal self ohlcv_data current_price atr_multiplier = Raise e
    <->
    e = AttributeError "macd_histogram_prev" /\
    (adx_threshold self - 5.0 <? adx_14 ind) = true /\
    ((get_trend ind = "UPTREND"%string /\
      (0 <? macd_histogram ind) = false) \/
     (get_trend ind = "DOWNTREND"%string /\
      (macd_histogram ind <? 0) = false)).
Proof.
  intros Hind e. unfold generate_signal. rewrite Hind. cbn [Py.bind].
  apply signal_of_indicators_raises_iff.
Qed.

(** C1 at work: on the steadily rising window the trend is confirmed and the
    histogram is not above zero, so the call raises. *)
Lemma generate_signal_raises_iff_witness :
  process_ohlcv (processor default_generator) steady_uptrend
    = Ok (Some steady_snapshot) /\
  generate_signal default_generator steady_uptrend 300 2
    = Raise (AttributeError "macd_histogram_prev").
Proof.
  assert (Hind : process_ohlcv (processor default_generator) steady_uptrend
                 = Ok (Some steady_snapshot)) by (vm_compute; reflexivity).
  split; [exact Hind|].
  apply (generate_signal_raises_iff default_generator steady_uptrend 300 2
           steady_snapshot Hind).
  split; [reflexivity|]. split; [vm_compute; reflexivity|].
  left. split; vm_compute; reflexivity.
Defined.

(** C1 (counterexamples). Two windows of 200 bars that classify as UPTREND
    and on which [generate_signal] returns.  On the first the closes rise
    inside a constant high/low range, the ADX is 0 and the trend is not
    confirmed: the result is None.  On the second the closes accelerate, the
    histogram is positive, and a BUY signal of confidence 0.8 comes back. *)
Lemma uptrend_windows_that_return :
  (List.length quiet_uptrend = 200%nat /\
   (exists ind,
      process_ohlcv (processor default_generator) quiet_uptrend = Ok (Some ind)
      /\ get_trend ind = "UPTREND"%string /\ adx_14 ind = 0) /\
   generate_signal default_generator quiet_uptrend 300 2 = Ok None) /\
  (List.length accelerating_uptrend = 200%nat /\
   (exists ind,
      process_ohlcv (processor default_generator) accelerating_uptrend
        = Ok (Some ind)
      /\ get_trend ind = "UPTREND"%string
      /\ (0 <? macd_histogram ind) = true) /\
   exists s,
     generate_signal default_generator accelerating_uptrend 39000 2
       = Ok (Some s)
     /\ signal_type s = BUY /\ confidence s = 0.8 /\ entry_price s = 39000).
Proof.
  split; (split; [vm_compute; reflexivity|]); split.
  - eexists. split; [vm_compute; reflexivity|].
    split; vm_compute; reflexivity.
  - vm_compute. reflexivity.
  - eexists. split; [vm_compute; reflexivity|].
    split; vm_compute; reflexivity.
  - eexists. split; [vm_compute; reflexivity|].
    split; [|split]; vm_compute; reflexivity.
Qed.

(** C2 (the runs that fail). With the default thresholds, an uptrend
    snapshot with RSI 35 and a histogram of -1 makes the BUY momentum check
    raise AttributeError where the rule compares the histogram with its
    previous value, and [_generate_buy_signal] raises with it instead of
    emitting or withholding a signal; a downtrend snapshot with RSI 20, on
    which the SELL condition fails whatever the previous histogram was, makes
    the SELL check and [_generate_sell_signal] raise as well, where the rule
    gives no signal. *)
Theorem momentum_check_raises :
  (rsi_14 oversold_snapshot <? rsi_oversold default_generator + 10.0) = true /\
  _check_momentum_signal default_generator oversold_snapshot BUY
    = Raise (AttributeError "macd_histogram_prev") /\
  _generate_buy_signal default_generator oversold_snapshot 100 2
    = Raise (AttributeError "macd_histogram_prev") /\
  (rsi_overbought default_generator - 10.0 <? rsi_14 weak_sell_snapshot)
    = false /\
  _check_momentum_signal default_generator weak_sell_snapshot SELL
    = Raise (AttributeError "macd_histogram_prev") /\
  _generate_sell_signal default_generator weak_sell_snapshot 100 2
    = Raise (AttributeError "macd_histogram_prev").
Proof.
  split; [|split; [|split; [|split; [|split]]]]; vm_compute; reflexivity.
Qed.

(** C10 at work: 199 bars against the default minimum of 200. *)
Lemma insufficient_data_gives_no_signal_witness :
  (Z.of_nat (List.length (firstn 199 flat_window))
   < min_candles (processor default_generator))%Z /\
  process_ohlcv (processor default_generator) (firstn 199 flat_window)
    = Ok None /\
  generate_signal default_generator (firstn 199 flat_window) 100 2 = Ok None.
Proof.
  split; [vm_compute; reflexivity|].
  apply (insufficient_data_gives_no_signal default_generator
           (firstn 199 flat_window) 100 2).
  vm_compute. reflexivity.
Defined.

End GenerateSignal.

(* ================================================================== *)
(** * Further properties of the code *)

(** ** More on dictionaries *)

Section MoreDictFacts.

Context {V : Type}.

Lemma dict_wf_pop (k : string) (d : dict V) :
  dict_wf d = true -> dict_wf (dict_pop k d) = true.
Proof.
  induction d as [|[k' v'] d IH]; simpl; auto.
  destruct (dict_get k' d) eqn:G; [discriminate|]. intros W.
  destruct (String.eqb k k') eqn:E; simpl; auto.
  rewrite dict_get_pop_other, G; auto.
  intros ->. now rewrite String.eqb_refl in E.
Qed.

Lemma dict_get_pop_some (k q : string) (d : dict V) (v : V) :
  dict_wf d = true ->
  dict_get q (dict_pop k d) = Some v -> q <> k /\ dict_get q d = Some v.
Proof.
  intros W G. destruct (String.eqb_spec q k) as [->|Hne].
  - rewrite dict_get_pop_same in G by exact W. discriminate.
  - split; [exact Hne|]. now rewrite dict_get_pop_other in G.
Qed.

Lemma dict_set_length_present (k : string) (v w : V) (d : dict V) :
  dict_get k d = Some w -> List.length (dict_set k v d) = List.length d.
Proof.
  induction d as [|[k' v'] d IH]; simpl; [discriminate|].
  destruct (String.eqb k k'); simpl; auto.
Qed.

Lemma dict_set_length_le (k : string) (v : V) (d : dict V) :
  (List.length (dict_set k v d) <= S (List.length d))%nat.
Proof.
  induction d as [|[k' v'] d IH]; simpl; auto.
  destruct (String.eqb k k'); simpl; auto using le_n_S.
Qed.

Lemma dict_pop_length_le (k : string) (d : dict V) :
  (List.length (dict_pop k d) <= List.length d)%nat.
Proof.
  induction d as [|[k' v'] d IH]; simpl; auto.
  destruct (String.eqb k k'); simpl; auto using le_n_S.
Qed.

Lemma dict_get_set_cases (k q : string) (v w : V) (d : dict V) :
  dict_get q (dict_set k v d) = Some w ->
  (q = k /\ w = v) \/ (q <> k /\ dict_get q d = Some w).
Proof.
  destruct (String.eqb_spec q k) as [->|Hne].
  - rewrite dict_get_set_same. intros E. inversion E. now left.
  - rewrite dict_get_set_other by exact Hne. now right.
Qed.

End MoreDictFacts.

(* ================================================================== *)
(** ** The position lifecycle *)

Section ManagerInvariants.

Import risk_manager.

Context {F : Type} `{PyFloat F}.

(** The two ways [open_position] returns. *)
Lemma open_position_cases (rm rm' : RiskManager F) (pid pair side : string)
    (entry vol stop tp1 tp2 tp3 : F) (now : nat) (ok : bool) :
  open_position rm pid pair side entry vol stop tp1 tp2 tp3 now = Ok (rm', ok) ->
  (ok = false /\ rm' = rm /\ exists r, can_open_position rm = Ok (false, r)) \/
  (ok = true /\
   rm' = with_positions
           (dict_set pid
              (new_position pid pair side entry vol stop tp1 tp2 tp3 now)
              (positions rm)) rm /\
   exists r, can_open_position rm = Ok (true, r)).
Proof.
  unfold open_position.
  destruct (can_open_position rm) as [[can r]|e]; cbn; [|discriminate].
  destruct can; cbn; intros E; inversion E; subst; [right|left];
    repeat split; eauto.
Qed.

Lemma can_open_position_room (rm : RiskManager F) (r : Reason) :
  can_open_position rm = Ok (true, r) ->
  (Z.of_nat (List.length (positions rm)) < max_positions (config rm))%Z.
Proof.
  unfold can_open_position.
  destruct (Z.of_nat (List.length (positions rm))
            >=? max_positions (config rm))%Z eqn:E; [discriminate|].
  intros _. rewrite Z.geb_leb in E. apply Z.leb_gt in E. exact E.
Qed.

Lemma update_current_price_keeps (p : Position F) (price : F) :
  position_id (update_current_price p price) = position_id p /\
  status (update_current_price p price) = status p /\
  volume (update_current_price p price) = volume p /\
  get_open_volume (update_current_price p price) = get_open_volume p /\
  realized_pnl (update_current_price p price) = realized_pnl p.
Proof.
  unfold update_current_price. destruct (String.eqb (side p) "buy");
    repeat split.
Qed.

Lemma record_close_keeps (tp_level : Z) (v : F) (p : Position F) :
  position_id (record_close tp_level v p) = position_id p /\
  side (record_close tp_level v p) = side p /\
  entry_price (record_close tp_level v p) = entry_price p /\
  volume (record_close tp_level v p) = volume p /\
  realized_pnl (record_close tp_level v p) = realized_pnl p.
Proof.
  unfold record_close.
  destruct (tp_level =? 1)%Z; [|destruct (tp_level =? 2)%Z]; repeat split.
Qed.

(** A level with no fraction closes nothing. *)
Lemma partial_close_without_fraction (rm : RiskManager F) (pid : string)
    (tp_level : Z) (price : F) :
  tp_fraction tp_level = None ->
  close_position_partial rm pid tp_level price = (rm, dec 0.0).
Proof.
  intros Hnone. unfold tp_fraction in Hnone. unfold close_position_partial.
  destruct (tp_level =? 1)%Z; [discriminate|].
  destruct (tp_level =? 2)%Z; [discriminate|].
  destruct (tp_level =? 3)%Z; [discriminate|].
  destruct (dict_get pid (positions rm)); reflexivity.
Qed.

(** X5. A staged close at a level other than 1, 2 or 3 closes nothing: it
    returns [0.0] and the manager is as it was, whether or not the id is
    live. *)
Theorem close_position_partial_unknown_level (rm : RiskManager F)
    (position_id : string) (tp_level : Z) (close_price : F) :
  tp_level <> 1%Z -> tp_level <> 2%Z -> tp_level <> 3%Z ->
  close_position_partial rm position_id tp_level close_price = (rm, dec 0.0).
Proof.
  intros H1 H2 H3. unfold close_position_partial.
  apply Z.eqb_neq in H1, H2, H3. rewrite H1, H2, H3.
  destruct (dict_get position_id (positions rm)); reflexivity.
Qed.

(** Each operation keeps the lifecycle invariant. *)
Lemma lifecycle_ok_set (rm : RiskManager F) (pid : string) (p : Position F) :
  lifecycle_ok rm ->
  position_id p = pid -> live_status (status p) = true ->
  lifecycle_ok (with_positions (dict_set pid p (positions rm)) rm).
Proof.
  intros (Hwf & Hlive & Hhist) Hid Hst. repeat split; cbn.
  - now apply dict_wf_set.
  - apply dict_get_set_cases in H0 as [[-> ->] | [_ Hget]];
      [exact Hid | exact (proj1 (Hlive _ _ Hget))].
  - apply dict_get_set_cases in H0 as [[-> ->] | [_ Hget]];
      [exact Hst | exact (proj2 (Hlive _ _ Hget))].
  - exact Hhist.
Qed.

Lemma lifecycle_ok_file (rm : RiskManager F) (pid : string) (p : Position F)
    (total : F) (losses : Z) :
  lifecycle_ok rm ->
  terminal_status (status p) = true ->
  lifecycle_ok
    {| config := config rm;
       positions := dict_pop pid (dict_set pid p (positions rm));
       closed_positions := closed_positions rm ++ [p];
       consecutive_losses := losses;
       total_realized_pnl := total;
       peak_capital := peak_capital rm |}.
Proof.
  intros (Hwf & Hlive & Hhist) Hst. repeat split; cbn.
  - now apply dict_wf_pop, dict_wf_set.
  - apply dict_get_pop_some in H0 as [Hne Hget]; [|now apply dict_wf_set].
    rewrite dict_get_set_other in Hget by exact Hne.
    exact (proj1 (Hlive _ _ Hget)).
  - apply dict_get_pop_some in H0 as [Hne Hget]; [|now apply dict_wf_set].
    rewrite dict_get_set_other in Hget by exact Hne.
    exact (proj2 (Hlive _ _ Hget)).
  - apply Forall_app. split; [exact Hhist|]. constructor; [exact Hst|constructor].
Qed.

Lemma lifecycle_ok_partial (rm : RiskManager F) (pid : string) (level : Z)
    (price : F) :
  lifecycle_ok rm ->
  lifecycle_ok (fst (close_position_partial rm pid level price)).
Proof.
  intros Hok.
  destruct (dict_get pid (positions rm)) as [p|] eqn:Hget.
  2:{ unfold close_position_partial. now rewrite Hget. }
  destruct (tp_fraction level) as [fraction|] eqn:Hfrac.
  2:{ now rewrite partial_close_without_fraction. }
  rewrite (close_position_partial_live rm pid level price p fraction Hget Hfrac).
  cbv zeta.
  destruct Hok as (Hwf & Hlive & Hhist).
  destruct (Hlive _ _ Hget) as [Hid _].
  match goal with |- context [if ?c then _ else _] => destruct c end; cbn [fst].
  - apply lifecycle_ok_file;
      [exact (conj Hwf (conj Hlive Hhist)) | reflexivity].
  - apply (lifecycle_ok_set
             (with_total_realized_pnl _ rm) pid);
      [exact (conj Hwf (conj Hlive Hhist)) | | reflexivity].
    cbn. rewrite (proj1 (record_close_keeps _ _ _)). exact Hid.
Qed.

Lemma lifecycle_ok_stop (rm : RiskManager F) (pid : string) (price : F) :
  lifecycle_ok rm ->
  lifecycle_ok (fst (close_position_stop_loss rm pid price)).
Proof.
  intros Hok.
  destruct (dict_get pid (positions rm)) as [p|] eqn:Hget.
  2:{ unfold close_position_stop_loss. now rewrite Hget. }
  rewrite (close_position_stop_loss_live rm pid price p Hget). cbv zeta.
  cbn [fst]. apply lifecycle_ok_file; [exact Hok | reflexivity].
Qed.

Lemma lifecycle_ok_update (rm : RiskManager F) (pid : string) (price : F) :
  lifecycle_ok rm ->
  lifecycle_ok (fst (update_position_price rm pid price)).
Proof.
  intros Hok. unfold update_position_price.
  destruct (dict_get pid (positions rm)) as [p|] eqn:Hget; [|exact Hok].
  cbn [fst]. destruct (update_current_price_keeps p price)
    as (Hid & Hst & _).
  destruct Hok as (Hwf & Hlive & Hhist).
  destruct (Hlive _ _ Hget) as [Hpid Hlv].
  apply lifecycle_ok_set;
    [exact (conj Hwf (conj Hlive Hhist)) | congruence | congruence].
Qed.

(** X3. In every state reached from a fresh manager the live map has one
    entry per id, each stored under its own [position_id] and with status
    OPEN or PARTIALLY_CLOSED, and every position of the closed history is
    CLOSED or STOPPED_OUT. *)
Theorem reachable_lifecycle_ok (cfg : RiskConfig F) (rm : RiskManager F) :
  reachable cfg rm -> lifecycle_ok rm.
Proof.
  induction 1 as [| rm rm' pid pair side entry stop conf tp1 tp2 tp3 vol
                    now ok _ IH _ Hopen | rm pid price _ IH
                  | rm pid level price _ IH | rm pid price _ IH].
  - repeat split; cbn; [discriminate | discriminate | constructor].
  - apply open_position_cases in Hopen
      as [(_ & -> & _) | (_ & -> & _)]; [exact IH|].
    apply lifecycle_ok_set; [exact IH | reflexivity | reflexivity].
  - now apply lifecycle_ok_update.
  - now apply lifecycle_ok_partial.
  - now apply lifecycle_ok_stop.
Qed.

End ManagerInvariants.

(* ================================================================== *)
(** ** Opening, capacity and repeated closes *)

Section ManagerOperations.

Import risk_manager.

Context {F : Type} `{PyFloat F}.

(** X1. With [max_positions] or more live positions, [open_position]
    declines: it returns [False], raises nothing and leaves the manager as it
    was, whatever the capital, the drawdown or the arguments. *)
Theorem open_position_at_capacity (rm : RiskManager F)
    (pid pair side : string) (entry vol stop tp1 tp2 tp3 : F) (now : nat) :
  (max_positions (config rm) <= Z.of_nat (List.length (positions rm)))%Z ->
  can_open_position rm
    = Ok (false, MaxPositionsReached (max_positions (config rm))) /\
  open_position rm pid pair side entry vol stop tp1 tp2 tp3 now
    = Ok (rm, false).
Proof.
  intros Hfull.
  assert (E : can_open_position rm
              = Ok (false, MaxPositionsReached (max_positions (config rm)))).
  { unfold can_open_position. rewrite Z.geb_leb.
    apply Z.leb_le in Hfull. now rewrite Hfull. }
  split; [exact E|]. unfold open_position. now rewrite E.
Qed.

(** X2. After [max_consecutive_losses] losses in a row, with the pause
    enabled and a non-zero peak capital, [open_position] declines and leaves
    the manager as it was. *)
Theorem open_position_paused_after_losses (rm : RiskManager F)
    (pid pair side : string) (entry vol stop tp1 tp2 tp3 : F) (now : nat) :
  feq (peak_capital rm) (dec 0) = false ->
  (max_consecutive_losses (config rm) <= consecutive_losses rm)%Z ->
  pause_after_max_losses (config rm) = true ->
  open_position rm pid pair side entry vol stop tp1 tp2 tp3 now
    = Ok (rm, false).
Proof.
  intros Hpeak Hloss Hpause. unfold open_position, can_open_position.
  destruct (Z.of_nat (List.length (positions rm))
            >=? max_positions (config rm))%Z; [reflexivity|].
  unfold truediv. rewrite Hpeak. cbn [Py.bind].
  destruct (flt (max_drawdown (config rm)) _); [reflexivity|].
  rewrite Z.geb_leb. apply Z.leb_le in Hloss. now rewrite Hloss, Hpause.
Qed.

(** X24. When [can_open_position] allows it, [open_position] stores the new
    position under its id: a lookup returns it in state OPEN with nothing
    closed and no PnL, the other ids keep their positions, and the history,
    the realized PnL and the loss counter do not change. *)
Theorem open_position_then_lookup (rm : RiskManager F)
    (pid pair side : string) (entry vol stop tp1 tp2 tp3 : F) (now : nat)
    (r : Reason) :
  can_open_position rm = Ok (true, r) ->
  exists rm',
    open_position rm pid pair side entry vol stop tp1 tp2 tp3 now
      = Ok (rm', true) /\
    dict_get pid (positions rm')
      = Some (new_position pid pair side entry vol stop tp1 tp2 tp3 now) /\
    (forall q, q <> pid ->
       dict_get q (positions rm') = dict_get q (positions rm)) /\
    closed_positions rm' = closed_positions rm /\
    total_realized_pnl rm' = total_realized_pnl rm /\
    consecutive_losses rm' = consecutive_losses rm.
Proof.
  intros Hcan. eexists. unfold open_position. rewrite Hcan. cbn.
  split; [reflexivity|]. cbn. repeat split.
  - apply dict_get_set_same.
  - intros q Hq. now apply dict_get_set_other.
Qed.

(** The operations other than [open_position] keep the configuration and
    never add a live position. *)
Lemma update_keeps_size (rm : RiskManager F) (pid : string) (price : F) :
  config (fst (update_position_price rm pid price)) = config rm /\
  List.length (positions (fst (update_position_price rm pid price)))
  = List.length (positions rm).
Proof.
  unfold update_position_price.
  destruct (dict_get pid (positions rm)) eqn:G; cbn; split; auto.
  eapply dict_set_length_present, G.
Qed.

Lemma partial_keeps_size (rm : RiskManager F) (pid : string) (level : Z)
    (price : F) :
  config (fst (close_position_partial rm pid level price)) = config rm /\
  (List.length (positions (fst (close_position_partial rm pid level price)))
   <= List.length (positions rm))%nat.
Proof.
  destruct (dict_get pid (positions rm)) as [p|] eqn:Hget.
  2:{ unfold close_position_partial. rewrite Hget. cbn. auto. }
  destruct (tp_fraction level) as [fraction|] eqn:Hfrac.
  2:{ rewrite partial_close_without_fraction by assumption. cbn. auto. }
  rewrite (close_position_partial_live rm pid level price p fraction Hget Hfrac).
  cbv zeta.
  match goal with |- context [if ?c then _ else _] => destruct c end;
    cbn; split; auto.
  - eapply Nat.le_trans; [apply dict_pop_length_le|].
    erewrite dict_set_length_present by exact Hget. auto.
  - erewrite dict_set_length_present by exact Hget. auto.
Qed.

Lemma stop_keeps_size (rm : RiskManager F) (pid : string) (price : F) :
  config (fst (close_position_stop_loss rm pid price)) = config rm /\
  (List.length (positions (fst (close_position_stop_loss rm pid price)))
   <= List.length (positions rm))%nat.
Proof.
  destruct (dict_get pid (positions rm)) as [p|] eqn:Hget.
  2:{ unfold close_position_stop_loss. rewrite Hget. cbn. auto. }
  rewrite (close_position_stop_loss_live rm pid price p Hget). cbv zeta.
  cbn. split; auto.
  eapply Nat.le_trans; [apply dict_pop_length_le|].
  erewrite dict_set_length_present by exact Hget. auto.
Qed.

(** X4. In every state reached from a fresh manager the configuration is
    the initial one and the number of live positions is at most
    [max_positions] (none when [max_positions] is not positive). *)
Theorem reachable_within_capacity (cfg : RiskConfig F) (rm : RiskManager F) :
  reachable cfg rm -> within_capacity cfg rm.
Proof.
  induction 1 as [| rm rm' pid pair side entry stop conf tp1 tp2 tp3 vol
                    now ok _ [Hcfg Hlen] _ Hopen | rm pid price _ [Hcfg Hlen]
                  | rm pid level price _ [Hcfg Hlen]
                  | rm pid price _ [Hcfg Hlen]]; unfold within_capacity.
  - cbn. split; [reflexivity | lia].
  - apply open_position_cases in Hopen
      as [(_ & -> & _) | (_ & -> & r & Hcan)]; [now split|].
    apply can_open_position_room in Hcan. cbn. split; [exact Hcfg|].
    pose proof (dict_set_length_le pid
                  (new_position pid pair side entry vol stop tp1 tp2 tp3 now)
                  (positions rm)).
    rewrite Hcfg in Hcan. lia.
  - destruct (update_keeps_size rm pid price) as [-> ->]. now split.
  - destruct (partial_keeps_size rm pid level price) as [-> Hle].
    split; [exact Hcfg | lia].
  - destruct (stop_keeps_size rm pid price) as [-> Hle].
    split; [exact Hcfg | lia].
Qed.

(** Writing a level's volume twice leaves the open volume where the first
    write put it. *)
Lemma record_close_twice (tp_level : Z) (v x y : F) (s : PositionStatus)
    (p : Position F) :
  get_open_volume
    (set_realized_pnl x
       (record_close tp_level v
          (set_status s (set_realized_pnl y (record_close tp_level v p)))))
  = get_open_volume (set_realized_pnl y (record_close tp_level v p)).
Proof.
  unfold record_close.
  destruct (tp_level =? 1)%Z; [|destruct (tp_level =? 2)%Z]; reflexivity.
Qed.

Lemma tp_fraction_some (tp_level : Z) (fraction : Q) :
  tp_fraction tp_level = Some fraction ->
  tp_level = 1%Z \/ tp_level = 2%Z \/ tp_level = 3%Z.
Proof.
  unfold tp_fraction.
  destruct (Z.eqb_spec tp_level 1); [auto|].
  destruct (Z.eqb_spec tp_level 2); [auto|].
  destruct (Z.eqb_spec tp_level 3); [auto|discriminate].
Qed.

(** X6. A staged close repeated at a level that is already closed, on a
    position that is still live, returns the level's volume again and
    realizes its PnL again on the position and on the manager, while the
    open volume stays what the first close left: the level's closed volume
    is overwritten, its PnL is added. *)
Theorem repeated_partial_close_realizes_pnl_twice (rm : RiskManager F)
    (pid : string) (tp_level : Z) (price : F) (p : Position F)
    (fraction : Q) :
  dict_wf (positions rm) = true ->
  dict_get pid (positions rm) = Some p ->
  tp_fraction tp_level = Some fraction ->
  let v := fmul (volume p) (dec fraction) in
  let pnl := close_pnl p price v in
  let first := close_position_partial rm pid tp_level price in
  let second := close_position_partial (fst first) pid tp_level price in
  (exists q1, dict_get pid (positions (fst first)) = Some q1) ->
  snd first = v /\ snd second = v /\
  total_realized_pnl (fst second)
    = fadd (fadd (total_realized_pnl rm) pnl) pnl /\
  exists q1 q2,
    dict_get pid (positions (fst first)) = Some q1 /\
    dict_get pid (positions (fst second)) = Some q2 /\
    get_open_volume q2 = get_open_volume q1 /\
    realized_pnl q2 = fadd (fadd (realized_pnl p) pnl) pnl.
Proof.
  intros Hwf Hget Hfrac v pnl first second [q1 Hq1].
  subst second first.
  rewrite (close_position_partial_live rm pid tp_level price p fraction
             Hget Hfrac) in *.
  cbv zeta in *. fold v in Hq1 |- *. fold pnl in Hq1 |- *.
  set (p1 := set_realized_pnl (fadd (realized_pnl p) pnl)
               (record_close tp_level v p)) in *.
  destruct (feq (get_open_volume p1) (dec 0)) eqn:Hopen.
  { exfalso. cbn in Hq1.
    rewrite dict_get_pop_same in Hq1 by now apply dict_wf_set.
    discriminate. }
  clear Hq1. cbn [fst snd].
  match goal with
  | |- context [close_position_partial ?r pid tp_level price] =>
      rewrite (close_position_partial_live r pid tp_level price
                 (set_status PARTIALLY_CLOSED p1) fraction
                 (dict_get_set_same _ _ _) Hfrac)
  end.
  cbv zeta.
  assert (Hsame : forall x,
            get_open_volume
              (set_realized_pnl x
                 (record_close tp_level
                    (fmul (volume (set_status PARTIALLY_CLOSED p1))
                          (dec fraction))
                    (set_status PARTIALLY_CLOSED p1)))
            = get_open_volume p1).
  { intros x. subst p1 v. unfold record_close.
    destruct (tp_level =? 1)%Z; [|destruct (tp_level =? 2)%Z]; reflexivity. }
  rewrite Hsame, Hopen. cbn [fst snd total_realized_pnl positions].
  assert (Hv : fmul (volume (set_status PARTIALLY_CLOSED p1)) (dec fraction)
               = v).
  { subst p1 v. cbn. now rewrite (proj1 (proj2 (proj2 (proj2
      (record_close_keeps tp_level _ p))))). }
  assert (Hpnl : close_pnl (set_status PARTIALLY_CLOSED p1) price v = pnl).
  { subst p1 pnl. unfold close_pnl. cbn.
    destruct (record_close_keeps tp_level v p) as (_ & -> & -> & _).
    reflexivity. }
  rewrite Hv, Hpnl.
  split; [reflexivity|]. split; [reflexivity|]. split; [reflexivity|].
  eexists. eexists.
  split; [apply dict_get_set_same|].
  split; [apply dict_get_set_same|].
  split; [|reflexivity].
  clear. subst p1. unfold record_close.
  destruct (tp_level =? 1)%Z; [|destruct (tp_level =? 2)%Z]; reflexivity.
Qed.

End ManagerOperations.

(* ================================================================== *)
(** ** Stops, targets and the monitoring step *)

Section StopsAndTargets.

Import risk_manager backtester.

Context {F : Type} `{PyFloatOrd F}.

(** X7. Once a staged close has recorded a non-zero volume for a level,
    [check_take_profit] never reports that level again for the position,
    whatever the price. *)
Theorem closed_level_is_not_reported_again (rm : RiskManager F)
    (pid : string) (tp_level : Z) (price price' : F) (p : Position F)
    (fraction : Q) :
  dict_wf (positions rm) = true ->
  dict_get pid (positions rm) = Some p ->
  tp_fraction tp_level = Some fraction ->
  feq (fmul (volume p) (dec fraction)) (dec 0) = false ->
  fst (check_take_profit
         (fst (close_position_partial rm pid tp_level price)) pid price')
  <> tp_level.
Proof.
  intros Hwf Hget Hfrac Hvol.
  rewrite (close_position_partial_live rm pid tp_level price p fraction
             Hget Hfrac).
  cbv zeta.
  pose proof (tp_fraction_some _ _ Hfrac) as Hlevel.
  match goal with |- context [if ?c then _ else _] => destruct c end;
    cbn [fst]; unfold check_take_profit; cbn [positions].
  - rewrite dict_get_pop_same by now apply dict_wf_set.
    cbn. intros E. rewrite <- E in Hlevel. now destruct Hlevel as [|[|]].
  - rewrite dict_get_set_same.
    destruct Hlevel as [-> | [-> | ->]]; cbn;
      cbn in Hvol; rewrite Hvol, ?andb_false_r;
      repeat match goal with
             | |- context [if ?c then _ else _] => destruct c; cbn
             end; discriminate.
Qed.

Lemma check_stop_loss_after_update (rm : RiskManager F) (pid : string)
    (price price' : F) :
  check_stop_loss (fst (update_position_price rm pid price')) pid price
  = check_stop_loss rm pid price.
Proof.
  unfold update_position_price, check_stop_loss.
  destruct (dict_get pid (positions rm)) as [p|] eqn:Hget; cbn.
  - rewrite dict_get_set_same. unfold update_current_price.
    destruct (String.eqb (side p) "buy") eqn:E; cbn; now rewrite E.
  - now rewrite Hget.
Qed.

(** X8. In a monitoring step, a position whose stop is hit at the current
    price is marked at that price and stopped out, and nothing else happens
    to it: the target check that follows finds no position and no staged
    close is made. *)
Theorem monitor_stop_excludes_targets (rm : RiskManager F) (pid : string)
    (price : F) :
  dict_wf (positions rm) = true ->
  check_stop_loss rm pid price = true ->
  monitor_position rm pid price
  = fst (close_position_stop_loss
           (fst (update_position_price rm pid price)) pid price) /\
  dict_get pid (positions (monitor_position rm pid price)) = None /\
  check_take_profit (monitor_position rm pid price) pid price = (0%Z, false).
Proof.
  intros Hwf Hstop.
  assert (Hnone : dict_get pid
            (positions (fst (close_position_stop_loss
               (fst (update_position_price rm pid price)) pid price)))
            = None).
  { unfold check_stop_loss in Hstop.
    destruct (dict_get pid (positions rm)) as [p|] eqn:Hget; [|discriminate].
    assert (Hget' : dict_get pid
              (positions (fst (update_position_price rm pid price)))
              = Some (update_current_price p price)).
    { unfold update_position_price. rewrite Hget. cbn.
      apply dict_get_set_same. }
    rewrite (close_position_stop_loss_live _ pid price _ Hget'). cbn.
    apply dict_get_pop_same, dict_wf_set.
    unfold update_position_price. rewrite Hget. cbn.
    now apply dict_wf_set. }
  assert (Hmon : monitor_position rm pid price
            = fst (close_position_stop_loss
                     (fst (update_position_price rm pid price)) pid price)).
  { unfold monitor_position.
    rewrite check_stop_loss_after_update, Hstop.
    unfold check_take_profit at 1. now rewrite Hnone. }
  rewrite Hmon. split; [reflexivity|]. split; [exact Hnone|].
  unfold check_take_profit. now rewrite Hnone.
Qed.

(** X9. With a zero peak capital (a manager created with no capital) and
    room for a position, the drawdown cannot be computed:
    [can_open_position] and [open_position] raise ZeroDivisionError instead
    of declining. *)
Theorem open_position_with_zero_capital_raises (rm : RiskManager F)
    (pid pair side : string) (entry vol stop tp1 tp2 tp3 : F) (now : nat) :
  feq (peak_capital rm) (dec 0) = true ->
  (Z.of_nat (List.length (positions rm)) < max_positions (config rm))%Z ->
  can_open_position rm = Raise ZeroDivisionError /\
  open_position rm pid pair side entry vol stop tp1 tp2 tp3 now
    = Raise ZeroDivisionError /\
  get_drawdown rm = Raise ZeroDivisionError /\
  get_statistics rm = Raise ZeroDivisionError.
Proof.
  intros Hpeak Hroom.
  assert (Hcan : can_open_position rm = Raise ZeroDivisionError).
  { unfold can_open_position. rewrite Z.geb_leb.
    apply Z.leb_gt in Hroom. rewrite Hroom.
    unfold truediv. now rewrite Hpeak. }
  assert (Hdd : get_drawdown rm = Raise ZeroDivisionError).
  { unfold get_drawdown, truediv. now rewrite Hpeak. }
  split; [exact Hcan|]. split; [unfold open_position; now rewrite Hcan|].
  split; [exact Hdd|].
  unfold get_statistics. rewrite Hdd. unfold truediv.
  repeat match goal with
         | |- context [if ?c then _ else _] => destruct c
         end; reflexivity.
Qed.

End StopsAndTargets.

(* ================================================================== *)
(** ** Accounting in exact arithmetic *)

Section ExactAccounting.

Import risk_manager technical_analysis.

Local Open Scope Q_scope.

Lemma fle_Q (a b : Q) : fle a b = true <-> a <= b.
Proof. cbn. apply Qle_bool_iff. Qed.

Lemma fold_left_Qplus_acc (xs : list Q) (a : Q) :
  fold_left Qplus xs a == a + fold_left Qplus xs 0.
Proof.
  revert a. induction xs as [|x xs IH]; intros a; cbn; [ring|].
  rewrite (IH (a + x)), (IH (0 + x)). ring.
Qed.

Lemma py_sum_cons (x : Q) (xs : list Q) :
  py_sum (x :: xs) == x + py_sum xs.
Proof.
  unfold py_sum. cbn. change (@fadd Q exactQ) with Qplus.
  change (@dec Q exactQ 0) with 0.
  rewrite fold_left_Qplus_acc. ring.
Qed.

Lemma py_sum_nil : py_sum (F := Q) [] == 0.
Proof. reflexivity. Qed.

Lemma py_sum_nonneg (xs : list Q) :
  Forall (fun x => 0 <= x) xs -> 0 <= py_sum xs.
Proof.
  induction 1 as [|x xs Hx _ IH]; [rewrite py_sum_nil; lra|].
  rewrite (py_sum_cons x xs). lra.
Qed.

(** The sum over the live map splits into the named position and the rest. *)
Lemma py_sum_dict_split (f : Position Q -> Q) (d : dict (Position Q))
    (pid : string) (p : Position Q) :
  dict_get pid d = Some p ->
  py_sum (map f (dict_values d))
  == f p + py_sum (map f (dict_values (dict_pop pid d))).
Proof.
  induction d as [|[k v] d IH]; cbn; [discriminate|].
  destruct (String.eqb pid k); intros Hget.
  - inversion Hget; subst v. apply py_sum_cons.
  - cbn. rewrite (py_sum_cons (f v) (map f (map snd d))).
    rewrite (py_sum_cons (f v) (map f (map snd (dict_pop pid d)))).
    unfold dict_values in IH. rewrite (IH Hget). ring.
Qed.

Lemma dict_pop_set_same {V : Type} (k : string) (v : V) (d : dict V) :
  dict_pop k (dict_set k v d) = dict_pop k d.
Proof.
  induction d as [|[k' v'] d IH]; cbn.
  - now rewrite String.eqb_refl.
  - destruct (String.eqb k k') eqn:E; cbn; rewrite ?String.eqb_refl, ?E;
      [reflexivity | now rewrite IH].
Qed.

(** X10. Marking a live position at a price and then stopping it out at
    that price moves its unrealized PnL into the realized PnL: the current
    capital is unchanged by the close, and the available capital grows by the
    capital the position tied up (entry price x open volume). *)
Theorem stop_loss_at_mark_conserves_capital (rm : RiskManager Q)
    (pid : string) (price : Q) (p : Position Q) :
  dict_get pid (positions rm) = Some p ->
  let marked := fst (update_position_price rm pid price) in
  let stopped := fst (close_position_stop_loss marked pid price) in
  get_current_capital stopped == get_current_capital marked /\
  get_available_capital stopped
  == get_available_capital marked + entry_price p * get_open_volume p.
Proof.
  intros Hget marked stopped.
  assert (Hmarked : dict_get pid (positions marked)
                    = Some (update_current_price p price)).
  { subst marked. unfold update_position_price. rewrite Hget. cbn.
    apply dict_get_set_same. }
  assert (Hpos : positions marked
                 = dict_set pid (update_current_price p price) (positions rm)).
  { subst marked. unfold update_position_price. now rewrite Hget. }
  assert (Hrest : total_realized_pnl marked = total_realized_pnl rm /\
                  config marked = config rm).
  { subst marked. unfold update_position_price. now rewrite Hget. }
  destruct Hrest as [Htot Hcfg].
  subst stopped.
  rewrite (close_position_stop_loss_live marked pid price _ Hmarked).
  cbv zeta. cbn [fst].
  unfold get_available_capital, get_current_capital.
  cbn [positions total_realized_pnl config].
  rewrite dict_pop_set_same.
  rewrite (py_sum_dict_split unrealized_pnl (positions marked) pid _ Hmarked).
  rewrite (py_sum_dict_split
             (fun q => fmul (entry_price q) (get_open_volume q))
             (positions marked) pid _ Hmarked).
  change (@fadd Q exactQ) with Qplus. change (@fsub Q exactQ) with Qminus.
  change (@fmul Q exactQ) with Qmult.
  set (U := py_sum (map unrealized_pnl
                      (dict_values (dict_pop pid (positions marked))))).
  set (C := py_sum (map (fun q => entry_price q * get_open_volume q)
                      (dict_values (dict_pop pid (positions marked))))).
  assert (Hu : unrealized_pnl (update_current_price p price)
               == close_pnl (update_current_price p price) price
                    (get_open_volume (update_current_price p price))).
  { unfold update_current_price, close_pnl.
    destruct (String.eqb (side p) "buy") eqn:E; cbn; rewrite E; reflexivity. }
  destruct (update_current_price_keeps p price) as (_ & _ & _ & Hov & _).
  assert (He : entry_price (update_current_price p price) = entry_price p).
  { unfold update_current_price.
    destruct (String.eqb (side p) "buy"); reflexivity. }
  rewrite Hu, He, Hov. split; ring.
Qed.

(** X11. A stop that is hit on the losing side of the entry is a loss: for
    a long position with its stop below the entry (a short one with its stop
    above) and some open volume, when [check_stop_loss] is true the stop-loss
    close realizes (price - entry) x open volume ((entry - price) x open
    volume), a negative amount, and the loss counter goes up by one. *)
Theorem stop_hit_is_a_loss (rm : RiskManager Q) (pid : string) (price : Q)
    (p : Position Q) :
  dict_get pid (positions rm) = Some p ->
  (side p = "buy"%string /\ stop_loss p < entry_price p) \/
  (side p <> "buy"%string /\ entry_price p < stop_loss p) ->
  0 < get_open_volume p ->
  check_stop_loss rm pid price = true ->
  let rm' := fst (close_position_stop_loss rm pid price) in
  total_realized_pnl rm'
  == total_realized_pnl rm
     + (if String.eqb (side p) "buy"
        then (price - entry_price p) * get_open_volume p
        else (entry_price p - price) * get_open_volume p) /\
  total_realized_pnl rm' < total_realized_pnl rm /\
  consecutive_losses rm' = (consecutive_losses rm + 1)%Z.
Proof.
  intros Hget Hside Hopen Hstop rm'. subst rm'.
  rewrite (close_position_stop_loss_live rm pid price p Hget). cbv zeta.
  cbn [fst total_realized_pnl consecutive_losses].
  unfold check_stop_loss in Hstop. rewrite Hget in Hstop.
  assert (Hneg : close_pnl p price (get_open_volume p) < 0).
  { unfold close_pnl. change (@fmul Q exactQ) with Qmult.
    change (@fsub Q exactQ) with Qminus.
    destruct Hside as [[Hbuy Hlt] | [Hsell Hlt]].
    - rewrite Hbuy in *. cbn in Hstop |- *.
      destruct (Qle_bool price (stop_loss p)) eqn:E; [|discriminate].
      apply Qle_bool_iff in E.
      setoid_replace 0 with (0 * get_open_volume p) by ring.
      apply Qmult_lt_compat_r; [exact Hopen | lra].
    - apply String.eqb_neq in Hsell. rewrite Hsell in *.
      destruct (fle (stop_loss p) price) eqn:E; [|discriminate].
      apply fle_Q in E.
      setoid_replace 0 with (0 * get_open_volume p) by ring.
      apply Qmult_lt_compat_r; [exact Hopen | lra]. }
  assert (Hflt : flt (close_pnl p price (get_open_volume p)) (dec 0) = true)
    by now apply flt_Q.
  rewrite Hflt. change (@fadd Q exactQ) with Qplus.
  split; [|split; [lra | reflexivity]].
  unfold close_pnl. change (@fmul Q exactQ) with Qmult.
  change (@fsub Q exactQ) with Qminus. reflexivity.
Qed.

End ExactAccounting.

(* ================================================================== *)
(** ** Statistics and candles in exact arithmetic *)

Section ExactReports.

Import risk_manager technical_analysis.

Local Open Scope Q_scope.

Lemma filter_length_bound {A : Type} (f : A -> bool) (l : list A) :
  (List.length (filter f l) <= List.length l)%nat.
Proof.
  induction l as [|a l IH]; cbn; [lia|]. destruct (f a); cbn; lia.
Qed.

Lemma py_sum_nonpos (xs : list Q) :
  Forall (fun x => x <= 0) xs -> py_sum xs <= 0.
Proof.
  induction 1 as [|x xs Hx _ IH]; [rewrite py_sum_nil; lra|].
  rewrite (py_sum_cons x xs). lra.
Qed.

Lemma Forall_map_filter {A : Type} (g : A -> Q) (f : A -> bool)
    (P : Q -> Prop) (l : list A) :
  (forall a, f a = true -> P (g a)) -> Forall P (map g (filter f l)).
Proof.
  intros Hf. induction l as [|a l IH]; cbn; [constructor|].
  destruct (f a) eqn:E; cbn; auto.
Qed.

(** X12. When [get_statistics] returns, the number of trades is the length
    of the closed history, winners and losers are counted among them (a
    closed position with zero PnL counts as a loser), the win rate lies in
    [0, 1], and profit, loss and profit factor are not negative; the profit
    factor is 0 when there is no losing PnL. *)
Theorem statistics_bounds (rm : RiskManager Q) (st : Statistics Q) :
  get_statistics rm = Ok st ->
  total_trades st = List.length (closed_positions rm) /\
  (winning_trades st <= total_trades st)%nat /\
  losing_trades st = Z.of_nat (total_trades st - winning_trades st) /\
  0 <= win_rate st <= 1 /\
  0 <= total_profit st /\ 0 <= total_loss st /\ 0 <= profit_factor st /\
  (total_loss st == 0 -> profit_factor st == 0).
Proof.
  unfold get_statistics. intros Hst.
  set (closed := closed_positions rm) in *.
  set (winners := filter (fun p => flt (dec 0) (realized_pnl p)) closed) in *.
  set (losers := filter (fun p => flt (realized_pnl p) (dec 0)) closed) in *.
  assert (Hw : (List.length winners <= List.length closed)%nat)
    by apply filter_length_bound.
  assert (Hprofit : 0 <= py_sum (map realized_pnl winners)).
  { apply py_sum_nonneg, Forall_map_filter. intros a Ha.
    apply flt_Q in Ha. cbn in Ha. lra. }
  assert (Hloss : 0 <= fabs (py_sum (map realized_pnl losers)))
    by apply Qabs_nonneg.
  assert (Hpf : exists pf,
            (if flt (dec 0) (fabs (py_sum (map realized_pnl losers)))
             then truediv (py_sum (map realized_pnl winners))
                          (fabs (py_sum (map realized_pnl losers)))
             else Ok (dec 0)) = Ok pf /\ 0 <= pf /\
            (fabs (py_sum (map realized_pnl losers)) == 0 -> pf == 0)).
  { destruct (flt (dec 0) (fabs (py_sum (map realized_pnl losers)))) eqn:E.
    - apply flt_Q in E. cbn in E.
      rewrite truediv_Q by (cbn; lra). eexists. split; [reflexivity|].
      split; [|cbn; intros; lra].
      apply Qle_shift_div_l; [exact E | lra].
    - eexists. split; [reflexivity|]. cbn. split; [lra|reflexivity]. }
  destruct Hpf as (pf & Epf & Hpf0 & Hpfz). rewrite Epf in Hst.
  cbn [Py.bind] in Hst.
  destruct (get_drawdown rm) as [dd|e]; cbn [Py.bind] in Hst; [|discriminate].
  inversion Hst; subst st; clear Hst.
  cbn [total_trades winning_trades losing_trades win_rate total_profit
       total_loss profit_factor].
  split; [reflexivity|]. split; [exact Hw|]. split; [lia|].
  split; [|repeat split; assumption].
  destruct (0 <? List.length closed)%nat eqn:En; cbn; [|lra].
  apply Nat.ltb_lt in En.
  assert (Hz : Zpos (Pos.of_nat (List.length closed))
               = Z.of_nat (List.length closed)).
  { rewrite <- positive_nat_Z, Nat2Pos.id by lia. reflexivity. }
  unfold Qle; cbn [Qnum Qden]. rewrite Hz. lia.
Qed.

(** X13. In exact arithmetic [analyze_candle] never raises; the body and the
    two wicks add up to the range, a candle is never both bullish and
    bearish, the close position is 0.5 on a candle with no range and lies in
    [0, 1] when the close is inside the range. *)
Theorem analyze_candle_exact (open_price high low close volume : Q) :
  exists a : CandleAnalysis Q,
    analyze_candle open_price high low close volume = Ok a /\
    body a + upper_wick a + lower_wick a == range a /\
    is_bullish a && is_bearish a = false /\
    (high == low -> close_position a == 0.5) /\
    (low <= close <= high -> 0 <= close_position a <= 1).
Proof.
  unfold analyze_candle.
  assert (Hcp : exists cp,
            (if negb (feq high low)
             then risk_manager.truediv (fsub close low) (fsub high low)
             else Ok (dec 0.5)) = Ok cp /\
            (high == low -> cp == 0.5) /\
            (low <= close <= high -> 0 <= cp <= 1)).
  { destruct (feq high low) eqn:E; cbn [negb].
    - apply feq_Q in E. eexists. split; [reflexivity|]. cbn.
      split; [reflexivity|]. intros _. lra.
    - apply feq_Q_false in E. cbn [fsub exactQ].
      rewrite truediv_Q by lra. eexists. split; [reflexivity|].
      split; [intros Heq; contradiction|]. intros [Hl Hh].
      assert (Hpos : 0 < high - low) by lra. split.
      + apply Qle_shift_div_l; [exact Hpos | lra].
      + apply Qle_shift_div_r; [exact Hpos | lra]. }
  destruct Hcp as (cp & Ecp & Hflat & Hin). rewrite Ecp. cbn [Py.bind].
  eexists. split; [reflexivity|].
  cbn [body upper_wick lower_wick range is_bullish is_bearish close_position].
  split; [|split; [|split; assumption]].
  - unfold py_max, risk_manager.py_min. cbn [fabs fsub flt exactQ].
    destruct (Qlt_le_dec open_price close), (Qlt_le_dec close open_price);
      try lra;
      apply Qabs_case; intros; lra.
  - cbn [flt exactQ].
    destruct (Qlt_le_dec open_price close), (Qlt_le_dec close open_price);
      try reflexivity; lra.
Qed.

End ExactReports.

(* ================================================================== *)
(** ** Shapes of the indicator arrays *)

Section IndicatorShapes.

Import technical_analysis.

Local Open Scope float_scope.

Lemma full_nan_length (data : list float) :
  List.length (full_nan data) = List.length data.
Proof. apply length_map. Qed.

Lemma map2_length {A B C : Type} (f : A -> B -> C) (xs : list A)
    (ys : list B) :
  List.length (map2 f xs ys) = Nat.min (List.length xs) (List.length ys).
Proof.
  revert ys. induction xs as [|x xs IH]; intros [|y ys]; cbn; auto.
Qed.

Lemma ema_loop_length (m prev : float) (data : list float) :
  List.length (ema_loop m prev data) = List.length data.
Proof.
  revert prev. induction data as [|x data IH]; intros prev; cbn; auto.
Qed.

Lemma rsi_loop_length (period : nat) (up down : float) (deltas : list float) :
  List.length (rsi_loop period up down deltas) = List.length deltas.
Proof.
  revert up down. induction deltas as [|d deltas IH]; intros up down; cbn;
    auto.
Qed.

Lemma np_diff_length (data : list float) :
  List.length (np_diff data) = (List.length data - 1)%nat.
Proof.
  induction data as [|x [|y rest] IH]; cbn in *; auto.
  rewrite IH. lia.
Qed.

Lemma rolling_length (agg : list float -> float) (window : nat)
    (data : list float) :
  List.length (rolling agg window data) = List.length data.
Proof. unfold rolling. now rewrite length_map, length_seq. Qed.

Lemma calculate_ema_length (data : list float) (period : nat) :
  List.length (calculate_ema data period) = List.length data.
Proof.
  unfold calculate_ema.
  destruct (List.length data <? period)%nat eqn:E;
    [apply full_nan_length|].
  apply Nat.ltb_ge in E.
  rewrite length_app, repeat_length, ema_loop_length, length_skipn. lia.
Qed.

Lemma calculate_sma_length (data : list float) (period : nat) :
  List.length (calculate_sma data period) = List.length data.
Proof.
  unfold calculate_sma.
  destruct (List.length data <? period)%nat;
    [apply full_nan_length | apply rolling_length].
Qed.




(** X14. The indicators of one series return one value per input value:
    EMA and SMA for every period, RSI for every period of at least 1, and
    each of the three arrays of MACD and of the Bollinger bands. *)
Theorem indicator_lengths (data : list float) (period fast slow signal : nat)
    (std_dev : float) :
  (1 <= period)%nat ->
  let n := List.length data in
  List.length (calculate_ema data period) = n /\
  List.length (calculate_sma data period) = n /\
  List.length (calculate_rsi data period) = n /\
  (let '(macd, signal_line, histogram) :=
     calculate_macd data fast slow signal in
   List.length macd = n /\ List.length signal_line = n /\
   List.length histogram = n) /\
  (let '(upper, middle, lower) :=
     calculate_bollinger_bands data period std_dev in
   List.length upper = n /\ List.length middle = n /\ List.length lower = n).
Proof.
  intros Hperiod n. subst n.
  split; [apply calculate_ema_length|].
  split; [apply calculate_sma_length|].
  split.
  { unfold calculate_rsi.
    destruct (List.length data <? period + 1)%nat eqn:E;
      [apply full_nan_length|].
    apply Nat.ltb_ge in E.
    rewrite length_app, repeat_length, rsi_loop_length, length_skipn,
      np_diff_length. lia. }
  split.
  { unfold calculate_macd.
    rewrite !map2_length, !calculate_ema_length, !map2_length,
      !calculate_ema_length. repeat split; lia. }
  unfold calculate_bollinger_bands.
  rewrite !map2_length, !calculate_sma_length, !rolling_length.
  repeat split; lia.
Qed.


End IndicatorShapes.

(* ================================================================== *)
(** ** Windows too short for the slow EMA *)

Section ShortWindows.

Import technical_analysis signal_generator.

Local Open Scope float_scope.

Lemma ltb_nan_l (x : float) : (PrimFloat.nan <? x) = false.
Proof. rewrite ltb_spec. reflexivity. Qed.

Lemma ltb_nan_r (x : float) : (x <? PrimFloat.nan) = false.
Proof.
  rewrite ltb_spec. change (Prim2SF PrimFloat.nan) with S754_nan.
  destruct (Prim2SF x) as [s | s | | s m e]; try destruct s; reflexivity.
Qed.

Lemma last_of_full_nan (data : list float) :
  data <> [] -> last_of (full_nan data) = PrimFloat.nan.
Proof.
  unfold last_of, full_nan. induction data as [|x [|y rest] IH]; cbn;
    [congruence | reflexivity |].
  intros _. apply IH. discriminate.
Qed.

Lemma process_ohlcv_ema_200 (self : MarketDataProcessor)
    (ohlcv_data : list Bar) (ind : TechnicalIndicators) :
  process_ohlcv self ohlcv_data = Ok (Some ind) ->
  ema_200 ind = last_of (calculate_ema (map close ohlcv_data) 200).
Proof.
  unfold process_ohlcv.
  destruct (Z.of_nat (List.length ohlcv_data) <? min_candles self)%Z;
    [discriminate|].
  destruct ohlcv_data as [|b rest]; [discriminate|].
  intros Hind. inversion Hind. reflexivity.
Qed.

(** With fewer than 200 closes EMA(200) is NaN and the trend is SIDEWAYS. *)
Lemma short_window_is_sideways (self : MarketDataProcessor)
    (ohlcv_data : list Bar) (ind : TechnicalIndicators) :
  (1 <= List.length ohlcv_data < 200)%nat ->
  process_ohlcv self ohlcv_data = Ok (Some ind) ->
  get_trend ind = "SIDEWAYS"%string.
Proof.
  intros [Hone Hshort] Hind. apply process_ohlcv_ema_200 in Hind.
  unfold calculate_ema in Hind. rewrite length_map in Hind.
  apply Nat.ltb_lt in Hshort. rewrite Hshort in Hind.
  rewrite last_of_full_nan in Hind
    by (destruct ohlcv_data; [cbn in Hone; lia | discriminate]).
  unfold get_trend. rewrite Hind, ltb_nan_l, ltb_nan_r, !andb_false_r.
  reflexivity.
Qed.

(** X16. A window of at least one and fewer than 200 bars never yields a
    signal, whatever the generator's thresholds and the processor's
    [min_candles]: either the window is refused as too short, or EMA(200) is
    NaN, every comparison with it is false, the trend is SIDEWAYS and
    [generate_signal] returns None. *)
Theorem window_below_200_gives_no_signal (self : SignalGenerator)
    (ohlcv_data : list Bar) (current_price atr_multiplier : float) :
  (1 <= List.length ohlcv_data < 200)%nat ->
  generate_signal self ohlcv_data current_price atr_multiplier = Ok None /\
  (forall ind, process_ohlcv (processor self) ohlcv_data = Ok (Some ind) ->
     get_trend ind = "SIDEWAYS"%string).
Proof.
  intros Hlen. pose proof Hlen as [Hone Hshort].
  assert (Hside : forall ind,
            process_ohlcv (processor self) ohlcv_data = Ok (Some ind) ->
            get_trend ind = "SIDEWAYS"%string)
    by (intros ind; now apply short_window_is_sideways).
  split; [|exact Hside].
  unfold generate_signal.
  destruct (process_ohlcv (processor self) ohlcv_data) as [[ind|]|e] eqn:E;
    cbn [Py.bind]; [| reflexivity |].
  - unfold signal_of_indicators. now rewrite (Hside ind eq_refl).
  - exfalso. unfold process_ohlcv in E.
    destruct (Z.of_nat (List.length ohlcv_data) <? _)%Z; [discriminate|].
    destruct ohlcv_data; [cbn in Hone; lia | discriminate].
Qed.

End ShortWindows.

(* ================================================================== *)
(** ** What an emitted signal looks like *)

Section EmittedSignals.

Import technical_analysis signal_generator.

Local Open Scope float_scope.

(** The checks behind a returned BUY signal. *)
Lemma buy_signal_checks (self : SignalGenerator)
    (indicators : TechnicalIndicators) (current_price atr_multiplier : float)
    (s : TradingSignal) :
  _generate_buy_signal self indicators current_price atr_multiplier
    = Ok (Some s) ->
  signal_type s = BUY /\
  entry_price s = current_price /\
  (confidence s = 0.6 \/ confidence s = 0.8 \/ confidence s = 1.0) /\
  (confidence s <? min_confidence self) = false /\
  _check_trend_confirmation self indicators "UPTREND" = Ok true /\
  (0 <? macd_histogram indicators) = true.
Proof.
  unfold _generate_buy_signal.
  destruct (_check_trend_confirmation self indicators "UPTREND")
    as [[|]|e]; cbn [Py.bind negb]; try discriminate.
  rewrite momentum_buy.
  destruct (0 <? macd_histogram indicators); cbn [Py.bind];
    try discriminate.
  destruct (rsi_14 indicators <? rsi_oversold self + 10.0);
    cbn [Py.bind negb]; try discriminate.
  unfold _check_bollinger_bands_signal, _check_volume_confirmation. cbn.
  repeat match goal with
         | |- context [if ?c then _ else _] => destruct c eqn:?
         end;
    intros E; inversion E; subst s; clear E; cbn;
    repeat split; auto.
Qed.

(** The checks behind a returned SELL signal. *)
Lemma sell_signal_checks (self : SignalGenerator)
    (indicators : TechnicalIndicators) (current_price atr_multiplier : float)
    (s : TradingSignal) :
  _generate_sell_signal self indicators current_price atr_multiplier
    = Ok (Some s) ->
  signal_type s = SELL /\
  entry_price s = current_price /\
  (confidence s = 0.6 \/ confidence s = 0.8 \/ confidence s = 1.0) /\
  (confidence s <? min_confidence self) = false /\
  _check_trend_confirmation self indicators "DOWNTREND" = Ok true /\
  (macd_histogram indicators <? 0) = true.
Proof.
  unfold _generate_sell_signal.
  destruct (_check_trend_confirmation self indicators "DOWNTREND")
    as [[|]|e]; cbn [Py.bind negb]; try discriminate.
  rewrite momentum_sell.
  destruct (macd_histogram indicators <? 0); cbn [Py.bind];
    try discriminate.
  destruct (rsi_overbought self - 10.0 <? rsi_14 indicators);
    cbn [Py.bind negb]; try discriminate.
  unfold _check_bollinger_bands_signal, _check_volume_confirmation. cbn.
  repeat match goal with
         | |- context [if ?c then _ else _] => destruct c eqn:?
         end;
    intros E; inversion E; subst s; clear E; cbn;
    repeat split; auto.
Qed.

(** X17. A signal returned by [_generate_buy_signal] is a BUY at the
    current price whose stop is the price less ATR x multiplier and whose
    targets are the price plus 1.5, 2.5 and 4 ATR; both mandatory checks
    passed (trend confirmation; RSI below oversold + 10 with a positive
    histogram); its confidence is 0.6, 0.8 or 1.0 and not below the
    generator's minimum, and its size hint is 0.10 x confidence. *)
Theorem buy_signal_shape (self : SignalGenerator)
    (indicators : TechnicalIndicators) (current_price atr_multiplier : float)
    (s : TradingSignal) :
  _generate_buy_signal self indicators current_price atr_multiplier
    = Ok (Some s) ->
  signal_type s = BUY /\
  entry_price s = current_price /\
  stop_loss s = current_price - atr_14 indicators * atr_multiplier /\
  take_profit_1 s = current_price + atr_14 indicators * 1.5 /\
  take_profit_2 s = current_price + atr_14 indicators * 2.5 /\
  take_profit_3 s = current_price + atr_14 indicators * 4.0 /\
  (confidence s = 0.6 \/ confidence s = 0.8 \/ confidence s = 1.0) /\
  (confidence s <? min_confidence self) = false /\
  position_size_percent s = 0.10 * confidence s /\
  _check_trend_confirmation self indicators "UPTREND" = Ok true /\
  (0 <? macd_histogram indicators) = true /\
  (rsi_14 indicators <? rsi_oversold self + 10.0) = true.
Proof.
  unfold _generate_buy_signal.
  destruct (_check_trend_confirmation self indicators "UPTREND")
    as [[|]|e]; cbn [Py.bind negb]; try discriminate.
  rewrite momentum_buy.
  destruct (0 <? macd_histogram indicators); cbn [Py.bind];
    try discriminate.
  destruct (rsi_14 indicators <? rsi_oversold self + 10.0);
    cbn [Py.bind negb]; try discriminate.
  unfold _check_bollinger_bands_signal, _check_volume_confirmation. cbn.
  repeat match goal with
         | |- context [if ?c then _ else _] => destruct c eqn:?
         end;
    intros E; inversion E; subst s; clear E; cbn;
    repeat split; auto.
Qed.

(** X18. A signal returned by [_generate_sell_signal] is a SELL at the
    current price whose stop is the price plus ATR x multiplier and whose
    targets are the price less 1.5, 2.5 and 4 ATR; both mandatory checks
    passed (trend confirmation; RSI above overbought - 10 with a negative
    histogram); its confidence is 0.6, 0.8 or 1.0 and not below the
    generator's minimum, and its size hint is 0.10 x confidence. *)
Theorem sell_signal_shape (self : SignalGenerator)
    (indicators : TechnicalIndicators) (current_price atr_multiplier : float)
    (s : TradingSignal) :
  _generate_sell_signal self indicators current_price atr_multiplier
    = Ok (Some s) ->
  signal_type s = SELL /\
  entry_price s = current_price /\
  stop_loss s = current_price + atr_14 indicators * atr_multiplier /\
  take_profit_1 s = current_price - atr_14 indicators * 1.5 /\
  take_profit_2 s = current_price - atr_14 indicators * 2.5 /\
  take_profit_3 s = current_price - atr_14 indicators * 4.0 /\
  (confidence s = 0.6 \/ confidence s = 0.8 \/ confidence s = 1.0) /\
  (confidence s <? min_confidence self) = false /\
  position_size_percent s = 0.10 * confidence s /\
  _check_trend_confirmation self indicators "DOWNTREND" = Ok true /\
  (macd_histogram indicators <? 0) = true /\
  (rsi_overbought self - 10.0 <? rsi_14 indicators) = true.
Proof.
  unfold _generate_sell_signal.
  destruct (_check_trend_confirmation self indicators "DOWNTREND")
    as [[|]|e]; cbn [Py.bind negb]; try discriminate.
  rewrite momentum_sell.
  destruct (macd_histogram indicators <? 0); cbn [Py.bind];
    try discriminate.
  destruct (rsi_overbought self - 10.0 <? rsi_14 indicators);
    cbn [Py.bind negb]; try discriminate.
  unfold _check_bollinger_bands_signal, _check_volume_confirmation. cbn.
  repeat match goal with
         | |- context [if ?c then _ else _] => destruct c eqn:?
         end;
    intros E; inversion E; subst s; clear E; cbn;
    repeat split; auto.
Qed.

(** How [generate_signal] comes to return a signal. *)
Lemma generate_signal_some (self : SignalGenerator) (ohlcv_data : list Bar)
    (current_price atr_multiplier : float) (s : TradingSignal) :
  generate_signal self ohlcv_data current_price atr_multiplier = Ok (Some s) ->
  (min_confidence self <=? confidence s) = true /\
  exists ind,
    process_ohlcv (processor self) ohlcv_data = Ok (Some ind) /\
    ((get_trend ind = "UPTREND"%string /\
      _generate_buy_signal self ind current_price atr_multiplier
        = Ok (Some s)) \/
     (get_trend ind = "DOWNTREND"%string /\
      _generate_sell_signal self ind current_price atr_multiplier
        = Ok (Some s))).
Proof.
  unfold generate_signal.
  destruct (process_ohlcv (processor self) ohlcv_data) as [[ind|]|e];
    cbn [Py.bind]; try discriminate.
  unfold signal_of_indicators.
  destruct (get_trend_cases ind) as [Hup | [Hdown | Hside]].
  - rewrite Hup. cbn.
    destruct (_generate_buy_signal self ind current_price atr_multiplier)
      as [[s'|]|e] eqn:Eb; cbn; try discriminate.
    destruct (min_confidence self <=? confidence s') eqn:Hmin;
      try discriminate.
    intros E. inversion E; subst s'. split; [exact Hmin|].
    exists ind. split; [reflexivity|]. left. now split.
  - rewrite Hdown. cbn.
    destruct (_generate_sell_signal self ind current_price atr_multiplier)
      as [[s'|]|e] eqn:Es; cbn; try discriminate.
    destruct (min_confidence self <=? confidence s') eqn:Hmin;
      try discriminate.
    intros E. inversion E; subst s'. split; [exact Hmin|].
    exists ind. split; [reflexivity|]. right. now split.
  - rewrite Hside. cbn. discriminate.
Qed.

(** X19. When [generate_signal] returns a signal, the window has at least
    200 bars, the signal's confidence is at least the generator's minimum,
    the ADX of the snapshot is above the threshold less 5, and the direction
    follows the trend: a BUY on an UPTREND with a positive MACD histogram, a
    SELL on a DOWNTREND with a negative one. *)
Theorem emitted_signal_follows_trend (self : SignalGenerator)
    (ohlcv_data : list Bar) (current_price atr_multiplier : float)
    (s : TradingSignal) :
  generate_signal self ohlcv_data current_price atr_multiplier = Ok (Some s) ->
  (200 <= List.length ohlcv_data)%nat /\
  (min_confidence self <=? confidence s) = true /\
  entry_price s = current_price /\
  exists ind,
    process_ohlcv (processor self) ohlcv_data = Ok (Some ind) /\
    (adx_threshold self - 5.0 <? adx_14 ind) = true /\
    ((get_trend ind = "UPTREND"%string /\ signal_type s = BUY /\
      (0 <? macd_histogram ind) = true) \/
     (get_trend ind = "DOWNTREND"%string /\ signal_type s = SELL /\
      (macd_histogram ind <? 0) = true)).
Proof.
  intros Hsig.
  destruct (generate_signal_some _ _ _ _ _ Hsig)
    as (Hmin & ind & Hind & Hcase).
  assert (Hlen : (200 <= List.length ohlcv_data)%nat).
  { destruct (Nat.le_gt_cases 200 (List.length ohlcv_data)) as [|Hlt];
      [assumption|exfalso].
    destruct ohlcv_data as [|b rest].
    - unfold process_ohlcv in Hind.
      destruct (_ <? _)%Z; discriminate.
    - assert (Hside : get_trend ind = "SIDEWAYS"%string).
      { eapply short_window_is_sideways; [|exact Hind]. cbn in *. lia. }
      destruct Hcase as [[Hup _] | [Hdown _]]; congruence. }
  split; [exact Hlen|]. split; [exact Hmin|].
  destruct Hcase as [[Hup Hbuy] | [Hdown Hsell]].
  - apply buy_signal_checks in Hbuy
      as (Hty & Hentry & _ & _ & Htrend & Hhist).
    split; [exact Hentry|]. exists ind. split; [exact Hind|].
    rewrite (trend_confirmation_uptrend self ind Hup) in Htrend.
    inversion Htrend as [Hadx]. rewrite Hadx. split; [reflexivity|].
    left. auto.
  - apply sell_signal_checks in Hsell
      as (Hty & Hentry & _ & _ & Htrend & Hhist).
    split; [exact Hentry|]. exists ind. split; [exact Hind|].
    rewrite (trend_confirmation_downtrend self ind Hdown) in Htrend.
    inversion Htrend as [Hadx]. rewrite Hadx. split; [reflexivity|].
    right. auto.
Qed.

(** X20. With the default thresholds (minimum confidence 0.75) the two
    mandatory checks alone, worth 0.6, are not enough: every signal that
    [generate_signal] returns has confidence 0.8 or 1.0, that is, the
    Bollinger or the volume confirmation held as well. *)
Theorem default_signal_needs_a_confirmation (ohlcv_data : list Bar)
    (current_price atr_multiplier : float) (s : TradingSignal) :
  generate_signal default_generator ohlcv_data current_price atr_multiplier
    = Ok (Some s) ->
  confidence s = 0.8 \/ confidence s = 1.0.
Proof.
  intros Hsig.
  destruct (generate_signal_some _ _ _ _ _ Hsig)
    as (_ & ind & _ & [[_ Hbuy] | [_ Hsell]]).
  - apply buy_signal_checks in Hbuy as (_ & _ & Hconf & Hmin & _).
    destruct Hconf as [E | [E | E]]; auto.
    rewrite E in Hmin. vm_compute in Hmin. discriminate.
  - apply sell_signal_checks in Hsell as (_ & _ & Hconf & Hmin & _).
    destruct Hconf as [E | [E | E]]; auto.
    rewrite E in Hmin. vm_compute in Hmin. discriminate.
Qed.

End EmittedSignals.

(* ================================================================== *)
(** ** Price updates, sizing at a zero price, and idle monitoring *)

Section MoreManagerFacts.

Import risk_manager backtester.

Context {F : Type} `{PyFloatOrd F}.

(** X21. [update_position_price] on a live position sets its current price
    and recomputes its unrealized PnL on the open volume only ((price -
    entry) x open volume for a buy, (entry - price) x open volume
    otherwise); the position's volumes, status and realized PnL, the other
    positions, the closed history and the manager's counters stay as they
    were. *)
Theorem update_position_price_marks_one (rm : RiskManager F) (pid : string)
    (price : F) (p : Position F) :
  dict_get pid (positions rm) = Some p ->
  let rm' := fst (update_position_price rm pid price) in
  (exists p',
     dict_get pid (positions rm') = Some p' /\
     current_price p' = price /\
     unrealized_pnl p'
     = (if String.eqb (side p) "buy"
        then fmul (fsub price (entry_price p)) (get_open_volume p)
        else fmul (fsub (entry_price p) price) (get_open_volume p)) /\
     get_open_volume p' = get_open_volume p /\
     status p' = status p /\
     realized_pnl p' = realized_pnl p) /\
  (forall q, q <> pid ->
     dict_get q (positions rm') = dict_get q (positions rm)) /\
  closed_positions rm' = closed_positions rm /\
  total_realized_pnl rm' = total_realized_pnl rm /\
  consecutive_losses rm' = consecutive_losses rm.
Proof.
  intros Hget rm'. subst rm'. unfold update_position_price. rewrite Hget.
  cbn [fst positions closed_positions total_realized_pnl consecutive_losses
       with_positions].
  split.
  - eexists. split; [apply dict_get_set_same|].
    unfold update_current_price.
    destruct (String.eqb (side p) "buy"); repeat split.
  - split; [|repeat split].
    intros q Hq. now apply dict_get_set_other.
Qed.

(** X22. With an entry price of zero and a stop elsewhere,
    [calculate_position_size] does not return a zero volume: the cap
    [capital x max_position_size / entry] divides by zero and the call
    raises ZeroDivisionError. *)
Theorem position_size_with_zero_entry_raises (rm : RiskManager F)
    (entry stop conf : F) :
  feq entry (dec 0) = true ->
  feq (fabs (fsub entry stop)) (dec 0) = false ->
  calculate_position_size rm entry stop conf = Raise ZeroDivisionError.
Proof.
  intros Hentry Hdist. unfold calculate_position_size.
  rewrite Hdist. unfold truediv. rewrite Hdist, Hentry. reflexivity.
Qed.

Lemma fold_left_skip {A B : Type} (step : A -> B -> A) (l : list B) (a : A) :
  Forall (fun b => forall a', step a' b = a') l -> fold_left step l a = a.
Proof.
  intros Hl. revert a. induction Hl as [|b l Hb _ IH]; intros a; cbn; auto.
  now rewrite Hb.
Qed.

(** X23. [_monitor_positions] for a pair on which the manager holds no live
    position does nothing: no price is updated and nothing is closed. *)
Theorem monitor_skips_other_pairs (rm : RiskManager F) (pair : string)
    (price : F) :
  Forall (fun item => String.eqb (risk_manager.pair (snd item)) pair = false)
         (positions rm) ->
  _monitor_positions rm pair price = rm.
Proof.
  intros Hall. unfold _monitor_positions. apply fold_left_skip.
  eapply Forall_impl; [|exact Hall].
  intros item Hitem rm0. cbv beta. now rewrite Hitem.
Qed.

End MoreManagerFacts.

(* ================================================================== *)
(** ** The further properties at work *)

Section MoreRuns.

Import risk_manager backtester technical_analysis signal_generator windows.

(** The squeezed short of the capital counterexample is a reachable state. *)
Lemma short_squeezed_reachable :
  reachable (default_config (dec 10000)) (short_squeezed (F := float)).
Proof.
  apply reach_update.
  eapply (reach_open _ fresh short_opened "short-1" "XBTUSD" "sell"
            (dec 100) (dec 110) (dec 1) (dec 85) (dec 75) (dec 60)
            _ 0 true).
  - apply reach_init.
  - unfold short_volume. vm_compute. reflexivity.
  - vm_compute. reflexivity.
Qed.

(** X1 at work: a manager whose configuration allows no position. *)
Lemma open_position_at_capacity_witness :
  (max_positions (config (init (F := float) no_room_config))
   <= Z.of_nat (List.length (positions (init (F := float) no_room_config))))%Z
  /\
  open_position (init no_room_config) "long-1" "XBTUSD" "buy"
    100%float 1%float 90%float 110%float 120%float 130%float 0
  = Ok (init no_room_config, false).
Proof.
  assert (Hfull : (max_positions (config (init (F := float) no_room_config))
           <= Z.of_nat
                (List.length (positions (init (F := float) no_room_config))))%Z)
    by (cbn; lia).
  split; [exact Hfull|].
  exact (proj2 (open_position_at_capacity (init no_room_config) "long-1"
                  "XBTUSD" "buy" 100%float 1%float 90%float 110%float
                  120%float 130%float 0 Hfull)).
Defined.

(** X2 at work: a manager that has just taken three losses in a row. *)
Lemma open_position_paused_after_losses_witness :
  feq (peak_capital (after_three_losses (F := float))) (dec 0) = false /\
  open_position after_three_losses "long-1" "XBTUSD" "buy"
    100%float 1%float 90%float 110%float 120%float 130%float 0
  = Ok (after_three_losses, false).
Proof.
  split; [reflexivity|].
  apply (open_position_paused_after_losses (F := float) after_three_losses);
    [reflexivity | cbn; lia | reflexivity].
Defined.

(** X24 at work: a long position opened on a fresh manager. *)
Lemma open_position_then_lookup_witness :
  can_open_position (fresh (F := float)) = Ok (true, ReasonOK) /\
  exists rm',
    open_position fresh "long-1" "XBTUSD" "buy"
      100%float 1%float 90%float 110%float 120%float 130%float 0
    = Ok (rm', true) /\
    dict_get "long-1" (positions rm')
    = Some (new_position "long-1" "XBTUSD" "buy"
              100%float 1%float 90%float 110%float 120%float 130%float 0).
Proof.
  assert (Hcan : can_open_position (fresh (F := float)) = Ok (true, ReasonOK))
    by (vm_compute; reflexivity).
  split; [exact Hcan|].
  destruct (open_position_then_lookup fresh "long-1" "XBTUSD" "buy"
              100%float 1%float 90%float 110%float 120%float 130%float 0
              ReasonOK Hcan) as (rm' & Hopen & Hget & _).
  exists rm'. split; [exact Hopen | exact Hget].
Defined.

(** X3 at work: the short position marked at 2000. *)
Lemma reachable_lifecycle_ok_witness :
  reachable (default_config (dec 10000)) (short_squeezed (F := float)) /\
  lifecycle_ok (short_squeezed (F := float)).
Proof.
  split; [exact short_squeezed_reachable|].
  exact (reachable_lifecycle_ok _ _ short_squeezed_reachable).
Defined.

(** X4 at work: the same state. *)
Lemma reachable_within_capacity_witness :
  reachable (default_config (dec 10000)) (short_squeezed (F := float)) /\
  within_capacity (default_config (dec 10000)) (short_squeezed (F := float)).
Proof.
  split; [exact short_squeezed_reachable|].
  exact (reachable_within_capacity _ _ short_squeezed_reachable).
Defined.

(** X5 at work: level 4 on a live long position. *)
Lemma close_position_partial_unknown_level_witness :
  (4 <> 1)%Z /\ (4 <> 2)%Z /\ (4 <> 3)%Z /\
  close_position_partial (long_opened 1%float) "long-1" 4 110%float
  = (long_opened 1%float, dec 0.0).
Proof.
  split; [discriminate|]. split; [discriminate|]. split; [discriminate|].
  apply (close_position_partial_unknown_level (long_opened 1%float));
    discriminate.
Defined.

(** X6 at work: target 1 of a long position of volume 1.0 bought at 100 is
    closed twice at 110; 3 is realized twice. *)
Lemma repeated_partial_close_realizes_pnl_twice_witness :
  dict_wf (positions (long_opened 1%float)) = true /\
  tp_fraction 1 = Some 0.30%Q /\
  total_realized_pnl
    (fst (close_position_partial
            (fst (close_position_partial (long_opened 1%float) "long-1" 1
                    110%float))
            "long-1" 1 110%float))
  = ((0 + 3) + 3)%float.
Proof.
  split; [reflexivity|]. split; [reflexivity|].
  pose proof (fun p Hget =>
                repeated_partial_close_realizes_pnl_twice (F := float)
                  (long_opened 1%float) "long-1" 1 110%float p 0.30%Q
                  eq_refl Hget eq_refl) as Htwice.
  specialize (Htwice _ eq_refl). cbv zeta in Htwice.
  destruct Htwice as (_ & _ & Htotal & _).
  - eexists. vm_compute. reflexivity.
  - rewrite Htotal. vm_compute. reflexivity.
Defined.

(** X7 at work: after target 1 is closed, a price of 200 does not report
    level 1. *)
Lemma closed_level_is_not_reported_again_witness :
  dict_wf (positions (long_opened 1%float)) = true /\
  feq (fmul 1%float (dec 0.30)) (dec 0) = false /\
  fst (check_take_profit
         (fst (close_position_partial (long_opened 1%float) "long-1" 1
                 110%float)) "long-1" 200%float) <> 1%Z.
Proof.
  split; [reflexivity|]. split; [reflexivity|].
  pose proof (fun p Hget =>
                closed_level_is_not_reported_again (F := float)
                  (long_opened 1%float) "long-1" 1 110%float 200%float p
                  0.30%Q eq_refl Hget eq_refl) as Hnot.
  specialize (Hnot _ eq_refl). apply Hnot. reflexivity.
Defined.

(** X8 at work: the long position with its stop at 90, monitored at 85. *)
Lemma monitor_stop_excludes_targets_witness :
  dict_wf (positions (long_opened 1%float)) = true /\
  check_stop_loss (long_opened 1%float) "long-1" 85%float = true /\
  dict_get "long-1"
    (positions (monitor_position (long_opened 1%float) "long-1" 85%float))
  = None.
Proof.
  split; [reflexivity|]. split; [reflexivity|].
  exact (proj1 (proj2 (monitor_stop_excludes_targets (long_opened 1%float)
                         "long-1" 85%float eq_refl eq_refl))).
Defined.

(** X9 at work: a manager created with no capital. *)
Lemma open_position_with_zero_capital_raises_witness :
  feq (peak_capital (init (F := float) (default_config 0%float))) (dec 0)
  = true /\
  open_position (init (default_config 0%float)) "long-1" "XBTUSD" "buy"
    100%float 1%float 90%float 110%float 120%float 130%float 0
  = Raise ZeroDivisionError.
Proof.
  split; [reflexivity|].
  refine (proj1 (proj2 (open_position_with_zero_capital_raises
                          (init (default_config 0%float)) "long-1" "XBTUSD"
                          "buy" 100%float 1%float 90%float 110%float
                          120%float 130%float 0 eq_refl _))).
  cbn. lia.
Defined.

(** X21 at work: the long position marked at 105. *)
Lemma update_position_price_marks_one_witness :
  closed_positions (fst (update_position_price (long_opened 1%float)
                           "long-1" 105%float))
  = closed_positions (long_opened 1%float).
Proof.
  pose proof (fun p Hget =>
                update_position_price_marks_one (F := float)
                  (long_opened 1%float) "long-1" 105%float p Hget) as Hupd.
  specialize (Hupd _ eq_refl). cbv zeta in Hupd.
  exact (proj1 (proj2 (proj2 Hupd))).
Defined.

(** X22 at work: entry 0 and stop 10 on a fresh manager. *)
Lemma position_size_with_zero_entry_raises_witness :
  feq 0%float (dec 0) = true /\
  calculate_position_size (fresh (F := float)) 0%float 10%float 1%float
  = Raise ZeroDivisionError.
Proof.
  split; [reflexivity|].
  apply (position_size_with_zero_entry_raises (F := float) fresh);
    reflexivity.
Defined.

(** X23 at work: monitoring ETHUSD while the only position is on XBTUSD. *)
Lemma monitor_skips_other_pairs_witness :
  _monitor_positions (long_opened 1%float) "ETHUSD" 85%float
  = long_opened 1%float.
Proof.
  apply (monitor_skips_other_pairs (F := float) (long_opened 1%float)).
  repeat constructor.
Defined.

(** X10 at work: the long position marked and stopped at 95. *)
Lemma stop_loss_at_mark_conserves_capital_witness :
  (get_current_capital
     (fst (close_position_stop_loss
             (fst (update_position_price (long_opened (F := Q) 1) "long-1" 95))
             "long-1" 95))
   == get_current_capital
        (fst (update_position_price (long_opened (F := Q) 1) "long-1" 95)))%Q.
Proof.
  pose proof (fun p Hget =>
                stop_loss_at_mark_conserves_capital
                  (long_opened (F := Q) 1) "long-1" 95 p Hget) as Hcons.
  specialize (Hcons _ eq_refl). cbv zeta in Hcons.
  exact (proj1 Hcons).
Defined.

(** X11 at work: the long position (entry 100, stop 90) stopped at 85. *)
Lemma stop_hit_is_a_loss_witness :
  check_stop_loss (long_opened (F := Q) 1) "long-1" 85 = true /\
  consecutive_losses
    (fst (close_position_stop_loss (long_opened (F := Q) 1) "long-1" 85))
  = 1%Z.
Proof.
  split; [reflexivity|].
  pose proof (fun p Hget =>
                stop_hit_is_a_loss (long_opened (F := Q) 1) "long-1" 85 p
                  Hget) as Hloss.
  specialize (Hloss _ eq_refl).
  destruct Hloss as (_ & _ & Hcount).
  - left. split; reflexivity.
  - reflexivity.
  - reflexivity.
  - exact Hcount.
Defined.

(** X12 at work: the statistics after the three staged closes. *)
Lemma statistics_bounds_witness :
  exists st : Statistics Q,
    get_statistics (after_tp3 (F := Q) 1) = Ok st /\
    (0 <= win_rate st <= 1)%Q.
Proof.
  eexists. split; [vm_compute; reflexivity|].
  refine (proj1 (proj2 (proj2 (proj2
            (statistics_bounds (after_tp3 (F := Q) 1) _ _))))).
  vm_compute. reflexivity.
Defined.

(** X13 at work: a candle that opens at 100 and closes at 101 in [98, 102]. *)
Lemma analyze_candle_exact_witness :
  exists a : CandleAnalysis Q,
    analyze_candle (F := Q) 100 102 98 101 1000 = Ok a /\
    (body a + upper_wick a + lower_wick a == range a)%Q.
Proof.
  destruct (analyze_candle_exact 100 102 98 101 1000) as (a & Ha & Hsum & _).
  exists a. split; [exact Ha | exact Hsum].
Defined.

(** X14 at work: RSI(14) of the 51 rising prices. *)
Lemma indicator_lengths_witness :
  (1 <= 14)%nat /\
  List.length (calculate_rsi rising_prices 14) = List.length rising_prices.
Proof.
  split; [lia|].
  refine (proj1 (proj2 (proj2
            (indicator_lengths rising_prices 14 12 26 9 2%float _)))).
  lia.
Defined.


(** X16 at work: 150 rising bars, accepted by a processor that asks for
    100. *)
Lemma window_below_200_gives_no_signal_witness :
  (1 <= List.length (firstn 150 steady_uptrend) < 200)%nat /\
  (exists ind,
     process_ohlcv (processor eager_generator) (firstn 150 steady_uptrend)
     = Ok (Some ind)) /\
  generate_signal eager_generator (firstn 150 steady_uptrend)
    250%float 2%float = Ok None.
Proof.
  assert (Hlen : (1 <= List.length (firstn 150 steady_uptrend) < 200)%nat)
    by (vm_compute; lia).
  split; [exact Hlen|].
  split; [eexists; vm_compute; reflexivity|].
  exact (proj1 (window_below_200_gives_no_signal eager_generator
                  (firstn 150 steady_uptrend) 250%float 2%float Hlen)).
Defined.

(** X17 at work: the BUY snapshot at price 100 with multiplier 2. *)
Lemma buy_signal_shape_witness :
  exists s,
    _generate_buy_signal default_generator strong_buy_snapshot
      100%float 2%float = Ok (Some s) /\
    stop_loss s = (100 - 2 * 2)%float /\
    take_profit_3 s = (100 + 2 * 4.0)%float.
Proof.
  eexists. split; [vm_compute; reflexivity|].
  refine ((fun H => conj (proj1 (proj2 (proj2 H)))
                         (proj1 (proj2 (proj2 (proj2 (proj2 (proj2 H)))))))
            (buy_signal_shape default_generator strong_buy_snapshot
               100%float 2%float _ _)).
  vm_compute. reflexivity.
Defined.

(** X18 at work: the SELL snapshot at price 100 with multiplier 2. *)
Lemma sell_signal_shape_witness :
  exists s,
    _generate_sell_signal default_generator strong_sell_snapshot
      100%float 2%float = Ok (Some s) /\
    stop_loss s = (100 + 2 * 2)%float /\
    take_profit_3 s = (100 - 2 * 4.0)%float.
Proof.
  eexists. split; [vm_compute; reflexivity|].
  refine ((fun H => conj (proj1 (proj2 (proj2 H)))
                         (proj1 (proj2 (proj2 (proj2 (proj2 (proj2 H)))))))
            (sell_signal_shape default_generator strong_sell_snapshot
               100%float 2%float _ _)).
  vm_compute. reflexivity.
Defined.

(** X19 at work: the accelerating window. *)
Lemma emitted_signal_follows_trend_witness :
  exists s,
    generate_signal default_generator accelerating_uptrend
      39000%float 2%float = Ok (Some s) /\
    (200 <= List.length accelerating_uptrend)%nat /\
    (min_confidence default_generator <=? confidence s)%float = true.
Proof.
  assert (Hsome : exists s,
            generate_signal default_generator accelerating_uptrend
              39000%float 2%float = Ok (Some s))
    by (eexists; vm_compute; reflexivity).
  destruct Hsome as [s Hs]. exists s. split; [exact Hs|].
  destruct (emitted_signal_follows_trend default_generator
              accelerating_uptrend 39000%float 2%float s Hs)
    as (Hlen & Hmin & _).
  split; [exact Hlen | exact Hmin].
Defined.

(** X20 at work: the accelerating window. *)
Lemma default_signal_needs_a_confirmation_witness :
  exists s,
    generate_signal default_generator accelerating_uptrend
      39000%float 2%float = Ok (Some s) /\
    (confidence s = 0.8%float \/ confidence s = 1.0%float).
Proof.
  eexists. split; [vm_compute; reflexivity|].
  apply (default_signal_needs_a_confirmation accelerating_uptrend
           39000%float 2%float).
  vm_compute. reflexivity.
Defined.

End MoreRuns.
